(** * AutoUI: a shallow embedding of the device automation engine

    Source: [src/auto_click_enhanced_simple.py].

    The development follows the classes of the program:
    - [StatusLogger]   the bounded event history ([log], [get_history]);
    - [AutoClicker]    adb commands, template matching, randomized clicks,
                       device discovery ([list_devices], in [Discovery]);
    - [AutoClickUI]    the per-device worker loop ([device_thread_func]) and
                       the supervisor tables ([start_device], [stop_device]);
                       in [Controls], pause and resume ([toggle_device],
                       [toggle_all_devices]), [start_task] and the numbers
                       of the status bar; the consumer of the message queue
                       ([process_message_queue]).

    Conventions.
    - Python [int] is [Z]; Python [str] is [string]; [None] is [option].
    - Wall-clock time ([time.time()], [time.sleep]) is counted in
      milliseconds in [Z]: the constant [1.0] of the source is [1000].
    - Everything outside the process (adb, the file system, OpenCV, the
      random generator, the Tk shell, other threads writing the shared
      events) is an oracle the caller supplies.
    - [try: ... except Exception: ...] is written with the error monad
      [exc]. *)

From Stdlib Require Import ZArith List String Ascii Bool Lia.
From Stdlib Require Import QArith Reals Lra.
From stdpp Require Import gmap strings list pretty.

Open Scope string_scope.
Open Scope list_scope.
Open Scope Z_scope.

(** ** Python exceptions *)

Inductive exc (A : Type) : Type :=
| Ret (a : A)
| Raise (what : string).
Arguments Ret {A} a.
Arguments Raise {A} what.

Definition exc_bind {A B} (m : exc A) (k : A -> exc B) : exc B :=
  match m with
  | Ret a => k a
  | Raise e => Raise e
  end.

(** [try: body except Exception as e: handler(e)] *)
Definition try_except {A} (body : exc A) (handler : string -> exc A) : exc A :=
  match body with
  | Ret a => Ret a
  | Raise e => handler e
  end.

(** ** Python sequences *)

(** [l[start:]] for a possibly negative [start]. *)
Definition py_slice_from {A} (start : Z) (l : list A) : list A :=
  let len := Z.of_nat (length l) in
  let lo := if start <? 0 then Z.max 0 (start + len) else Z.min start len in
  skipn (Z.to_nat lo) l.

(** The last [k] elements of a list. *)
Definition last_n {A} (k : nat) (l : list A) : list A :=
  skipn (length l - k) l.

(** ASCII white space, the characters [str.strip()] and [str.split()]
    treat as separators. *)
Definition is_space (c : ascii) : bool :=
  let n := nat_of_ascii c in
  ((9 <=? n)%nat && (n <=? 13)%nat) || (n =? 32)%nat || ((28 <=? n)%nat && (n <=? 31)%nat).

Fixpoint lstrip (s : string) : string :=
  match s with
  | String c r => if is_space c then lstrip r else s
  | EmptyString => EmptyString
  end.

(** Drops trailing white space: a character is kept when something that
    is not white space follows, or when it is itself not white space. *)
Fixpoint rstrip (s : string) : string :=
  match s with
  | EmptyString => EmptyString
  | String c r =>
      match rstrip r with
      | EmptyString => if is_space c then EmptyString else String c EmptyString
      | r' => String c r'
      end
  end.

Definition strip (s : string) : string := rstrip (lstrip s).

(** [s.split(sep)] for a one-character separator: never empty, keeps
    empty fields. *)
Fixpoint split_on (sep : ascii) (s : string) : list string :=
  match s with
  | EmptyString => [EmptyString]
  | String c r =>
      if Ascii.eqb c sep then EmptyString :: split_on sep r
      else match split_on sep r with
           | w :: ws => String c w :: ws
           | [] => [String c EmptyString]
           end
  end.

(** [s.split()] : runs of white space separate, no empty fields. *)
Fixpoint split_ws_aux (cur : option string) (s : string) : list string :=
  match s with
  | EmptyString => match cur with Some w => [w] | None => [] end
  | String c r =>
      if is_space c then
        match cur with
        | Some w => w :: split_ws_aux None r
        | None => split_ws_aux None r
        end
      else
        split_ws_aux (Some (match cur with Some w => w +:+ String c EmptyString
                                      | None => String c EmptyString end)) r
  end.

Definition split_ws (s : string) : list string := split_ws_aux None s.

(** [s.startswith(p)] *)
Fixpoint startswith (p s : string) : bool :=
  match p, s with
  | EmptyString, _ => true
  | String a p', String b s' => Ascii.eqb a b && startswith p' s'
  | String _ _, EmptyString => false
  end.

(** ** StatusLogger *)

Inductive Level := Info | Warning | Error.

Record LogEntry := mkEntry {
  le_time : string;
  le_device : string;
  le_message : string;
  le_level : Level
}.

(** Messages on the module-level [message_queue]. *)
Inductive QueueMsg := LogEvent (e : LogEntry).

Module StatusLogger.

(** The logger object together with the two module-level sinks [log]
    writes to. *)
Record t := mk {
  history : list LogEntry;
  message_queue : list QueueMsg;
  syslog : list (Level * string)
}.

Definition init : t := mk [] [] [].

(** [StatusLogger.log]; [now_str] is [time.strftime("%H:%M:%S")]. *)
Definition log (now_str device message : string) (level : Level) (s : t) : t :=
  let log_entry := mkEntry now_str device message level in
  let h := history s ++ [log_entry] in
  let h := if (1000 <? Z.of_nat (length h)) then py_slice_from (-1000) h else h in
  mk h
     (message_queue s ++ [LogEvent log_entry])
     (syslog s ++ [(level, "[" +:+ device +:+ "] " +:+ message)]).

(** [StatusLogger.get_history] *)
Definition get_history (count : Z) (s : t) : list LogEntry :=
  py_slice_from (- count) (history s).

(** Publishing a sequence of entries, oldest first. *)
Definition log_all (es : list LogEntry) (s : t) : t :=
  fold_left (fun acc e => log (le_time e) (le_device e) (le_message e) (le_level e) acc) es s.

End StatusLogger.

(** ** The outside world *)

(** A decoded image: [shape[:2]] and the pixel bytes. *)
Record Image := mkImage {
  img_h : Z;
  img_w : Z;
  img_px : list Z
}.

(** OpenCV and the template directory, as [find_template] uses them.
    Templates are read-only artifacts and [cv2.matchTemplate] is a
    function of its arguments, so none of this depends on time. *)
Record Vision := mkVision {
  (** [os.path.exists] *)
  path_exists : string -> bool;
  (** [cv2.imread]; [None] for a file OpenCV cannot decode *)
  imread : string -> option Image;
  (** [cv2.matchTemplate(screen, template, TM_CCOEFF_NORMED)] followed by
      [cv2.minMaxLoc]: the best score and its top-left corner
      [(max_loc[0], max_loc[1])], or a raised [cv2.error] *)
  match_template : Image -> Image -> exc (Q * (Z * Z))
}.

(** The part of numpy [random_click] uses, for an angle type of the
    caller's choice: [int(r * np.cos(a))] and [int(r * np.sin(a))]. *)
Record Numpy (Angle : Type) := mkNumpy {
  int_mul_cos : Z -> Angle -> Z;
  int_mul_sin : Z -> Angle -> Z
}.
Arguments int_mul_cos {Angle} _ _ _.
Arguments int_mul_sin {Angle} _ _ _.

(** What the process observes of its surroundings.  Every call that
    leaves the process takes the next answer of the oracle: the fields
    are indexed by the number of such calls made so far. *)
Record Env (Angle : Type) := mkEnv {
  (** time the call takes, in ms *)
  e_dur : nat -> Z;
  (** [time.strftime("%H:%M:%S")] at a clock value *)
  e_strftime : Z -> string;
  (** [subprocess.check_output]: the output, or [None] when it raises *)
  e_sh : nat -> string -> option string;
  (** the frame [get_screen] ends up with *)
  e_screen : nat -> option Image;
  (** [os.listdir(template_dir)], or [None] when it raises *)
  e_listdir : nat -> option (list string);
  (** [random.randint(a, b)] *)
  e_randint : nat -> Z -> Z -> Z;
  (** [random.uniform(a, b)] for durations, in ms *)
  e_uniform : nat -> Z -> Z -> Z;
  (** [random.uniform(0, 2 * np.pi)] *)
  e_angle : nat -> Angle;
  (** whether the Tk refresh [update_status] returns normally *)
  e_ui_ok : nat -> bool;
  (** the supervisor set the stop event since the last look *)
  e_stop : nat -> bool;
  (** the supervisor wrote the pause event since the last look *)
  e_pause : nat -> option bool
}.
Arguments e_dur {Angle} _ _.
Arguments e_strftime {Angle} _ _.
Arguments e_sh {Angle} _ _ _.
Arguments e_screen {Angle} _ _.
Arguments e_listdir {Angle} _ _.
Arguments e_randint {Angle} _ _ _ _.
Arguments e_uniform {Angle} _ _ _ _.
Arguments e_angle {Angle} _ _.
Arguments e_ui_ok {Angle} _ _.
Arguments e_stop {Angle} _ _.
Arguments e_pause {Angle} _ _.

(** Calls that leave the process, in the order they were made. *)
Inductive Event :=
| EvCapture (at_ms : Z)
| EvFind (template_name : string)
| EvTap (at_ms : Z) (x y : Z)
| EvAdb (command : string) (ok : bool)
| EvSleep (ms : Z)
| EvUI.

(** The state one worker thread reads and writes. *)
Record World := mkWorld {
  w_now : Z;                    (** the wall clock, in ms *)
  w_tick : nat;                 (** oracle calls made so far *)
  w_stop : bool;                (** [stop_event] *)
  w_pause : bool;               (** [pause_event] *)
  w_logger : StatusLogger.t;    (** [status_logger] and [message_queue] *)
  w_trace : list Event;
  w_last_log_time : Z;          (** the local [last_log_time] of the loop *)
  w_last_click_time : Z;        (** the local [last_click_time] of the loop *)
  w_clicks : list (string * Z)  (** ghost: every [clicked = True;
                                    last_click_time = current_time] the loop
                                    executed, with the template clicked *)
}.

Definition set_now (f : Z -> Z) (w : World) : World :=
  mkWorld (f (w_now w)) (w_tick w) (w_stop w) (w_pause w) (w_logger w) (w_trace w)
          (w_last_log_time w) (w_last_click_time w) (w_clicks w).
Definition next_tick (w : World) : World :=
  mkWorld (w_now w) (S (w_tick w)) (w_stop w) (w_pause w) (w_logger w) (w_trace w)
          (w_last_log_time w) (w_last_click_time w) (w_clicks w).
Definition set_stop (b : bool) (w : World) : World :=
  mkWorld (w_now w) (w_tick w) b (w_pause w) (w_logger w) (w_trace w)
          (w_last_log_time w) (w_last_click_time w) (w_clicks w).
Definition set_pause (b : bool) (w : World) : World :=
  mkWorld (w_now w) (w_tick w) (w_stop w) b (w_logger w) (w_trace w)
          (w_last_log_time w) (w_last_click_time w) (w_clicks w).
Definition set_logger (f : StatusLogger.t -> StatusLogger.t) (w : World) : World :=
  mkWorld (w_now w) (w_tick w) (w_stop w) (w_pause w) (f (w_logger w)) (w_trace w)
          (w_last_log_time w) (w_last_click_time w) (w_clicks w).
Definition emit (e : Event) (w : World) : World :=
  mkWorld (w_now w) (w_tick w) (w_stop w) (w_pause w) (w_logger w) (w_trace w ++ [e])
          (w_last_log_time w) (w_last_click_time w) (w_clicks w).
Definition set_last_log_time (t : Z) (w : World) : World :=
  mkWorld (w_now w) (w_tick w) (w_stop w) (w_pause w) (w_logger w) (w_trace w)
          t (w_last_click_time w) (w_clicks w).
Definition set_last_click_time (t : Z) (w : World) : World :=
  mkWorld (w_now w) (w_tick w) (w_stop w) (w_pause w) (w_logger w) (w_trace w)
          (w_last_log_time w) t (w_clicks w).
(** [clicked = True; last_click_time = current_time] after a click on
    [template_name]. *)
Definition record_click (template_name : string) (t : Z) (w : World) : World :=
  mkWorld (w_now w) (w_tick w) (w_stop w) (w_pause w) (w_logger w) (w_trace w)
          (w_last_log_time w) t (w_clicks w ++ [(template_name, t)]).

(** Stateful code that may raise; effects made before a [raise] stay. *)
Definition M (A : Type) : Type := World -> exc A * World.

Definition ret {A} (a : A) : M A := fun w => (Ret a, w).
Definition raise {A} (what : string) : M A := fun w => (Raise what, w).
Definition bind {A B} (m : M A) (k : A -> M B) : M B :=
  fun w => match m w with
           | (Ret a, w') => k a w'
           | (Raise e, w') => (Raise e, w')
           end.
Definition catch {A} (body : M A) (handler : string -> M A) : M A :=
  fun w => match body w with
           | (Ret a, w') => (Ret a, w')
           | (Raise e, w') => handler e w'
           end.
Definition modify (f : World -> World) : M unit := fun w => (Ret tt, f w).
Definition gets {A} (f : World -> A) : M A := fun w => (Ret (f w), w).

Declare Scope M_scope.
Delimit Scope M_scope with M.
Notation "'let*' x ':=' m 'in' k" := (bind m (fun x => k))
  (at level 10, x name, m at level 100, k at level 200) : M_scope.
Notation "'let*' ' p ':=' m 'in' k" := (bind m (fun x => let 'p := x in k))
  (at level 10, p pattern, m at level 100, k at level 200) : M_scope.
Notation "m '>>' k" := (bind m (fun _ => k))
  (at level 90, right associativity) : M_scope.

(** ** AutoClicker *)

Definition dquote : string := String (ascii_of_nat 34) EmptyString.
Definition backslash : string := String (ascii_of_nat 92) EmptyString.

(** [s.endswith(suffix)] *)
Definition endswith (suffix s : string) : bool :=
  let n := String.length s in
  let k := String.length suffix in
  (k <=? n)%nat && String.eqb (String.substring (n - k) k s) suffix.

(** [os.path.splitext(file)[0]] for a bare file name: the last dot starts
    the extension unless only dots precede it. *)
Fixpoint all_dots (s : string) : bool :=
  match s with
  | EmptyString => true
  | String c r => Ascii.eqb c "."%char && all_dots r
  end.

Fixpoint last_dot (s : string) : option nat :=
  match s with
  | EmptyString => None
  | String c r =>
      match last_dot r with
      | Some i => Some (S i)
      | None => if Ascii.eqb c "."%char then Some 0%nat else None
      end
  end.

Definition splitext_root (file : string) : string :=
  match last_dot file with
  | Some i =>
      let root := String.substring 0 i file in
      if all_dots root then file else root
  | None => file
  end.

Module AutoClicker.

Definition adb_path : string := "F:\testclinm\platform-tools\adb.exe".
Definition template_dir : string := "F:\testclinm\templates".
(** [self.threshold = 0.8] *)
Definition threshold : Q := 8 # 10.

(** [os.path.join(self.template_dir, f"{template_name}.png")] *)
Definition template_path (template_name : string) : string :=
  template_dir +:+ backslash +:+ template_name +:+ ".png".

(** [AutoClicker.find_template], the part that does not touch the
    device: [screen] is the frame the caller captured. *)
Definition find_template (cv : Vision) (template_name : string) (screen : Image)
  : exc (option (Z * Z)) :=
  try_except
    (let template_path := template_path template_name in
     if negb (path_exists cv template_path) then Ret None
     else
       match imread cv template_path with
       | None => Ret None
       | Some template =>
           exc_bind (match_template cv screen template) (fun r =>
           let '(max_val, max_loc) := r in
           if Qle_bool threshold max_val then
             let h := img_h template in
             let w := img_w template in
             let center_x := fst max_loc + w / 2 in
             let center_y := snd max_loc + h / 2 in
             Ret (Some (center_x, center_y))
           else Ret None)
       end)
    (fun _ => Ret None).

End AutoClicker.

Section Engine.

Context {Angle : Type}.
Variable np : Numpy Angle.
Variable cv : Vision.
Variable env : Env Angle.

Local Open Scope M_scope.

(** *** Primitives *)

(** One call that leaves the process: it consumes an oracle answer and
    takes the time the oracle says. *)
Definition external {A} (answer : nat -> A) : M A :=
  fun w => (Ret (answer (w_tick w)),
            next_tick (set_now (fun t => t + e_dur env (w_tick w)) w)).

(** [time.time()] *)
Definition time_time : M Z := gets w_now.

(** [time.sleep(ms)] *)
Definition sleep (ms : Z) : M unit :=
  modify (emit (EvSleep ms)) >>
  modify (set_now (fun t => t + ms)) >>
  external (fun _ => tt).

(** [stop_event.is_set()]: writes of the supervisor arrive first. *)
Definition stop_is_set : M bool :=
  let* ext := external (e_stop env) in
  modify (fun w => set_stop (w_stop w || ext) w) >>
  gets w_stop.

(** [pause_event.is_set()] *)
Definition pause_is_set : M bool :=
  let* ext := external (e_pause env) in
  modify (fun w => match ext with Some b => set_pause b w | None => w end) >>
  gets w_pause.

(** [pause_event.set()] *)
Definition pause_set : M unit := modify (set_pause true).

(** [status_logger.log(device, message, level)] *)
Definition log (device message : string) (level : Level) : M unit :=
  modify (fun w =>
    set_logger (StatusLogger.log (e_strftime env (w_now w)) device message level) w).

(** [message_queue.put(("log_event", {...}))] *)
Definition queue_put_log (device message : string) (level : Level) : M unit :=
  modify (fun w =>
    set_logger (fun s =>
      StatusLogger.mk (StatusLogger.history s)
        (StatusLogger.message_queue s
           ++ [LogEvent (mkEntry (e_strftime env (w_now w)) device message level)])
        (StatusLogger.syslog s)) w).

(** [self.update_status()]: Tk calls, which may raise. *)
Definition update_status : M unit :=
  modify (emit EvUI) >>
  let* ok := external (e_ui_ok env) in
  if ok then ret tt else raise "TclError".

(** [subprocess.check_output(cmd, shell=True, ...)] *)
Definition check_output (cmd : string) : M string :=
  let* out := external (fun n => e_sh env n cmd) in
  match out with
  | Some text => modify (emit (EvAdb cmd true)) >> ret text
  | None => modify (emit (EvAdb cmd false)) >> raise "CalledProcessError"
  end.

(** *** AutoClicker methods that talk to the device *)

(** [AutoClicker.execute_adb_command] *)
Definition execute_adb_command (device_id command : string) : M string :=
  catch
    (let full_command :=
       dquote +:+ AutoClicker.adb_path +:+ dquote +:+ " -s " +:+ device_id
              +:+ " " +:+ command in
     let* result := check_output full_command in
     ret (strip result))
    (fun _ => ret EmptyString).

(** [AutoClicker.tap] *)
Definition tap (device_id : string) (x y : Z) : M bool :=
  catch
    (modify (fun w => emit (EvTap (w_now w) x y) w) >>
     execute_adb_command device_id
       ("shell input tap " +:+ pretty x +:+ " " +:+ pretty y) >>
     ret true)
    (fun _ => ret false).

(** [AutoClicker.random_click] *)
Definition random_click (device_id : string) (x y : Z) (template_name : string)
  : M bool :=
  catch
    (let click_min := 5 in
     let click_max := 30 in
     let* offset := external (fun n => e_randint env n click_min click_max) in
     let* angle := external (e_angle env) in
     let offset_x := int_mul_cos np offset angle in
     let offset_y := int_mul_sin np offset angle in
     let click_x := x + offset_x in
     let click_y := y + offset_y in
     tap device_id click_x click_y >>
     ret true)
    (fun _ => ret false).

(** [AutoClicker.random_delay] *)
Definition random_delay (template_name : string) (min_delay max_delay : Z) : M unit :=
  let* delay := external (fun n => e_uniform env n min_delay max_delay) in
  sleep delay.

(** [AutoClicker.get_template_names] *)
Definition get_template_names : M (list string) :=
  let* files := external (e_listdir env) in
  match files with
  | Some fs => ret (map splitext_root (List.filter (endswith ".png") fs))
  | None => ret []
  end.

(** [AutoClicker.get_screen]: screenshot, pull and decode, in one call. *)
Definition get_screen (device_id : string) : M (option Image) :=
  modify (fun w => emit (EvCapture (w_now w)) w) >>
  external (e_screen env).

(** [AutoClicker.find_template] as the worker calls it. *)
Definition find_template (device_id template_name : string) (screen : Image)
  : M (option (Z * Z)) :=
  modify (emit (EvFind template_name)) >>
  external (fun _ => tt) >>
  match AutoClicker.find_template cv template_name screen with
  | Ret r => ret r
  | Raise e => raise e
  end.

(** *** AutoClickUI.device_thread_func *)

(** [click_cooldown = 1.0] *)
Definition click_cooldown : Z := 1000.

(** The three statements every pause-on-detection site repeats before
    its [break]. *)
Definition pause_and_notify (device_info detected queued : string) : M unit :=
  log device_info detected Warning >>
  pause_set >>
  queue_put_log device_info queued Warning >>
  update_status.

(** The body of [for template_name in get_template_names()] from
    [template_name] on; the result is [clicked].  The [button7] message
    prints its wait in ms, the unit of this file. *)
Fixpoint click_templates (device_id device_info : string) (current_time : Z)
    (verbose_log : bool) (screen : Image) (names : list string) : M bool :=
  match names with
  | [] => ret false
  | template_name :: rest =>
      let continue := click_templates device_id device_info current_time
                        verbose_log screen rest in
      let* stopped := stop_is_set in
      let* halted := if stopped then ret true else pause_is_set in
      if halted then ret false
      else
        let* pos := find_template device_id template_name screen in
        match pos with
        | None => continue
        | Some (x, y) =>
            (if verbose_log then
               log device_info ("找到按钮 " +:+ template_name) Info >>
               modify (set_last_log_time current_time)
             else ret tt) >>
            if String.eqb template_name "button10" then
              let* ok := random_click device_id x y template_name in
              if ok then
                log device_info "点击了 button10" Info >>
                modify (record_click template_name current_time) >>
                sleep 500 >>
                let* check_screen := get_screen device_id in
                match check_screen with
                | Some check =>
                    let* again := find_template device_id "notupo" check in
                    match again with
                    | Some _ =>
                        pause_and_notify device_info
                          "点击button10后检测到突破券不足"
                          "检测到突破券不足，已暂停" >>
                        ret true
                    | None => ret true
                    end
                | None => ret true
                end
              else continue
            else if String.eqb template_name "button7" then
              let* wait_time := external (fun n => e_uniform env n 8000 10000) in
              log device_info
                ("检测到button7，等待 " +:+ pretty wait_time +:+ " 毫秒后点击") Info >>
              sleep wait_time >>
              let* ok := random_click device_id x y template_name in
              if ok then
                log device_info "点击了 button7" Info >>
                modify (record_click template_name current_time) >>
                random_delay template_name 1000 3000 >>
                ret true
              else continue
            else
              let* ok := random_click device_id x y template_name in
              if ok then
                log device_info ("点击了 " +:+ template_name) Info >>
                modify (record_click template_name current_time) >>
                random_delay template_name 1000 3000 >>
                ret true
              else continue
        end
  end.

(** How one pass through the body of the [while] ends. *)
Inductive Flow := Next | Break.

(** The [try] block of the [while] body. *)
Definition iteration (device_id device_info : string) : M Flow :=
  let* current_time := time_time in
  let* last_log_time := gets w_last_log_time in
  let verbose_log := 10000 <? current_time - last_log_time in
  let* screen := get_screen device_id in
  match screen with
  | None =>
      log device_info "获取屏幕截图失败" Error >>
      sleep 1000 >>
      ret Next
  | Some screen =>
      let* lose_pos := find_template device_id "lose" screen in
      match lose_pos with
      | Some _ =>
          pause_and_notify device_info "检测到失败" "检测到失败，已暂停" >>
          ret Break
      | None =>
          let* notupo_pos := find_template device_id "notupo" screen in
          match notupo_pos with
          | Some _ =>
              pause_and_notify device_info "检测到突破券不足"
                               "检测到突破券不足，已暂停" >>
              ret Break
          | None =>
              let* last_click_time := gets w_last_click_time in
              if current_time - last_click_time <? click_cooldown then
                sleep 100 >> ret Next
              else
                let* names := get_template_names in
                let* clicked := click_templates device_id device_info current_time
                                  verbose_log screen names in
                if negb clicked then
                  (if verbose_log then
                     log device_info "等待可点击目标..." Info >>
                     modify (set_last_log_time current_time)
                   else ret tt) >>
                  sleep 500 >>
                  ret Next
                else ret Next
          end
      end
  end.

(** The [try] block with its [except Exception] clause: a failure
    inside one pass is logged and followed by a 2 s sleep. *)
Definition guarded_iteration (device_id device_info : string) : M Flow :=
  catch (iteration device_id device_info)
        (fun e =>
           log device_info ("点击操作出错: " +:+ e) Error >>
           sleep 2000 >>
           ret Next).

(** Whether the loop was seen to end within the fuel given. *)
Inductive Outcome := Finished | OutOfFuel.

(** [while not stop_event.is_set() and time.time() < end_time: ...] *)
Fixpoint worker_loop (fuel : nat) (device_id device_info : string) (end_time : Z)
  : M Outcome :=
  match fuel with
  | O => ret OutOfFuel
  | S fuel' =>
      let* stopped := stop_is_set in
      let* now := time_time in
      if stopped || negb (now <? end_time) then ret Finished
      else
        let* paused := pause_is_set in
        if paused then
          sleep 1000 >>
          worker_loop fuel' device_id device_info end_time
        else
          let* flow := guarded_iteration device_id device_info in
          match flow with
          | Break => ret Finished
          | Next => worker_loop fuel' device_id device_info end_time
          end
  end.

(** [AutoClickUI.device_thread_func]; [duration] is in minutes.  With
    [OutOfFuel] the thread is still inside its loop. *)
Definition device_thread_func (fuel : nat) (device_id device_info : string)
    (duration : Z) : M Outcome :=
  let* outcome :=
    catch
      (log device_info "线程启动" Info >>
       let* started := time_time in
       let end_time := started + duration * 60 * 1000 in
       modify (set_last_log_time 0) >>
       modify (set_last_click_time 0) >>
       let* outcome := worker_loop fuel device_id device_info end_time in
       match outcome with
       | Finished => log device_info "线程完成" Info >> ret Finished
       | OutOfFuel => ret OutOfFuel
       end)
      (fun e => log device_info ("线程错误: " +:+ e) Error >> ret Finished) in
  match outcome with
  | Finished => log device_info "线程清理资源" Info >> ret Finished
  | OutOfFuel => ret OutOfFuel
  end.

End Engine.

(** ** numpy over the reals *)

(** [int(r)] for a float: the integer part, toward zero. *)
Definition Rtrunc (r : R) : Z :=
  if Rle_dec 0 r then Int_part r else (- Int_part (- r))%Z.

(** numpy over the reals. *)
Definition numpy_R : Numpy R :=
  mkNumpy R (fun r a => Rtrunc (IZR r * cos a)) (fun r a => Rtrunc (IZR r * sin a)).

(** The Euclidean distance between two pixels. *)
Definition distance (p q : Z * Z) : R :=
  sqrt (IZR ((fst p - fst q) * (fst p - fst q) + (snd p - snd q) * (snd p - snd q))).


(** ** AutoClickUI: the supervisor tables *)

Module AutoClickUI.

(** A [threading.Thread] object with the two events its target was
    given; events are objects of their own, shared by reference, and
    are named by their index in the store. *)
Record Thread := mkThread {
  th_device : string;
  th_stop_event : nat;
  th_pause_event : nat;
  th_run_duration : Z;
  th_alive : bool
}.

Record t := mk {
  device_threads : gmap string nat;   (** [self.device_threads] *)
  stop_events : gmap string nat;      (** [self.stop_events] *)
  pause_events : gmap string nat;     (** [self.pause_events] *)
  threads : list Thread;              (** every thread object created *)
  events : list bool;                 (** every event object: [is_set()] *)
  ui_log : list (string * string)     (** [status_logger.log] calls *)
}.

Definition init : t := mk ∅ ∅ ∅ [] [] [].

Definition with_events (f : list bool -> list bool) (s : t) : t :=
  mk (device_threads s) (stop_events s) (pause_events s) (threads s)
     (f (events s)) (ui_log s).
Definition with_threads (f : list Thread -> list Thread) (s : t) : t :=
  mk (device_threads s) (stop_events s) (pause_events s) (f (threads s))
     (events s) (ui_log s).
Definition with_log (entry : string * string) (s : t) : t :=
  mk (device_threads s) (stop_events s) (pause_events s) (threads s)
     (events s) (ui_log s ++ [entry]).

(** [event.set()] *)
Definition event_set (ev : nat) (s : t) : t := with_events (fun es => <[ev := true]> es) s.

(** [thread.is_alive()] *)
Definition is_alive (tid : nat) (s : t) : bool :=
  match threads s !! tid with
  | Some th => th_alive th
  | None => false
  end.

(** The target function of thread [tid] returns. *)
Definition thread_exit (tid : nat) (s : t) : t :=
  with_threads (fun ths =>
    match ths !! tid with
    | Some th => <[tid := mkThread (th_device th) (th_stop_event th) (th_pause_event th)
                            (th_run_duration th) false]> ths
    | None => ths
    end) s.

(** [thread.join(0.1)] on the thread held for a device, when it is
    alive. *)
Definition join_thread (joined : bool) (tid : nat) (s : t) : t :=
  if is_alive tid s then (if joined then thread_exit tid s else s) else s.

(** [AutoClickUI.stop_device]; [joined] tells whether the thread is
    gone when [thread.join(0.1)] returns. *)
Definition stop_device (device_id : string) (joined : bool) (s : t) : t :=
  match stop_events s !! device_id with
  | Some ev =>
      let s := event_set ev s in
      match device_threads s !! device_id with
      | Some tid => with_log (device_id, "已停止") (join_thread joined tid s)
      | None => s
      end
  | None => s
  end.

(** [AutoClickUI.start_device].  [duration] is the argument ([None]
    when omitted), [dialog] what [get_duration()] would return,
    [joined] as in [stop_device], and [start_ok] whether
    [thread.start()] returns normally. *)
Definition start_device (device_id device_info : string) (duration : option Z)
    (dialog : Z) (joined start_ok : bool) (s : t) : t :=
  let asked := match duration with Some d => d =? 0 | None => true end in
  let duration := if asked then dialog else default 0 duration in
  if asked && (duration <=? 0) then s
  else
    let s := stop_device device_id joined s in
    let stop_event := length (events s) in
    let pause_event := S (length (events s)) in
    let thread := length (threads s) in
    let s := mk (<[device_id := thread]> (device_threads s))
                (<[device_id := stop_event]> (stop_events s))
                (<[device_id := pause_event]> (pause_events s))
                (threads s ++ [mkThread device_id stop_event pause_event duration false])
                (events s ++ [false; false])
                (ui_log s) in
    if start_ok then
      with_log (device_info, "开始运行")
        (with_threads
           (fun ths => <[thread := mkThread device_id stop_event pause_event duration true]> ths)
           s)
    else
      with_log (device_info, "启动线程失败")
        (mk (delete device_id (device_threads s))
            (delete device_id (stop_events s))
            (delete device_id (pause_events s))
            (threads s) (events s) (ui_log s)).

(** [AutoClickUI.stop_all_devices]: every stop event of the table is
    set, then every thread of the table is joined for 0.1 s; [joined]
    tells, per device, whether its thread is gone by then.  Neither loop
    depends on the order of the table. *)
Definition stop_all_devices (joined : string -> bool) (s : t) : t :=
  let s := foldr (fun entry s => event_set (snd entry) s) s
                 (map_to_list (stop_events s)) in
  let s := foldr (fun entry s => join_thread (joined (fst entry)) (snd entry) s) s
                 (map_to_list (device_threads s)) in
  with_log ("系统", "已停止所有设备") s.

(** What can happen to the tables: calls of the shell, and a worker
    thread reaching the end of its function. *)
Inductive Op :=
| Start (device_id device_info : string) (duration : option Z) (dialog : Z)
        (joined start_ok : bool)
| Stop (device_id : string) (joined : bool)
| StopAll (joined : string -> bool)
| Exit (tid : nat).

Definition step (s : t) (op : Op) : t :=
  match op with
  | Start d i dur dlg j ok => start_device d i dur dlg j ok s
  | Stop d j => stop_device d j s
  | StopAll j => stop_all_devices j s
  | Exit tid => thread_exit tid s
  end.

Definition run (ops : list Op) : t := fold_left step ops init.

(** The live threads working for [device_id]. *)
Definition live (s : t) (device_id : string) (tid : nat) : bool :=
  match threads s !! tid with
  | Some th => th_alive th && String.eqb (th_device th) device_id
  | None => false
  end.

(** Whether the stop event of thread [tid] is still unset. *)
Definition unstopped (s : t) (tid : nat) : bool :=
  match threads s !! tid with
  | Some th => match events s !! th_stop_event th with
               | Some b => negb b
               | None => false
               end
  | None => false
  end.

Definition live_sessions (s : t) (device_id : string) : list nat :=
  List.filter (live s device_id) (seq 0 (length (threads s))).

Definition running_sessions (s : t) (device_id : string) : list nat :=
  List.filter (fun tid => live s device_id tid && unstopped s tid)
              (seq 0 (length (threads s))).

End AutoClickUI.


(** ** AutoClicker.list_devices *)

(** [int(s)] for a decimal literal with an optional sign; anything else
    raises [ValueError]. *)
Definition digit_of (c : ascii) : option Z :=
  let n := nat_of_ascii c in
  if ((48 <=? n)%nat && (n <=? 57)%nat) then Some (Z.of_nat (n - 48)) else None.

Fixpoint digits_value (acc : Z) (s : string) : option Z :=
  match s with
  | EmptyString => Some acc
  | String c r =>
      match digit_of c with
      | Some d => digits_value (10 * acc + d) r
      | None => None
      end
  end.

Definition py_int (s : string) : option Z :=
  match s with
  | EmptyString => None
  | String c r =>
      if Ascii.eqb c "-"%char then
        match r with
        | EmptyString => None
        | _ => option_map Z.opp (digits_value 0 r)
        end
      else if Ascii.eqb c "+"%char then
        match r with
        | EmptyString => None
        | _ => digits_value 0 r
        end
      else digits_value 0 s
  end.

(** [l.index(x)] *)
Fixpoint index_of (x : Z) (l : list Z) : option nat :=
  match l with
  | [] => None
  | y :: rest => if x =? y then Some 0%nat else option_map S (index_of x rest)
  end.

(** The operating system, as [list_devices] uses it. *)
Record Shell := mkShell {
  (** [subprocess.check_output(cmd, shell=True, ...)]: the output, or
      [None] when it raises *)
  sh_check_output : string -> option string;
  (** [os.popen(cmd).read()]: what the command printed, possibly nothing *)
  sh_popen_read : string -> string
}.

Module Discovery.

Definition mumu_ports : list Z := [16384; 16416; 16448; 16480; 16512; 16544].
Definition other_ports : list Z :=
  [21503; 62001; 59000; 5555; 5556; 5557; 5558; 5559; 7555].

Definition devices_cmd : string :=
  dquote +:+ AutoClicker.adb_path +:+ dquote +:+ " devices".
Definition model_cmd_of (device_id : string) : string :=
  dquote +:+ AutoClicker.adb_path +:+ dquote +:+ " -s " +:+ device_id
         +:+ " shell getprop ro.product.model".
Definition brand_cmd_of (device_id : string) : string :=
  dquote +:+ AutoClicker.adb_path +:+ dquote +:+ " -s " +:+ device_id
         +:+ " shell getprop ro.product.brand".

(** The locals of [list_devices] the loop over the lines reads and
    writes.  [brand_cmd] is unbound until a pass assigns it, and keeps
    the value of the last pass that did. *)
Record Locals := mkLocals {
  devices : list (string * string);
  brand_cmd : option string
}.

(** The MuMu tag appended to [device_info]. *)
Definition mumu_tag (device_id device_info : string) : exc string :=
  if startswith "127.0.0.1:" device_id then
    match nth_error (split_on ":"%char device_id) 1 with
    | None => Raise "IndexError"
    | Some text =>
        match py_int text with
        | None => Raise "ValueError"
        | Some port =>
            if port =? 16384 then Ret (device_info +:+ " [MuMu主模拟器]")
            else
              match index_of port mumu_ports with
              | Some index =>
                  Ret (device_info +:+ " [MuMu模拟器-" +:+ pretty index +:+ "]")
              | None =>
                  Ret (device_info +:+ " [MuMu模拟器(端口:" +:+ pretty port +:+ ")]")
              end
        end
    end
  else Ret device_info.

(** The body of [if len(parts) >= 2 and parts[1] == 'device':] for one
    endpoint. *)
Definition identify (sh : Shell) (device_id : string) (st : Locals) : exc Locals :=
  let model_cmd := model_cmd_of device_id in
  (* try: *)
  let queried :=
    match sh_check_output sh model_cmd with
    | Some model_out =>
        let brand_cmd' := brand_cmd_of device_id in
        match sh_check_output sh brand_cmd' with
        | Some brand_out => Ret (strip model_out, strip brand_out, Some brand_cmd')
        | None =>
            (* except Exception: both commands are bound *)
            Ret (strip (sh_popen_read sh model_cmd),
                 strip (sh_popen_read sh brand_cmd'), Some brand_cmd')
        end
    | None =>
        (* except Exception: [brand_cmd] is what an earlier pass left *)
        let model := strip (sh_popen_read sh model_cmd) in
        match brand_cmd st with
        | Some earlier => Ret (model, strip (sh_popen_read sh earlier), Some earlier)
        | None => Raise "UnboundLocalError"
        end
    end in
  exc_bind queried (fun '(model, brand, bound) =>
  let device_info := brand +:+ " " +:+ model in
  exc_bind (mumu_tag device_id device_info) (fun device_info =>
  Ret (mkLocals (devices st ++ [(device_id, device_info)]) bound))).

(** [for line in lines[1:]: ...] *)
Fixpoint identify_lines (sh : Shell) (lines : list string) (st : Locals) : exc Locals :=
  match lines with
  | [] => Ret st
  | line :: rest =>
      match split_ws (strip line) with
      | device_id :: state :: _ =>
          if String.eqb state "device" then
            exc_bind (identify sh device_id st) (identify_lines sh rest)
          else identify_lines sh rest st
      | _ => identify_lines sh rest st
      end
  end.

(** Keeps the first entry of every device id. *)
Fixpoint unique_devices (device_ids : gset string) (devices : list (string * string))
  : list (string * string) :=
  match devices with
  | [] => []
  | (device_id, device_info) :: rest =>
      if decide (device_id ∈ device_ids) then unique_devices device_ids rest
      else (device_id, device_info) :: unique_devices ({[device_id]} ∪ device_ids) rest
  end.

(** [AutoClicker.list_devices].  [cache] is [self.devices];
    [mumu_devices] is what the MuMuManager block found ([[]] when the
    manager is missing or lists nothing).  The restart of the adb server
    and the [adb connect] attempts return nothing the function uses and
    are left out.  The result is the returned list and the new
    [self.devices]. *)
Definition list_devices (sh : Shell) (mumu_devices cache : list (string * string))
  : list (string * string) * list (string * string) :=
  match cache with
  | _ :: _ => (cache, cache)
  | [] =>
      let found :=
        match mumu_devices with
        | _ :: _ => Ret mumu_devices
        | [] =>
            let devices_output :=
              match sh_check_output sh devices_cmd with
              | Some out => out
              | None => sh_popen_read sh devices_cmd
              end in
            let lines := split_on (ascii_of_nat 10) (strip devices_output) in
            if (1 <? Z.of_nat (length lines)) then
              exc_bind (identify_lines sh (py_slice_from 1 lines) (mkLocals [] None))
                       (fun st => Ret (devices st))
            else Ret []
        end in
      match found with
      | Ret [] => ([], cache)
      | Ret devices => let unique := unique_devices ∅ devices in (unique, unique)
      | Raise _ => ([], cache)
      end
  end.

(** The endpoints a listing reports as connected. *)
Fixpoint endpoints (lines : list string) : list string :=
  match lines with
  | [] => []
  | line :: rest =>
      match split_ws (strip line) with
      | device_id :: state :: _ =>
          if String.eqb state "device" then device_id :: endpoints rest
          else endpoints rest
      | _ => endpoints rest
      end
  end.

End Discovery.



(** ** A small concrete installation

    Used to run the definitions: five templates, frames that show some
    of them, and right-angle click directions whose cosine and sine are
    exact. *)

Inductive Axis := East | North | West | South.

Definition numpy_axis : Numpy Axis :=
  mkNumpy Axis
    (fun r a => match a with East => r | West => - r | _ => 0 end)
    (fun r a => match a with North => r | South => - r | _ => 0 end).

(** Templates are told apart by one number. *)
Definition demo_code (template_name : string) : option Z :=
  if String.eqb template_name "lose" then Some 1
  else if String.eqb template_name "notupo" then Some 2
  else if String.eqb template_name "button10" then Some 3
  else if String.eqb template_name "button7" then Some 4
  else if String.eqb template_name "ok" then Some 5
  else None.

Definition demo_names : list string := ["lose"; "notupo"; "button10"; "button7"; "ok"].

Definition demo_template (path : string) : option Image :=
  match List.find (fun n => String.eqb (AutoClicker.template_path n) path) demo_names with
  | Some n => match demo_code n with
              | Some k => Some (mkImage 40 120 [k])
              | None => None
              end
  | None => None
  end.

(** A frame lists the codes of the templates visible in it; a visible
    template scores 0.95 at (300, 500), any other 0.2. *)
Definition demo_frame (visible : list Z) : Image := mkImage 720 1280 visible.

Definition demo_cv : Vision :=
  mkVision
    (fun path => match demo_template path with Some _ => true | None => false end)
    demo_template
    (fun screen template =>
       match img_px template with
       | [k] => if existsb (Z.eqb k) (img_px screen)
                then Ret (95 # 100, (300, 500))
                else Ret (2 # 10, (0, 0))
       | _ => Raise "cv2.error"
       end).

(** An environment in which every frame is [frame], every call takes
    [dur n] ms, adb answers [adb], random draws take their lower bound,
    the Tk refresh works and the supervisor stays silent. *)
Definition demo_env (frame : option Image) (dur : nat -> Z) (adb : option string)
  : Env Axis :=
  mkEnv Axis dur (fun _ => "12:00:00") (fun _ _ => adb) (fun _ => frame)
    (fun _ => Some ["lose.png"; "notupo.png"; "button10.png"; "button7.png";
                    "ok.png"; "notes.txt"])
    (fun _ a _ => a) (fun _ a _ => a) (fun _ => East)
    (fun _ => true) (fun _ => false) (fun _ => None).

(** A thread about to enter its loop at clock value [now]. *)
Definition demo_world (now : Z) (paused : bool) : World :=
  mkWorld now 0 false paused StatusLogger.init [] 0 0 [].

(** An environment over the reals: the magnitude drawn is the lower
    bound it was asked for, the direction is [angle]. *)
Definition real_env (angle : R) : Env R :=
  mkEnv R (fun _ => 20) (fun _ => "12:00:00") (fun _ _ => Some EmptyString)
    (fun _ => None) (fun _ => None)
    (fun _ a _ => a) (fun _ a _ => a) (fun _ => angle)
    (fun _ => true) (fun _ => false) (fun _ => None).


(** The taps of a trace: when and where. *)
Fixpoint taps (tr : list Event) : list (Z * (Z * Z)) :=
  match tr with
  | [] => []
  | EvTap t x y :: rest => (t, (x, y)) :: taps rest
  | _ :: rest => taps rest
  end.

(** The adb commands of a trace, with whether each succeeded. *)
Fixpoint adb_calls (tr : list Event) : list (string * bool) :=
  match tr with
  | [] => []
  | EvAdb c ok :: rest => (c, ok) :: adb_calls rest
  | _ :: rest => adb_calls rest
  end.

(** The frames captured in a trace. *)
Fixpoint captures (tr : list Event) : list Z :=
  match tr with
  | [] => []
  | EvCapture t :: rest => t :: captures rest
  | _ :: rest => captures rest
  end.

(** Consecutive stamps are at least [gap] apart. *)
Fixpoint spaced (gap : Z) (stamps : list Z) : Prop :=
  match stamps with
  | [] => True
  | a :: rest =>
      match rest with
      | b :: _ => a + gap <= b
      | [] => True
      end /\ spaced gap rest
  end.

(** Nothing was tapped and no click recorded from [w] to [w']. *)
Definition quiet (w w' : World) : Prop :=
  w_clicks w' = w_clicks w
  /\ w_last_click_time w' = w_last_click_time w
  /\ taps (w_trace w') = taps (w_trace w).

(** The clicks recorded so far respect the cooldown, the last of them
    is what [last_click_time] holds, and there is one of them for every
    tap dispatched since the trace held [before] taps. *)
Definition clicks_ok (before : nat) (w : World) : Prop :=
  spaced 1000 (map snd (w_clicks w))
  /\ (forall s, last (map snd (w_clicks w)) = Some s -> s = w_last_click_time w)
  /\ length (taps (w_trace w)) = (before + length (w_clicks w))%nat.

(** One pass over the templates only appends to the trace, and either
    stays quiet or dispatches one tap and records one click, stamped
    [current_time]. *)
Definition one_click (current_time : Z) (w w' : World) : Prop :=
  (exists ext, w_trace w' = w_trace w ++ ext)
  /\ (quiet w w'
      \/ (exists name tap,
            w_clicks w' = w_clicks w ++ [(name, current_time)]
            /\ w_last_click_time w' = current_time
            /\ taps (w_trace w') = taps (w_trace w) ++ [tap])).

(** A host with two emulators attached.  [emulator-5554] answers the
    model query and then goes silent; [emulator-5556] answers. *)
Definition demo_listing : string :=
  "List of devices attached" +:+ String (ascii_of_nat 10) EmptyString
  +:+ "emulator-5554" +:+ String (ascii_of_nat 9) EmptyString +:+ "device"
  +:+ String (ascii_of_nat 10) EmptyString
  +:+ "emulator-5556" +:+ String (ascii_of_nat 9) EmptyString +:+ "device"
  +:+ String (ascii_of_nat 10) EmptyString.


(** 1500 numbered events. *)
Definition events_1500 : list LogEntry :=
  map (fun i => mkEntry "12:00:00" "dev" (String (ascii_of_nat (i mod 128)) EmptyString) Info)
      (seq 0 1500).

(** ** Further observations on a trace *)

(** The templates searched in a trace, in order. *)
Fixpoint finds (tr : list Event) : list string :=
  match tr with
  | [] => []
  | EvFind n :: rest => n :: finds rest
  | _ :: rest => finds rest
  end.

(** The environment of [demo_env] with a frame per capture: [frames n]
    is what the capture made as the [n]-th call outside ends up with. *)
Definition scripted_env (frames : nat -> option Image) (dur : nat -> Z)
    (adb : option string) : Env Axis :=
  mkEnv Axis dur (fun _ => "12:00:00") (fun _ _ => adb) frames
    (fun _ => Some ["lose.png"; "notupo.png"; "button10.png"; "button7.png";
                    "ok.png"; "notes.txt"])
    (fun _ a _ => a) (fun _ a _ => a) (fun _ => East)
    (fun _ => true) (fun _ => false) (fun _ => None).

(** The two detailed messages of the worker, which it publishes only
    in a pass with [verbose_log]: the waiting message and the
    found-button message. *)
Definition is_verbose_message (m : QueueMsg) : bool :=
  match m with
  | LogEvent e =>
      String.eqb (le_message e) "等待可点击目标..."
      || startswith "找到按钮 " (le_message e)
  end.

(** ** AutoClickUI: pause, resume and the status bar *)

Module Controls.

Import AutoClickUI.

(** [event.clear()] *)
Definition event_clear (ev : nat) (s : t) : t :=
  with_events (fun es => <[ev := false]> es) s.

(** [event.is_set()] *)
Definition event_is_set (ev : nat) (s : t) : bool :=
  default false (events s !! ev).

(** [for d_id, d_info in self.auto_clicker.devices: if d_id == device_id:
    device_info = d_info; break], from [device_info = None]. *)
Fixpoint device_info_of (devices : list (string * string)) (device_id : string)
  : option string :=
  match devices with
  | [] => None
  | (d_id, d_info) :: rest =>
      if String.eqb d_id device_id then Some d_info
      else device_info_of rest device_id
  end.

(** [AutoClickUI.toggle_device].  [devices] is [self.auto_clicker.devices];
    [dialog], [joined] and [start_ok] are what the [start_device] of a
    restart is given. *)
Definition toggle_device (devices : list (string * string)) (device_id : string)
    (dialog : Z) (joined start_ok : bool) (s : t) : t :=
  match pause_events s !! device_id with
  | Some pause_event =>
      if event_is_set pause_event s then
        let s := with_log (device_id, "继续运行") (event_clear pause_event s) in
        match device_threads s !! device_id with
        | Some tid =>
            let stop_unset :=
              match stop_events s !! device_id with
              | Some stop_event => negb (event_is_set stop_event s)
              | None => false
              end in
            if negb (is_alive tid s) && stop_unset then
              match device_info_of devices device_id, threads s !! tid with
              | Some (String c info), Some thread =>
                  let device_info := String c info in
                  let duration := th_run_duration thread in
                  with_log (device_info, "重新启动线程")
                    (start_device device_id device_info (Some duration)
                       dialog joined start_ok s)
              | _, _ => s
              end
            else s
        | None => s
        end
      else with_log (device_id, "已暂停") (event_set pause_event s)
  | None => s
  end.

(** [AutoClickUI.toggle_all_devices] *)
Definition toggle_all_devices (pause : bool) (s : t) : t :=
  let s := foldr (fun entry s => if pause then event_set (snd entry) s
                                 else event_clear (snd entry) s)
                 s (map_to_list (pause_events s)) in
  with_log ("系统", if pause then "已暂停所有设备" else "已继续所有设备") s.

(** The three numbers [update_status] writes to the status bar. *)
Definition running_count (s : t) : nat :=
  length (List.filter (fun entry => negb (event_is_set (snd entry) s))
                      (map_to_list (stop_events s))).
Definition paused_count (s : t) : nat :=
  length (List.filter (fun entry => event_is_set (snd entry) s)
                      (map_to_list (pause_events s))).
Definition total_count (s : t) : nat := size (device_threads s).

(** [pause_event.set()] as the worker thread [tid] calls it on a
    detection. *)
Definition worker_pauses (tid : nat) (s : t) : t :=
  match threads s !! tid with
  | Some th => event_set (th_pause_event th) s
  | None => s
  end.

(** Everything that can happen to the tables: the calls of the shell, a
    worker pausing itself, a worker ending. *)
Inductive Command :=
| Basic (op : Op)
| Toggle (devices : list (string * string)) (device_id : string) (dialog : Z)
         (joined start_ok : bool)
| ToggleAll (pause : bool)
| WorkerPauses (tid : nat).

Definition command (s : t) (c : Command) : t :=
  match c with
  | Basic op => step s op
  | Toggle devices d dlg j ok => toggle_device devices d dlg j ok s
  | ToggleAll pause => toggle_all_devices pause s
  | WorkerPauses tid => worker_pauses tid s
  end.

Definition session (cs : list Command) : t := fold_left command cs init.

(** Threads and events are created together: thread [tid] was given the
    events [2 * tid] and [2 * tid + 1], and the three tables hold, for
    the same devices, a thread and the two events it was given. *)
Definition layout_ok (s : t) : Prop :=
  length (events s) = (2 * length (threads s))%nat
  /\ (forall tid th, threads s !! tid = Some th ->
        th_stop_event th = (2 * tid)%nat /\ th_pause_event th = S (2 * tid))
  /\ (forall d tid, device_threads s !! d = Some tid ->
        exists th, threads s !! tid = Some th /\ th_device th = d)
  /\ (forall d, stop_events s !! d = (fun tid => (2 * tid)%nat) <$> device_threads s !! d)
  /\ (forall d, pause_events s !! d = (fun tid => S (2 * tid)) <$> device_threads s !! d).

(** [AutoClickUI.start_task], from the answers of its two dialogs:
    [duration] is what [get_duration()] returned and [selected] what
    [select_devices()] returned; [joined] and [start_ok] tell, per
    device, how its [start_device] goes. *)
Definition start_task (duration : Z) (selected : list (string * string))
    (joined start_ok : string -> bool) (s : t) : t :=
  if duration <=? 0 then s
  else
    match selected with
    | [] => s
    | _ =>
        fold_left
          (fun s entry =>
             start_device (fst entry) (snd entry) (Some duration) 0
               (joined (fst entry)) (start_ok (fst entry)) s)
          selected s
    end.

(** The tables hold for [device_id] a live thread planned for
    [duration] minutes whose stop and pause signals are both unset. *)
Definition runs_for (s : t) (device_id : string) (duration : Z) : Prop :=
  exists tid th,
    device_threads s !! device_id = Some tid
    /\ threads s !! tid = Some th
    /\ th_device th = device_id
    /\ th_alive th = true
    /\ th_run_duration th = duration
    /\ events s !! th_stop_event th = Some false
    /\ events s !! th_pause_event th = Some false.

End Controls.

(** ** AutoClicker: screenshots to a file, and matching two files *)

(** [s.replace(':', '_')] *)
Fixpoint replace_colons (s : string) : string :=
  match s with
  | EmptyString => EmptyString
  | String c r =>
      String (if Ascii.eqb c ":"%char then "_"%char else c) (replace_colons r)
  end.

(** [f"temp/screenshot_{device_id.replace(':', '_')}.png"] *)
Definition screenshot_path_of (device_id : string) : string :=
  "temp/screenshot_" +:+ replace_colons device_id +:+ ".png".

Section Screenshots.

Context {Angle : Type}.
Variable env : Env Angle.
(** whether [os.makedirs("temp", exist_ok=True)] returns normally *)
Variable makedirs_ok : nat -> bool.

Local Open Scope M_scope.

Definition makedirs : M unit :=
  let* ok := external env makedirs_ok in
  if ok then ret tt else raise "OSError".

(** [AutoClicker.take_screenshot] *)
Definition take_screenshot (device_id : string) : M (option string) :=
  catch
    (makedirs >>
     execute_adb_command env device_id "shell screencap -p /sdcard/screenshot.png" >>
     let screenshot_path := screenshot_path_of device_id in
     execute_adb_command env device_id
       ("pull /sdcard/screenshot.png " +:+ screenshot_path) >>
     execute_adb_command env device_id "shell rm /sdcard/screenshot.png" >>
     ret (Some screenshot_path))
    (fun _ => ret None).

End Screenshots.

(** [AutoClicker.find_image]: both images are read from files. *)
Definition find_image (cv : Vision) (screenshot_path template_path : string)
  : exc (option (Z * Z * Q)) :=
  try_except
    (let screenshot := imread cv screenshot_path in
     let template := imread cv template_path in
     match screenshot, template with
     | Some screenshot, Some template =>
         exc_bind (match_template cv screenshot template) (fun r =>
         let '(max_val, max_loc) := r in
         if Qle_bool AutoClicker.threshold max_val then
           let h := img_h template in
           let w := img_w template in
           let center_x := fst max_loc + w / 2 in
           let center_y := snd max_loc + h / 2 in
           Ret (Some (center_x, center_y, max_val))
         else Ret None)
     | _, _ => Ret None
     end)
    (fun _ => Ret None).

(** [demo_cv] with one more file: a screenshot holding [frame]. *)
Definition shot_cv (screenshot_path : string) (frame : Image) : Vision :=
  mkVision
    (fun path => String.eqb path screenshot_path || path_exists demo_cv path)
    (fun path => if String.eqb path screenshot_path then Some frame
                 else imread demo_cv path)
    (match_template demo_cv).

(** ** AutoClickUI.process_message_queue *)

Section MainThread.

Context {Angle : Type}.
Variable env : Env Angle.

Local Open Scope M_scope.

(** [message_queue.get_nowait()]: the oldest message, or [queue.Empty]. *)
Definition get_nowait : M (option QueueMsg) :=
  let* queue := gets (fun w => StatusLogger.message_queue (w_logger w)) in
  match queue with
  | [] => ret None
  | message :: rest =>
      modify (set_logger (fun s =>
        StatusLogger.mk (StatusLogger.history s) rest (StatusLogger.syslog s))) >>
      ret (Some message)
  end.

(** [for _ in range(n): try: ... except queue.Empty: break] *)
Fixpoint drain (n : nat) : M unit :=
  match n with
  | O => ret tt
  | S n' =>
      let* message := get_nowait in
      match message with
      | None => ret tt
      | Some (LogEvent data) =>
          (* message_type == "log_event" *)
          update_status env >>
          drain n'
      end
  end.

(** [logger.error(text)] *)
Definition logger_error (text : string) : M unit :=
  modify (set_logger (fun s =>
    StatusLogger.mk (StatusLogger.history s) (StatusLogger.message_queue s)
                    (StatusLogger.syslog s ++ [(Error, text)]))).

(** [AutoClickUI.process_message_queue], up to the [root.after] that
    schedules the next call. *)
Definition process_message_queue : M unit :=
  catch (drain 100)
        (fun e => logger_error ("处理消息队列出错: " +:+ e)).

End MainThread.

(** The status refreshes of a trace. *)
Fixpoint refreshes (tr : list Event) : nat :=
  match tr with
  | [] => 0%nat
  | EvUI :: rest => S (refreshes rest)
  | _ :: rest => refreshes rest
  end.

(* ===================================================================== *)
(** * Properties *)
(* ===================================================================== *)

(** ** StatusLogger: the bounded history *)

Lemma py_slice_from_neg {A} (k : Z) (l : list A) :
  0 < k -> py_slice_from (- k) l = last_n (Z.to_nat k) l.
Proof.
  intros Hk. unfold py_slice_from, last_n.
  replace (- k <? 0) with true by (symmetry; apply Z.ltb_lt; lia).
  f_equal. lia.
Qed.

Lemma last_n_length {A} (k : nat) (l : list A) :
  length (last_n k l) = Nat.min (length l) k.
Proof. unfold last_n. rewrite length_skipn. lia. Qed.

Lemma last_n_all {A} (k : nat) (l : list A) :
  (length l <= k)%nat -> last_n k l = l.
Proof.
  intros H. unfold last_n. replace (length l - k)%nat with 0%nat by lia.
  reflexivity.
Qed.

Lemma last_n_app_absorb {A} (k : nat) (a b : list A) :
  last_n k (last_n k a ++ b) = last_n k (a ++ b).
Proof.
  destruct (Nat.le_gt_cases (length a) k) as [Hle | Hgt].
  - now rewrite (last_n_all k a).
  - unfold last_n at 1 3. rewrite !length_app, last_n_length.
    unfold last_n.
    replace (Nat.min (length a) k + length b - k)%nat with (length b) by lia.
    replace (length a + length b - k)%nat
      with (length b + (length a - k))%nat by lia.
    rewrite <- skipn_skipn. f_equal.
    rewrite skipn_app.
    replace (length a - k - length a)%nat with 0%nat by lia.
    reflexivity.
Qed.

Lemma log_history now_str device message level s :
  StatusLogger.history (StatusLogger.log now_str device message level s)
  = last_n 1000 (StatusLogger.history s ++ [mkEntry now_str device message level]).
Proof.
  unfold StatusLogger.log. cbn [StatusLogger.history].
  set (h := StatusLogger.history s ++ _).
  destruct (1000 <? Z.of_nat (length h)) eqn:E.
  - now rewrite (py_slice_from_neg 1000) by lia.
  - apply Z.ltb_ge in E. symmetry. apply last_n_all. lia.
Qed.

Lemma log_all_history es s :
  (length (StatusLogger.history s) <= 1000)%nat ->
  StatusLogger.history (StatusLogger.log_all es s)
  = last_n 1000 (StatusLogger.history s ++ es).
Proof.
  revert s. induction es as [| e es IH]; intros s Hs.
  - cbn. rewrite app_nil_r. symmetry. now apply last_n_all.
  - cbn [StatusLogger.log_all fold_left].
    change (fold_left _ es ?x) with (StatusLogger.log_all es x).
    rewrite IH; rewrite log_history.
    + destruct e as [t d m l]. cbn [le_time le_device le_message le_level].
      rewrite last_n_app_absorb. now rewrite <- app_assoc.
    + rewrite last_n_length. lia.
Qed.

(** C7. The history is bounded at 1000 entries, oldest evicted first:
    after any sequence of events is published to a fresh logger, a request
    for the last [n] entries with [n >= 1000] returns the most recent
    events in publish order, never more than 1000 of them, and exactly
    1000 as soon as 1000 events were published (1500, say). *)
Theorem history_bound (es : list LogEntry) (n : Z) :
  1000 <= n ->
  let got := StatusLogger.get_history n (StatusLogger.log_all es StatusLogger.init) in
  got = last_n 1000 es
  /\ (exists old, es = old ++ got)
  /\ (length got <= 1000)%nat
  /\ ((1000 <= length es)%nat -> length got = 1000%nat).
Proof.
  intros Hn got.
  assert (Hgot : got = last_n 1000 es).
  { subst got. unfold StatusLogger.get_history.
    rewrite py_slice_from_neg by lia.
    rewrite log_all_history by (cbn; lia).
    cbn [StatusLogger.init StatusLogger.history app].
    apply last_n_all. rewrite last_n_length. lia. }
  rewrite Hgot. repeat split.
  - exists (firstn (length es - 1000) es). unfold last_n.
    symmetry. apply firstn_skipn.
  - rewrite last_n_length. lia.
  - intros H. rewrite last_n_length. lia.
Qed.

Lemma history_bound_witness :
  length (StatusLogger.get_history 2000
            (StatusLogger.log_all events_1500 StatusLogger.init)) = 1000%nat
  /\ StatusLogger.get_history 2000
       (StatusLogger.log_all events_1500 StatusLogger.init)
     = skipn 500 events_1500.
Proof.
  destruct (history_bound events_1500 2000 ltac:(lia)) as (Heq & _ & _ & Hlen).
  split.
  - apply Hlen. vm_compute. lia.
  - rewrite Heq. reflexivity.
Defined.

(** ** AutoClicker.find_template *)

(** C8. [find_template] never raises, and it returns a location exactly
    when the template file exists, decodes, the match itself does not
    fail, and the best score reaches the threshold 0.8; the location is
    then the top-left corner of the best match plus half the template's
    width and height.  In every other case (missing or unreadable
    template, an error inside the match, a lower score) it returns
    [None]. *)
Theorem find_template_spec (cv : Vision) (template_name : string) (screen : Image) :
  exists r,
    AutoClicker.find_template cv template_name screen = Ret r
    /\ forall x y,
         r = Some (x, y) <->
         exists template max_val max_x max_y,
           path_exists cv (AutoClicker.template_path template_name) = true
           /\ imread cv (AutoClicker.template_path template_name) = Some template
           /\ match_template cv screen template = Ret (max_val, (max_x, max_y))
           /\ (AutoClicker.threshold <= max_val)%Q
           /\ x = max_x + img_w template / 2
           /\ y = max_y + img_h template / 2.
Proof.
  unfold AutoClicker.find_template.
  set (path := AutoClicker.template_path template_name).
  destruct (path_exists cv path) eqn:Hex; cbn [negb].
  2:{ exists None. split; [reflexivity |].
      intros x y; split; [discriminate |].
      intros (t & v & mx & my & H & _). discriminate. }
  destruct (imread cv path) as [template |] eqn:Hrd.
  2:{ exists None. split; [reflexivity |].
      intros x y; split; [discriminate |].
      intros (t & v & mx & my & _ & H & _). discriminate. }
  destruct (match_template cv screen template) as [[max_val [mx my]] | e] eqn:Hm;
    cbn [exc_bind try_except fst snd].
  2:{ exists None. split; [reflexivity |].
      intros x y; split; [discriminate |].
      intros (t & v & mx & my & _ & H & H' & _).
      injection H as <-. rewrite Hm in H'. discriminate. }
  destruct (Qle_bool AutoClicker.threshold max_val) eqn:Hth.
  - eexists. split; [reflexivity |].
    intros x y; split.
    + intros [= <- <-]. exists template, max_val, mx, my.
      repeat split; try assumption. now apply Qle_bool_iff.
    + intros (t & v & mx' & my' & _ & H & H' & _ & -> & ->).
      injection H as <-. rewrite Hm in H'. now injection H' as <- <- <-.
  - exists None. split; [reflexivity |].
    intros x y; split; [discriminate |].
    intros (t & v & mx' & my' & _ & H & H' & Hle & _).
    injection H as <-. rewrite Hm in H'. injection H' as <- <- <-.
    apply Qle_bool_iff in Hle. congruence.
Qed.

(** ** Reasoning about the engine *)

Ltac munfold :=
  unfold pause_and_notify, random_delay, random_click, tap, execute_adb_command,
    check_output, update_status, queue_put_log, log, pause_set, pause_is_set,
    stop_is_set, sleep, get_screen, find_template, get_template_names, time_time,
    external, bind, catch, ret, raise, modify, gets in *.

Lemma find_template_never_raises (cv : Vision) (template_name : string) (screen : Image) :
  exists r, AutoClicker.find_template cv template_name screen = Ret r.
Proof.
  unfold AutoClicker.find_template.
  destruct (negb _); [eexists; reflexivity |].
  destruct (imread cv _); [| eexists; reflexivity].
  destruct (match_template cv screen _) as [[v loc] | e]; cbn;
    [| eexists; reflexivity].
  destruct (Qle_bool _ _); eexists; reflexivity.
Qed.

(** Splits on every answer of the outside world left in the goal. *)
Ltac oracle_cases :=
  repeat match goal with
    | |- context [e_sh ?e ?n ?c] => destruct (e_sh e n c); cbn
    | |- context [e_screen ?e ?n] => destruct (e_screen e n); cbn
    | |- context [e_listdir ?e ?n] => destruct (e_listdir e n); cbn
    | |- context [AutoClicker.find_template ?a ?b ?c] =>
        let r := fresh "r" in
        let Hr := fresh "Hr" in
        destruct (find_template_never_raises a b c) as [r Hr];
        rewrite Hr; destruct r as [[? ?] |]; cbn
    end.

Lemma taps_app a b : taps (a ++ b) = taps a ++ taps b.
Proof. induction a as [| [] a IH]; cbn; congruence. Qed.

Lemma captures_app a b : captures (a ++ b) = captures a ++ captures b.
Proof. induction a as [| [] a IH]; cbn; congruence. Qed.

Lemma spaced_snoc gap l t :
  spaced gap l ->
  (forall s, last l = Some s -> s + gap <= t) ->
  spaced gap (l ++ [t]).
Proof.
  induction l as [| a [| b l] IH]; intros Hsp Hlast.
  - cbn. tauto.
  - cbn. split; [apply Hlast; reflexivity | tauto].
  - destruct Hsp as [Hab Hsp]. split; [exact Hab |].
    apply IH; [exact Hsp | exact Hlast].
Qed.

(** Closes [quiet w w'] for a world [w'] written out from [w], with the
    [quiet] facts of the context. *)
Ltac quiet_solve :=
  unfold quiet in *; cbn; rewrite ?taps_app; cbn; rewrite ?app_nil_r;
  intuition congruence.

Lemma clicks_ok_quiet before w w' :
  quiet w w' -> clicks_ok before w -> clicks_ok before w'.
Proof. unfold quiet, clicks_ok. intros (-> & -> & ->). tauto. Qed.

Lemma one_click_ok before current_time w w' :
  clicks_ok before w ->
  w_last_click_time w + 1000 <= current_time ->
  one_click current_time w w' ->
  clicks_ok before w'.
Proof.
  intros Hok Hcool [_ [Hq | (name & tap & Hc & Ht & Htap)]].
  - now apply (clicks_ok_quiet before w).
  - destruct Hok as (Hsp & Hlast & Hcount).
    unfold clicks_ok. rewrite Hc, Ht, Htap, map_app, !length_app.
    cbn [map snd length]. repeat split.
    + apply spaced_snoc; [exact Hsp |].
      intros s Hs. rewrite (Hlast s Hs). exact Hcool.
    + intros s. rewrite last_snoc. congruence.
    + lia.
Qed.

Section EngineFacts.

Context {Angle : Type}.
Variable np : Numpy Angle.
Variable cv : Vision.
Variable env : Env Angle.

Lemma execute_adb_command_result device_id command w :
  fst (execute_adb_command env device_id command w)
  = Ret (match e_sh env (w_tick w)
                 (dquote +:+ AutoClicker.adb_path +:+ dquote +:+ " -s " +:+ device_id
                    +:+ " " +:+ command) with
         | Some out => strip out
         | None => EmptyString
         end).
Proof. munfold. cbn. destruct (e_sh env (w_tick w) _); reflexivity. Qed.

Lemma tap_true device_id x y w :
  fst (tap env device_id x y w) = Ret true.
Proof. munfold. cbn. destruct (e_sh env (w_tick w) _); reflexivity. Qed.

Lemma random_click_true device_id x y template_name w :
  fst (random_click np env device_id x y template_name w) = Ret true.
Proof. munfold. cbn. destruct (e_sh env _ _); reflexivity. Qed.

(** The first template the loop tries, when nothing halts the loop and
    the template is on the frame. *)
Lemma click_templates_first device_id device_info current_time verbose_log
      screen template_name rest x y w :
  w_stop w = false -> e_stop env (w_tick w) = false ->
  w_pause w = false -> e_pause env (S (w_tick w)) <> Some true ->
  AutoClicker.find_template cv template_name screen = Ret (Some (x, y)) ->
  (forall n, e_ui_ok env n = true) ->
  let rw := click_templates np cv env device_id device_info current_time
              verbose_log screen (template_name :: rest) w in
  fst rw = Ret true
  /\ w_last_click_time (snd rw) = current_time
  /\ w_clicks (snd rw) = w_clicks w ++ [(template_name, current_time)].
Proof.
  intros Hs Hes Hp Hep Hf Hui.
  cbn [click_templates]. munfold. cbn. rewrite Hs, Hes. cbn.
  assert (Hp' : match e_pause env (S (w_tick w)) with
                | Some b => b | None => w_pause w end = false).
  { destruct (e_pause env (S (w_tick w))) as [[|]|]; congruence. }
  destruct (e_pause env (S (w_tick w))) as [b|] eqn:Ep; cbn;
    [subst b | rewrite Hp]; rewrite Hf; cbn.
  all: destruct verbose_log, (String.eqb template_name "button10"),
         (String.eqb template_name "button7"); cbn.
  all: oracle_cases; rewrite ?Hui; cbn.
  all: repeat split; reflexivity.
Qed.

(** What an iteration does when a detector template is on the frame. *)
Lemma iteration_abort device_id device_info w screen :
  e_screen env (w_tick w) = Some screen ->
  (exists p, AutoClicker.find_template cv "lose" screen = Ret (Some p))
  \/ (exists p, AutoClicker.find_template cv "notupo" screen = Ret (Some p)) ->
  let rw := iteration np cv env device_id device_info w in
  exists finds entry ui_tick,
    (finds = [EvFind "lose"] \/ finds = [EvFind "lose"; EvFind "notupo"])
    /\ w_trace (snd rw) = w_trace w ++ EvCapture (w_now w) :: finds ++ [EvUI]
    /\ w_pause (snd rw) = true
    /\ StatusLogger.history (w_logger (snd rw))
       = last_n 1000 (StatusLogger.history (w_logger w) ++ [entry])
    /\ le_level entry = Warning
    /\ le_device entry = device_info
    /\ w_clicks (snd rw) = w_clicks w
    /\ w_last_click_time (snd rw) = w_last_click_time w
    /\ w_stop (snd rw) = w_stop w
    /\ fst rw = (if e_ui_ok env ui_tick then Ret Break else Raise "TclError").
Proof.
  intros Hscr Hab. unfold iteration. munfold. cbn. rewrite Hscr. cbn.
  destruct (find_template_never_raises cv "lose" screen) as [r Hr].
  rewrite Hr. destruct r as [[x y]|]; cbn.
  - refine (ex_intro _ [EvFind "lose"]
              (ex_intro _ _ (ex_intro _ (S (S (w_tick w))) _))).
    split; [now left|].
    destruct (e_ui_ok env (S (S (w_tick w)))) eqn:E; cbn -[StatusLogger.log];
      rewrite log_history, <- ?app_assoc; cbn;
      repeat split; reflexivity.
  - destruct Hab as [[p Hp] | [p Hp]]; [congruence |].
    rewrite Hp. cbn.
    refine (ex_intro _ [EvFind "lose"; EvFind "notupo"]
              (ex_intro _ _ (ex_intro _ (S (S (S (w_tick w)))) _))).
    split; [now right|].
    destruct (e_ui_ok env (S (S (S (w_tick w))))) eqn:E; cbn -[StatusLogger.log];
      rewrite log_history, <- ?app_assoc; cbn;
      repeat split; reflexivity.
Qed.

Lemma click_templates_one_click device_id device_info current_time verbose_log
      screen names w :
  one_click current_time w
    (snd (click_templates np cv env device_id device_info current_time
            verbose_log screen names w)).
Proof.
  revert w. induction names as [| template_name rest IH]; intros w.
  - cbn. split; [exists []; now rewrite app_nil_r | left; quiet_solve].
  - cbn [click_templates]. munfold. cbn.
    destruct (w_stop w || e_stop env (w_tick w)); cbn.
    { split; [exists []; now rewrite app_nil_r | left; quiet_solve]. }
    destruct (e_pause env (S (w_tick w))) as [[|]|]; cbn;
      [| | destruct (w_pause w); cbn].
    all: try (split; [exists []; now rewrite app_nil_r | left; quiet_solve]).
    all: destruct (find_template_never_raises cv template_name screen) as [r Hr];
      rewrite Hr; destruct r as [[x y]|]; cbn.
    all: try match goal with
         | |- one_click _ _ (snd (click_templates _ _ _ _ _ _ _ _ _ ?w1)) =>
             destruct (IH w1) as [[ext Hext] Hc]; unfold quiet in Hc;
             cbn in Hext, Hc; rewrite ?taps_app in Hc; cbn in Hc;
             rewrite ?app_nil_r in Hc;
             split; [rewrite Hext, <- ?app_assoc; eexists; reflexivity | exact Hc]
         end.
    all: destruct verbose_log, (String.eqb template_name "button10"),
           (String.eqb template_name "button7"); cbn.
    all: oracle_cases.
    all: repeat match goal with
           | |- context [e_ui_ok ?e ?n] => destruct (e_ui_ok e n); cbn
           end.
    all: unfold one_click; cbn.
    all: split; [rewrite <- ?app_assoc; eexists; reflexivity |].
    all: right; do 2 eexists; repeat split; try reflexivity.
    all: rewrite ?taps_app; cbn; rewrite ?app_nil_r; reflexivity.
Qed.

Lemma guarded_iteration_clicks_ok before device_id device_info w :
  clicks_ok before w ->
  clicks_ok before (snd (guarded_iteration np cv env device_id device_info w)).
Proof.
  intros Hok. unfold guarded_iteration, iteration.
  unfold catch at 1, bind at 1, time_time at 1, gets at 1.
  unfold bind at 1, gets at 1. unfold bind at 1.
  destruct (get_screen env device_id w) as [r w1] eqn:E1.
  assert (S1 : quiet w w1 /\ exists s, r = Ret s).
  { revert E1. munfold. cbn. intros [= <- <-]. split; [quiet_solve | eauto]. }
  destruct S1 as (Q1 & s & ->).
  destruct s as [screen |].
  2:{ munfold. cbn. apply (clicks_ok_quiet before w); [quiet_solve | assumption]. }
  unfold bind at 1.
  destruct (find_template cv env device_id "lose" screen w1) as [r w2] eqn:E2.
  assert (S2 : quiet w w2 /\ exists s, r = Ret s).
  { revert E2. munfold. cbn.
    destruct (find_template_never_raises cv "lose" screen) as [x ->].
    intros [= <- <-]. split; [quiet_solve | eauto]. }
  destruct S2 as (Q2 & s & ->).
  destruct s as [p |].
  { munfold. cbn. destruct (e_ui_ok env _); cbn;
      (apply (clicks_ok_quiet before w); [quiet_solve | assumption]). }
  unfold bind at 1.
  destruct (find_template cv env device_id "notupo" screen w2) as [r w3] eqn:E3.
  assert (S3 : quiet w w3 /\ exists s, r = Ret s).
  { revert E3. munfold. cbn.
    destruct (find_template_never_raises cv "notupo" screen) as [x ->].
    intros [= <- <-]. split; [quiet_solve | eauto]. }
  destruct S3 as (Q3 & s & ->).
  destruct s as [p |].
  { munfold. cbn. destruct (e_ui_ok env _); cbn;
      (apply (clicks_ok_quiet before w); [quiet_solve | assumption]). }
  unfold bind at 1, gets at 1.
  destruct (w_now w - w_last_click_time w3 <? click_cooldown) eqn:Hcool.
  { munfold. cbn. apply (clicks_ok_quiet before w); [quiet_solve | assumption]. }
  apply Z.ltb_ge in Hcool. unfold click_cooldown in Hcool.
  unfold bind at 1.
  destruct (get_template_names env w3) as [r w4] eqn:E4.
  assert (S4 : quiet w w4 /\ exists s, r = Ret s).
  { revert E4. munfold. cbn.
    destruct (e_listdir env _); intros [= <- <-]; (split; [quiet_solve | eauto]). }
  destruct S4 as (Q4 & names & ->).
  unfold bind at 1.
  pose proof (click_templates_one_click device_id device_info (w_now w)
                (10000 <? w_now w - w_last_log_time w) screen names w4) as Hone.
  destruct (click_templates np cv env device_id device_info (w_now w) _ screen names w4)
    as [r w5] eqn:E5.
  cbn [snd] in Hone.
  assert (Hok5 : clicks_ok before w5).
  { apply (one_click_ok before (w_now w) w4); [| | exact Hone].
    - now apply (clicks_ok_quiet before w).
    - destruct Q3 as (_ & L3 & _), Q4 as (_ & L4 & _). lia. }
  clear Q1 Q2 Q3 Q4.
  destruct r as [[|] | e]; munfold; cbn.
  - exact Hok5.
  - destruct (10000 <? _); cbn;
      (apply (clicks_ok_quiet before w5); [quiet_solve | assumption]).
  - apply (clicks_ok_quiet before w5); [quiet_solve | assumption].
Qed.

(** Fuel for more passes continues a loop that was still running. *)
Lemma worker_loop_resume device_id device_info end_time passes fuel w mid :
  worker_loop np cv env passes device_id device_info end_time w = (Ret OutOfFuel, mid) ->
  worker_loop np cv env (passes + fuel) device_id device_info end_time w
  = worker_loop np cv env fuel device_id device_info end_time mid.
Proof.
  revert w. induction passes as [| passes IH]; intros w.
  - cbn. intros [= <-]. reflexivity.
  - intros H. cbn [Nat.add worker_loop] in H |- *.
    unfold bind at 1 in H. unfold bind at 1.
    destruct (stop_is_set env w) as [r w1] eqn:E1.
    assert (S1 : exists b, r = Ret b).
    { revert E1. munfold. cbn. intros [= <- <-]. eauto. }
    destruct S1 as (stopped & ->).
    unfold bind at 1, time_time, gets in H. unfold bind at 1, time_time, gets.
    destruct (stopped || negb (w_now w1 <? end_time)); [discriminate H |].
    unfold bind at 1 in H. unfold bind at 1.
    destruct (pause_is_set env w1) as [r w2] eqn:E2.
    assert (S2 : exists b, r = Ret b).
    { revert E2. munfold. cbn.
      destruct (e_pause env (w_tick w1)); intros [= <- <-]; eauto. }
    destruct S2 as (paused & ->).
    destruct paused.
    + unfold bind at 1 in H. unfold bind at 1.
      destruct (sleep env 1000 w2) as [r w3] eqn:E3.
      assert (S3 : exists b, r = Ret b).
      { revert E3. munfold. cbn. intros [= <- <-]. eauto. }
      destruct S3 as (u & ->). apply IH, H.
    + unfold bind at 1 in H. unfold bind at 1.
      destruct (guarded_iteration np cv env device_id device_info w2)
        as [[[|] | err] w3]; [apply IH, H | discriminate H | discriminate H].
Qed.

(** A paused, never-stopped worker only sleeps, and leaves its loop at
    the first test of the loop condition made at or after [end_time]:
    at most one sleep of 1 s and three outside calls later. *)
Lemma paused_loop_finishes device_id device_info end_time dmax fuel w :
  (forall n, (w_tick w <= n)%nat -> e_stop env n = false) ->
  (forall n, (w_tick w <= n)%nat -> e_pause env n <> Some false) ->
  (forall n, (w_tick w <= n)%nat -> 0 <= e_dur env n <= dmax) ->
  w_stop w = false -> w_pause w = true ->
  (1 <= fuel)%nat ->
  end_time - w_now w <= 1000 * (Z.of_nat fuel - 1) ->
  let rw := worker_loop np cv env fuel device_id device_info end_time w in
  fst rw = Ret Finished
  /\ end_time <= w_now (snd rw)
  /\ w_now (snd rw) <= Z.max (w_now w) (end_time + 1000 + 2 * dmax) + dmax
  /\ w_stop (snd rw) = false
  /\ w_pause (snd rw) = true
  /\ taps (w_trace (snd rw)) = taps (w_trace w)
  /\ captures (w_trace (snd rw)) = captures (w_trace w)
  /\ w_logger (snd rw) = w_logger w.
Proof.
  revert w. induction fuel as [| fuel IH];
    intros w Hstop Hpause Hdur Hs Hp Hfuel Hend; [lia |].
  cbn [worker_loop]. munfold. cbn.
  rewrite Hs, Hstop by lia. cbn.
  pose proof (Hdur (w_tick w) ltac:(lia)) as Hd0.
  destruct (w_now w + e_dur env (w_tick w) <? end_time) eqn:Hlt; cbn.
  - apply Z.ltb_lt in Hlt.
    pose proof (Hdur (S (w_tick w)) ltac:(lia)) as Hd1.
    pose proof (Hdur (S (S (w_tick w))) ltac:(lia)) as Hd2.
    assert (Hpz : match e_pause env (S (w_tick w)) with
                  | Some b => b | None => w_pause w end = true).
    { specialize (Hpause (S (w_tick w)) ltac:(lia)).
      destruct (e_pause env (S (w_tick w))) as [[|]|]; congruence. }
    destruct (e_pause env (S (w_tick w))) as [b|] eqn:Ep; cbn;
      [subst b | rewrite Hp].
    all: match goal with
         | |- context [worker_loop _ _ _ _ _ _ _ ?w1] =>
             destruct (IH w1) as (H1 & H2 & H3 & H4 & H5 & H6 & H7 & H8);
               [ intros n Hn; apply Hstop; cbn in Hn; lia
               | intros n Hn; apply Hpause; cbn in Hn; lia
               | intros n Hn; apply Hdur; cbn in Hn; lia
               | reflexivity | cbn; first [reflexivity | assumption] | lia
               | cbn; lia |]
         end.
    all: cbn in H3; rewrite H6, H7, H8; cbn; rewrite taps_app, captures_app; cbn.
    all: rewrite !app_nil_r; repeat split; try assumption; lia.
  - apply Z.ltb_ge in Hlt. cbn. repeat split; try assumption; cbn; lia.
Qed.

Lemma worker_loop_clicks_ok before device_id device_info end_time fuel w :
  clicks_ok before w ->
  clicks_ok before
    (snd (worker_loop np cv env fuel device_id device_info end_time w)).
Proof.
  revert w. induction fuel as [| fuel IH]; intros w Hok; [exact Hok |].
  cbn [worker_loop].
  unfold bind at 1.
  destruct (stop_is_set env w) as [r w1] eqn:E1.
  assert (S1 : clicks_ok before w1 /\ exists b, r = Ret b).
  { revert E1. munfold. cbn. intros [= <- <-]. split; [| eauto].
    apply (clicks_ok_quiet before w); [quiet_solve | assumption]. }
  destruct S1 as (Hok1 & stopped & ->).
  unfold bind at 1, time_time, gets.
  destruct (stopped || negb (w_now w1 <? end_time)); [exact Hok1 |].
  unfold bind at 1.
  destruct (pause_is_set env w1) as [r w2] eqn:E2.
  assert (S2 : clicks_ok before w2 /\ exists b, r = Ret b).
  { revert E2. munfold. cbn.
    destruct (e_pause env (w_tick w1)); intros [= <- <-]; (split; [| eauto]);
      (apply (clicks_ok_quiet before w1); [quiet_solve | assumption]). }
  destruct S2 as (Hok2 & paused & ->).
  destruct paused.
  - unfold bind at 1.
    destruct (sleep env 1000 w2) as [r w3] eqn:E3.
    assert (S3 : clicks_ok before w3 /\ exists b, r = Ret b).
    { revert E3. munfold. cbn. intros [= <- <-]. split; [| eauto].
      apply (clicks_ok_quiet before w2); [quiet_solve | assumption]. }
    destruct S3 as (Hok3 & u & ->). apply IH, Hok3.
  - unfold bind at 1.
    pose proof (guarded_iteration_clicks_ok before device_id device_info w2 Hok2) as Hg.
    destruct (guarded_iteration np cv env device_id device_info w2) as [[[|] | e] w3];
      cbn [snd] in Hg; try exact Hg.
    apply IH, Hg.
Qed.

(** Every pass that captures a frame looks for [lose] first and, when
    that is absent, for [notupo] next. *)
Lemma guarded_iteration_detectors_first device_id device_info w screen :
  e_screen env (w_tick w) = Some screen ->
  exists rest,
    w_trace (snd (guarded_iteration np cv env device_id device_info w))
    = w_trace w ++ EvCapture (w_now w) :: EvFind "lose" :: rest
    /\ (AutoClicker.find_template cv "lose" screen = Ret None ->
        exists rest', rest = EvFind "notupo" :: rest').
Proof.
  intros Hscr. unfold guarded_iteration, iteration. munfold. cbn.
  rewrite Hscr. cbn.
  destruct (find_template_never_raises cv "lose" screen) as [r Hr].
  rewrite Hr. destruct r as [[x y] |]; cbn.
  { destruct (e_ui_ok env _); cbn; rewrite <- ?app_assoc; cbn;
      eexists; (split; [reflexivity | discriminate]). }
  destruct (find_template_never_raises cv "notupo" screen) as [r' Hr'].
  rewrite Hr'. destruct r' as [[x y] |]; cbn.
  { destruct (e_ui_ok env _); cbn; rewrite <- ?app_assoc; cbn;
      eexists; (split; [reflexivity | intros _; eexists; reflexivity]). }
  destruct (w_now w - w_last_click_time w <? click_cooldown); cbn.
  { rewrite <- ?app_assoc; cbn.
    eexists; (split; [reflexivity | intros _; eexists; reflexivity]). }
  destruct (e_listdir env _); cbn.
  1: match goal with
  | |- context [click_templates _ _ _ ?a ?b ?c ?d ?e ?ns ?w0] =>
      destruct (click_templates_one_click a b c d e ns w0) as [[ext Hext] _];
      destruct (click_templates np cv env a b c d e ns w0) as [[[|] | err] w1]
  end.
  all: try (cbn in Hext); cbn.
  all: try (destruct (10000 <? _); cbn).
  all: rewrite ?Hext, <- ?app_assoc; cbn.
  all: eexists; (split; [reflexivity | intros _; eexists; reflexivity]).
Qed.

End EngineFacts.

(** ** Clicks report success whatever adb did *)

(** C10. [execute_adb_command] turns every failure of the adb command
    into the empty string, so [tap] returns [True] and [random_click]
    returns [True] whether or not the tap reached the device; hence for
    every click attempt of the worker (a template found on the frame,
    the loop not halted) [clicked] becomes [True] and [last_click_time]
    is set to the iteration's [current_time], with no dependence on the
    outcome of the adb command. *)
Theorem click_reports_success_regardless {Angle} (np : Numpy Angle) (cv : Vision)
    (env : Env Angle) (device_id device_info : string) (current_time : Z)
    (verbose_log : bool) (screen : Image) (template_name : string)
    (rest : list string) (x y : Z) (w : World) :
  (forall command w1,
      e_sh env (w_tick w1)
        (dquote +:+ AutoClicker.adb_path +:+ dquote +:+ " -s " +:+ device_id
           +:+ " " +:+ command) = None ->
      fst (execute_adb_command env device_id command w1) = Ret EmptyString)
  /\ (forall w1, fst (tap env device_id x y w1) = Ret true)
  /\ (forall w1, fst (random_click np env device_id x y template_name w1) = Ret true)
  /\ (w_stop w = false -> e_stop env (w_tick w) = false ->
      w_pause w = false -> e_pause env (S (w_tick w)) <> Some true ->
      AutoClicker.find_template cv template_name screen = Ret (Some (x, y)) ->
      (forall n, e_ui_ok env n = true) ->
      let rw := click_templates np cv env device_id device_info current_time
                  verbose_log screen (template_name :: rest) w in
      fst rw = Ret true
      /\ w_last_click_time (snd rw) = current_time
      /\ w_clicks (snd rw) = w_clicks w ++ [(template_name, current_time)]).
Proof.
  split; [| split; [| split]].
  - intros command w1 H. rewrite execute_adb_command_result, H. reflexivity.
  - intros w1. apply tap_true.
  - intros w1. apply random_click_true.
  - apply click_templates_first.
Qed.

(** Every adb command fails, and the click on [ok] is still recorded. *)
Lemma click_reports_success_regardless_witness :
  let env := demo_env (Some (demo_frame [5])) (fun _ => 20) None in
  let rw := click_templates numpy_axis demo_cv env "127.0.0.1:16384" "MuMu" 5000
              false (demo_frame [5]) ["ok"] (demo_world 5000 false) in
  fst rw = Ret true
  /\ w_last_click_time (snd rw) = 5000
  /\ w_clicks (snd rw) = [("ok", 5000)]
  /\ adb_calls (w_trace (snd rw))
     = [(dquote +:+ AutoClicker.adb_path +:+ dquote
           +:+ " -s 127.0.0.1:16384 shell input tap 365 520", false)].
Proof.
  intros env rw.
  destruct (click_reports_success_regardless numpy_axis demo_cv env
              "127.0.0.1:16384" "MuMu" 5000 false (demo_frame [5]) "ok" [] 360 520
              (demo_world 5000 false)) as (_ & _ & _ & H).
  destruct H as (H1 & H2 & H3); try reflexivity; try discriminate.
  repeat split; try assumption.
Defined.

(** ** Abort detectors come first *)

(** C5. In every pass that captures a frame the worker looks for [lose]
    first and, when it is absent, for [notupo] next, before any other
    template; and when either of them is on the frame the pass dispatches
    no tap and records no click, whatever other templates the frame
    shows. *)
Theorem abort_detectors_take_priority {Angle} (np : Numpy Angle) (cv : Vision)
    (env : Env Angle) (device_id device_info : string) (w : World) (screen : Image) :
  e_screen env (w_tick w) = Some screen ->
  let rw := guarded_iteration np cv env device_id device_info w in
  (exists rest,
      w_trace (snd rw) = w_trace w ++ EvCapture (w_now w) :: EvFind "lose" :: rest
      /\ (AutoClicker.find_template cv "lose" screen = Ret None ->
          exists rest', rest = EvFind "notupo" :: rest'))
  /\ ((exists p, AutoClicker.find_template cv "lose" screen = Ret (Some p))
      \/ (exists p, AutoClicker.find_template cv "notupo" screen = Ret (Some p)) ->
      taps (w_trace (snd rw)) = taps (w_trace w)
      /\ w_clicks (snd rw) = w_clicks w).
Proof.
  intros Hscr rw. split.
  - apply guarded_iteration_detectors_first, Hscr.
  - intros Hab. subst rw. unfold guarded_iteration, catch.
    destruct (iteration_abort np cv env device_id device_info w screen Hscr Hab)
      as (finds & entry & ui_tick & Hfinds & Htr & _ & _ & _ & _ & Hcl & _ & _ & Hres).
    destruct (iteration np cv env device_id device_info w) as [r w1].
    cbn [fst snd] in *.
    assert (Htaps : taps (w_trace w1) = taps (w_trace w)).
    { rewrite Htr, taps_app. destruct Hfinds as [-> | ->]; cbn; apply app_nil_r. }
    destruct (e_ui_ok env ui_tick); subst r; cbn [snd].
    + split; assumption.
    + munfold. cbn. rewrite !taps_app, Htaps. cbn. rewrite app_nil_r. split; auto.
Qed.

(** The frame shows [lose] and the ordinary button [ok]: nothing is
    tapped. *)
Lemma abort_detectors_take_priority_witness :
  let env := demo_env (Some (demo_frame [1; 5])) (fun _ => 20) (Some EmptyString) in
  let rw := guarded_iteration numpy_axis demo_cv env "127.0.0.1:16384" "MuMu"
              (demo_world 5000 false) in
  AutoClicker.find_template demo_cv "ok" (demo_frame [1; 5]) = Ret (Some (360, 520))
  /\ taps (w_trace (snd rw)) = []
  /\ w_clicks (snd rw) = [].
Proof.
  intros env rw.
  destruct (abort_detectors_take_priority numpy_axis demo_cv env "127.0.0.1:16384"
              "MuMu" (demo_world 5000 false) (demo_frame [1; 5]) eq_refl) as [_ H].
  split; [reflexivity |].
  apply H. left. exists (360, 520). reflexivity.
Defined.

(** ** An abort trigger pauses the session and ends the loop *)

(** The frame shows [lose]; the supervisor never sets the stop event and
    the planned hour is far from over, yet the loop has ended after its
    first pass and the thread has logged its completion: it does not stay
    live in the paused state. *)
Lemma abort_trigger_loop_stays_live_counterexample :
  let env := demo_env (Some (demo_frame [1; 5])) (fun _ => 20) (Some EmptyString) in
  let rw := device_thread_func numpy_axis demo_cv env 2 "127.0.0.1:16384" "MuMu" 60
              (demo_world 5000 false) in
  fst rw = Ret Finished
  /\ w_stop (snd rw) = false
  /\ w_pause (snd rw) = true
  /\ w_now (snd rw) < 5000 + 60 * 60 * 1000
  /\ map le_message (StatusLogger.history (w_logger (snd rw)))
     = ["线程启动"; "检测到失败"; "线程完成"; "线程清理资源"].
Proof. vm_compute. repeat split; reflexivity. Qed.

(** C3, amended. When [lose] or [notupo] is on the frame a running worker
    captured, and the status refresh of the shell returns normally, the
    worker dispatches no tap, sets the pause event, appends exactly one
    entry to the history, a warning for this device, and breaks out of
    its loop: the loop is finished although the stop event is unset. *)
Theorem abort_trigger_pauses_and_ends_loop {Angle} (np : Numpy Angle) (cv : Vision)
    (env : Env Angle) (device_id device_info : string) (end_time : Z) (fuel : nat)
    (w : World) (screen : Image) :
  w_stop w = false -> e_stop env (w_tick w) = false ->
  w_now w + e_dur env (w_tick w) < end_time ->
  w_pause w = false -> e_pause env (S (w_tick w)) <> Some true ->
  e_screen env (S (S (w_tick w))) = Some screen ->
  (exists p, AutoClicker.find_template cv "lose" screen = Ret (Some p))
  \/ (exists p, AutoClicker.find_template cv "notupo" screen = Ret (Some p)) ->
  (forall n, e_ui_ok env n = true) ->
  let rw := worker_loop np cv env (S fuel) device_id device_info end_time w in
  fst rw = Ret Finished
  /\ taps (w_trace (snd rw)) = taps (w_trace w)
  /\ w_pause (snd rw) = true
  /\ w_stop (snd rw) = false
  /\ exists entry,
       StatusLogger.history (w_logger (snd rw))
       = last_n 1000 (StatusLogger.history (w_logger w) ++ [entry])
       /\ le_level entry = Warning
       /\ le_device entry = device_info.
Proof.
  intros Hs Hes Hend Hp Hep Hscr Hab Hui rw. subst rw.
  cbn [worker_loop]. munfold. cbn -[guarded_iteration].
  rewrite Hs, Hes. cbn -[guarded_iteration].
  replace (w_now w + e_dur env (w_tick w) <? end_time) with true
    by (symmetry; apply Z.ltb_lt; exact Hend).
  cbn -[guarded_iteration].
  assert (Hp' : match e_pause env (S (w_tick w)) with
                | Some b => b | None => w_pause w end = false).
  { destruct (e_pause env (S (w_tick w))) as [[|]|]; congruence. }
  destruct (e_pause env (S (w_tick w))) as [b|] eqn:Ep; cbn -[guarded_iteration];
    [subst b | rewrite Hp].
  all: unfold guarded_iteration, catch.
  all: match goal with
       | |- context [iteration _ _ _ ?a ?b ?w2] =>
           destruct (iteration_abort np cv env a b w2 screen Hscr Hab)
             as (finds & entry & ui_tick & Hfinds & Htr & Hpa & Hh & Hlv & Hdev & _ & _
                 & Hst & Hres);
           destruct (iteration np cv env a b w2) as [r w3]
       end.
  all: cbn [fst snd] in *; rewrite Hui in Hres; subst r; cbn [fst snd].
  all: split; [reflexivity |].
  all: split; [rewrite Htr, taps_app; destruct Hfinds as [-> | ->]; cbn; apply app_nil_r |].
  all: split; [exact Hpa |].
  all: split; [rewrite Hst; reflexivity |].
  all: exists entry; cbn in Hh; auto.
Qed.

Lemma abort_trigger_pauses_and_ends_loop_witness :
  let env := demo_env (Some (demo_frame [2; 3])) (fun _ => 20) (Some EmptyString) in
  let rw := worker_loop numpy_axis demo_cv env 1 "127.0.0.1:16384" "MuMu" 3605000
              (demo_world 5000 false) in
  fst rw = Ret Finished
  /\ taps (w_trace (snd rw)) = []
  /\ w_pause (snd rw) = true
  /\ w_stop (snd rw) = false
  /\ exists entry,
       StatusLogger.history (w_logger (snd rw)) = last_n 1000 ([] ++ [entry])
       /\ le_level entry = Warning
       /\ le_device entry = "MuMu".
Proof.
  intros env rw.
  apply (abort_trigger_pauses_and_ends_loop numpy_axis demo_cv env "127.0.0.1:16384"
           "MuMu" 3605000 0 (demo_world 5000 false) (demo_frame [2; 3]));
    try reflexivity; try discriminate.
  right. exists (360, 520). reflexivity.
Defined.

(** ** The click cooldown *)

(** The frame shows [button10]; the first capture takes 600 ms, every
    other call 20 ms, and adb succeeds.  Two successful clicks are
    recorded, stamped 5040 and 6540, but their taps leave at 5920 and
    6840, less than a second apart. *)
Lemma click_cooldown_dispatch_counterexample :
  let env := demo_env (Some (demo_frame [3]))
               (fun n => if (n =? 2)%nat then 600 else 20) (Some EmptyString) in
  let rw := worker_loop numpy_axis demo_cv env 2 "127.0.0.1:16384" "MuMu" 3605000
              (demo_world 5000 false) in
  w_clicks (snd rw) = [("button10", 5040); ("button10", 6540)]
  /\ map fst (taps (w_trace (snd rw))) = [5920; 6840]
  /\ adb_calls (w_trace (snd rw))
     = [(dquote +:+ AutoClicker.adb_path +:+ dquote
           +:+ " -s 127.0.0.1:16384 shell input tap 365 520", true);
        (dquote +:+ AutoClicker.adb_path +:+ dquote
           +:+ " -s 127.0.0.1:16384 shell input tap 365 520", true)]
  /\ 6840 - 5920 < click_cooldown.
Proof. vm_compute. repeat split; reflexivity. Qed.

(** C2, amended. For every device the cooldown is enforced between the
    stamps of successful clicks: the values [last_click_time] takes, each
    the clock reading [current_time] taken at the start of the pass that
    clicked.  Any two consecutive stamps of a worker thread are at least
    1.0 s apart, whichever templates were clicked; the last stamp is what
    [last_click_time] holds, and there is one stamp for every tap the
    thread dispatched. *)
Theorem click_stamps_respect_cooldown {Angle} (np : Numpy Angle) (cv : Vision)
    (env : Env Angle) (fuel : nat) (device_id device_info : string) (duration : Z)
    (w : World) :
  w_clicks w = [] ->
  let w' := snd (device_thread_func np cv env fuel device_id device_info duration w) in
  spaced click_cooldown (map snd (w_clicks w'))
  /\ (forall s, last (map snd (w_clicks w')) = Some s -> s = w_last_click_time w')
  /\ length (taps (w_trace w'))
     = (length (taps (w_trace w)) + length (w_clicks w'))%nat.
Proof.
  intros Hw w'. subst w'.
  destruct (device_thread_func np cv env fuel device_id device_info duration w)
    as [r w'] eqn:E.
  cbn [snd]. revert E. unfold device_thread_func.
  unfold bind at 1, catch at 1, bind at 1, log at 1, modify at 1.
  unfold bind at 1, time_time at 1, gets at 1.
  unfold bind at 1, modify at 1. unfold bind at 1, modify at 1.
  unfold bind at 1.
  match goal with
  | |- context [worker_loop _ _ _ ?f ?a ?b ?c ?w0] =>
      pose proof (worker_loop_clicks_ok np cv env (length (taps (w_trace w)))
                    a b c f w0) as Hl;
      destruct (worker_loop np cv env f a b c w0) as [[[|] | e] w1]
  end.
  all: cbn [snd] in Hl.
  all: assert (Hok : clicks_ok (length (taps (w_trace w))) w1)
    by (apply Hl; repeat split; cbn; rewrite Hw; cbn;
        [exact I | discriminate | lia]).
  all: munfold; cbn; intros [= <- <-]; exact Hok.
Qed.

Lemma click_stamps_respect_cooldown_witness :
  let env := demo_env (Some (demo_frame [3]))
               (fun n => if (n =? 2)%nat then 600 else 20) (Some EmptyString) in
  let rw := device_thread_func numpy_axis demo_cv env 2 "127.0.0.1:16384" "MuMu" 60
              (demo_world 5000 false) in
  map snd (w_clicks (snd rw)) = [5040; 6540]
  /\ spaced click_cooldown (map snd (w_clicks (snd rw)))
  /\ length (taps (w_trace (snd rw))) = (0 + length (w_clicks (snd rw)))%nat.
Proof.
  intros env rw. split; [reflexivity |].
  destruct (click_stamps_respect_cooldown numpy_axis demo_cv env 2 "127.0.0.1:16384"
              "MuMu" 60 (demo_world 5000 false) eq_refl) as (H1 & _ & H2).
  split; [exact H1 | exact H2].
Defined.

(** ** Pausing does not extend the run *)

(** C9. The end time is fixed when the thread starts, as the clock
    reading plus the planned minutes, and the loop condition is tested on
    every pass, also while the pause event is set: pausing, before the
    first pass or in the middle of a run, does not move the end time.
    Take a thread that has made any number of passes of any kind and is
    still in its loop, with the pause event set (by the shell, or by the
    worker itself after a detection) and not cleared again, and never
    stopped.  From there on it only sleeps (no capture, no tap), it
    leaves its loop at the first test made at or after the end time
    fixed at the start, that is at most one sleep of 1 s and three
    outside calls after it, and it completes, logging its completion
    and its clean-up; one unit of fuel per second left and one more are
    enough. *)
Theorem paused_worker_completes_at_end_time {Angle} (np : Numpy Angle) (cv : Vision)
    (env : Env Angle) (passes fuel : nat) (device_id device_info : string)
    (duration dmax : Z) (w : World) :
  let end_time := w_now w + duration * 60 * 1000 in
  let started :=
    set_last_click_time 0 (set_last_log_time 0
      (set_logger (StatusLogger.log (e_strftime env (w_now w)) device_info
                     "线程启动" Info) w)) in
  let mid := worker_loop np cv env passes device_id device_info end_time started in
  fst mid = Ret OutOfFuel ->
  w_stop (snd mid) = false ->
  w_pause (snd mid) = true ->
  (forall n, (w_tick (snd mid) <= n)%nat -> e_stop env n = false) ->
  (forall n, (w_tick (snd mid) <= n)%nat -> e_pause env n <> Some false) ->
  (forall n, (w_tick (snd mid) <= n)%nat -> 0 <= e_dur env n <= dmax) ->
  (1 <= fuel)%nat ->
  end_time - w_now (snd mid) <= 1000 * (Z.of_nat fuel - 1) ->
  let rw := device_thread_func np cv env (passes + fuel) device_id device_info
              duration w in
  fst rw = Ret Finished
  /\ end_time <= w_now (snd rw)
  /\ w_now (snd rw) <= Z.max (w_now (snd mid)) (end_time + 1000 + 2 * dmax) + dmax
  /\ w_pause (snd rw) = true
  /\ w_stop (snd rw) = false
  /\ taps (w_trace (snd rw)) = taps (w_trace (snd mid))
  /\ captures (w_trace (snd rw)) = captures (w_trace (snd mid))
  /\ exists t2 t3,
       w_logger (snd rw)
       = StatusLogger.log t3 device_info "线程清理资源" Info
           (StatusLogger.log t2 device_info "线程完成" Info (w_logger (snd mid))).
Proof.
  intros end_time started mid Hmid Hs Hp Hstop Hpause Hdur Hfuel Hend rw.
  subst mid.
  destruct (worker_loop np cv env passes device_id device_info end_time started)
    as [r0 wm] eqn:Em.
  cbn [fst snd] in *. subst r0.
  pose proof (worker_loop_resume np cv env device_id device_info end_time
                passes fuel started wm Em) as Hres.
  destruct (paused_loop_finishes np cv env device_id device_info end_time dmax
              fuel wm Hstop Hpause Hdur Hs Hp Hfuel Hend)
    as (H1 & H2 & H3 & H4 & H5 & H6 & H7 & H8).
  subst rw.
  destruct (device_thread_func np cv env (passes + fuel) device_id device_info
              duration w) as [r w'] eqn:E.
  cbn [fst snd]. revert E.
  unfold device_thread_func.
  unfold bind at 1, catch at 1, bind at 1, log at 1, modify at 1.
  unfold bind at 1, time_time at 1, gets at 1.
  unfold bind at 1, modify at 1. unfold bind at 1, modify at 1.
  unfold bind at 1.
  match goal with
  | |- context [worker_loop _ _ _ (passes + fuel)%nat ?a ?b ?c ?w0] =>
      change (worker_loop np cv env (passes + fuel) a b c w0)
        with (worker_loop np cv env (passes + fuel) device_id device_info
                end_time started)
  end.
  rewrite Hres.
  destruct (worker_loop np cv env fuel device_id device_info end_time wm)
    as [r1 w1].
  cbn [fst snd] in *. subst r1. munfold. cbn -[StatusLogger.log].
  intros [= <- <-]. cbn -[StatusLogger.log].
  repeat split; try assumption.
  rewrite H8. do 2 eexists. reflexivity.
Qed.

(** One minute planned.  The first pass clicks [button10], the recheck
    shows [notupo] and the worker pauses itself; it then sleeps through
    what is left of the minute and ends at the end time fixed at the
    start, 5000 + 60000, not later than one sleep after it. *)
Lemma paused_worker_completes_at_end_time_witness :
  let env := scripted_env (fun n => if (n =? 2)%nat then Some (demo_frame [3])
                                    else Some (demo_frame [2]))
               (fun _ => 20) (Some EmptyString) in
  let rw := device_thread_func numpy_axis demo_cv env (1 + 61) "127.0.0.1:16384"
              "MuMu" 1 (demo_world 5000 false) in
  fst rw = Ret Finished
  /\ 65000 <= w_now (snd rw)
  /\ w_now (snd rw) <= 65000 + 1000 + 2 * 20 + 20
  /\ w_pause (snd rw) = true
  /\ length (taps (w_trace (snd rw))) = 1%nat
  /\ length (captures (w_trace (snd rw))) = 2%nat.
Proof.
  intros env rw.
  destruct (paused_worker_completes_at_end_time numpy_axis demo_cv env 1 61
              "127.0.0.1:16384" "MuMu" 1 20 (demo_world 5000 false))
    as (H1 & H2 & H3 & H4 & _ & H6 & H7 & _).
  - vm_compute. reflexivity.
  - vm_compute. reflexivity.
  - vm_compute. reflexivity.
  - intros n _. reflexivity.
  - intros n _. discriminate.
  - intros n _. cbn. lia.
  - lia.
  - vm_compute. discriminate.
  - fold rw in H1, H2, H3, H4, H6, H7.
    split; [exact H1 |]. split; [exact H2 |].
    split; [revert H3; vm_compute; exact (fun H => H) |].
    split; [exact H4 |].
    split; [rewrite H6; vm_compute; reflexivity
           | rewrite H7; vm_compute; reflexivity].
Defined.

(** ** The randomized click offset *)

Lemma Rtrunc_nonneg r :
  (0 <= r)%R -> (0 <= IZR (Rtrunc r) <= r /\ r < IZR (Rtrunc r) + 1)%R.
Proof.
  intros Hr. unfold Rtrunc. destruct (Rle_dec 0 r) as [_ | H]; [| contradiction].
  destruct (base_Int_part r) as [H1 H2].
  assert (H0 : (0 <= Int_part r)%Z).
  { apply Z.lt_succ_r. apply lt_IZR. rewrite succ_IZR. lra. }
  apply IZR_le in H0. lra.
Qed.

Lemma Rtrunc_neg r :
  (r < 0)%R -> (r <= IZR (Rtrunc r) <= 0 /\ IZR (Rtrunc r) - 1 < r)%R.
Proof.
  intros Hr. unfold Rtrunc. destruct (Rle_dec 0 r) as [H | _]; [lra |].
  destruct (base_Int_part (- r)) as [H1 H2].
  assert (H0 : (0 <= Int_part (- r))%Z).
  { apply Z.lt_succ_r. apply lt_IZR. rewrite succ_IZR. lra. }
  apply IZR_le in H0. rewrite opp_IZR. lra.
Qed.

(** Truncation never lengthens, and shortens by less than one. *)
Lemma Rtrunc_abs r :
  (Rabs (IZR (Rtrunc r)) <= Rabs r /\ Rabs r - Rabs (IZR (Rtrunc r)) < 1)%R.
Proof.
  destruct (Rle_lt_dec 0 r) as [Hr | Hr].
  - destruct (Rtrunc_nonneg r Hr) as [[H0 H1] H2].
    rewrite !Rabs_pos_eq by lra. lra.
  - destruct (Rtrunc_neg r Hr) as [[H0 H1] H2].
    rewrite (Rabs_left r) by lra.
    rewrite (Rabs_left1 (IZR (Rtrunc r))) by lra. lra.
Qed.

Lemma Rtrunc_unique r z :
  (0 <= IZR z <= r)%R -> (r < IZR z + 1)%R -> Rtrunc r = z.
Proof.
  intros [H0 H1] H2. unfold Rtrunc.
  destruct (Rle_dec 0 r) as [_ | H]; [| lra].
  symmetry. apply Int_part_spec. lra.
Qed.

Lemma sqrt2_bounds : (1.41 < sqrt 2 < 1.42)%R.
Proof.
  pose proof (sqrt_pos 2) as Hp.
  pose proof (sqrt_sqrt 2 ltac:(lra)) as Hs.
  split; nra.
Qed.

Lemma trunc_5_cos_PI4 : Rtrunc (5 * cos (PI / 4)) = 3%Z.
Proof.
  apply Rtrunc_unique; rewrite cos_PI4; pose proof sqrt2_bounds as [H1 H2].
  - split; [lra |]. apply Rmult_le_reg_r with (sqrt 2); [lra |].
    field_simplify; nra.
  - apply Rmult_lt_reg_r with (sqrt 2); [lra |]. field_simplify; nra.
Qed.

(** Truncating both components of a vector of length [r >= 5] gives a
    vector no longer than [r] and longer than [r - sqrt 2]. *)
Lemma trunc_vector_bounds (r a b : R) :
  (a * a + b * b = r * r)%R -> (5 <= r)%R ->
  let d2 := (IZR (Rtrunc a) * IZR (Rtrunc a) + IZR (Rtrunc b) * IZR (Rtrunc b))%R in
  (d2 <= r * r /\ (r - sqrt 2) * (r - sqrt 2) < d2)%R.
Proof.
  intros Hab Hr d2.
  destruct (Rtrunc_abs a) as [Ha1 Ha2]. destruct (Rtrunc_abs b) as [Hb1 Hb2].
  pose proof (Rabs_pos (IZR (Rtrunc a))) as HP0.
  pose proof (Rabs_pos (IZR (Rtrunc b))) as HQ0.
  assert (HP : (IZR (Rtrunc a) * IZR (Rtrunc a)
                = Rabs (IZR (Rtrunc a)) * Rabs (IZR (Rtrunc a)))%R).
  { rewrite <- Rabs_mult. symmetry. apply Rabs_pos_eq. nra. }
  assert (HQ : (IZR (Rtrunc b) * IZR (Rtrunc b)
                = Rabs (IZR (Rtrunc b)) * Rabs (IZR (Rtrunc b)))%R).
  { rewrite <- Rabs_mult. symmetry. apply Rabs_pos_eq. nra. }
  assert (HU : (a * a = Rabs a * Rabs a)%R).
  { rewrite <- Rabs_mult. symmetry. apply Rabs_pos_eq. nra. }
  assert (HV : (b * b = Rabs b * Rabs b)%R).
  { rewrite <- Rabs_mult. symmetry. apply Rabs_pos_eq. nra. }
  subst d2. rewrite HP, HQ. rewrite HU, HV in Hab.
  set (P := Rabs (IZR (Rtrunc a))) in *. set (Q := Rabs (IZR (Rtrunc b))) in *.
  set (U := Rabs a) in *. set (V := Rabs b) in *.
  clearbody P Q U V. clear HP HQ HU HV.
  pose proof sqrt2_bounds as [Hk1 Hk2].
  pose proof (sqrt_sqrt 2 ltac:(lra)) as Hk.
  set (k := sqrt 2) in *. clearbody k.
  split; [nra |].
  assert (HU0 : (0 <= U)%R) by lra. assert (HV0 : (0 <= V)%R) by lra.
  assert (Hkr2 : ((k * r) * (k * r) = 2 * (r * r))%R).
  { replace ((k * r) * (k * r))%R with ((k * k) * (r * r))%R by ring.
    now rewrite Hk. }
  assert (HUV : (U + V <= k * r)%R).
  { apply Rnot_lt_le. intros Hlt.
    assert (0 <= k * r)%R by (apply Rmult_le_pos; lra).
    assert (0 < ((U + V) - k * r) * ((U + V) + k * r))%R
      by (apply Rmult_lt_0_compat; lra).
    pose proof (Rle_0_sqr (U - V)) as Hsq. unfold Rsqr in Hsq. nra. }
  assert (Hexp : ((r - k) * (r - k) = r * r - 2 * (k * r) + k * k)%R) by ring.
  rewrite Hexp, Hk.
  assert (HUr : (U <= r)%R) by nra. assert (HVr : (V <= r)%R) by nra.
  assert (Hkr : (1 <= (k - 1) * r)%R) by nra.
  destruct (Rle_lt_dec 1 U) as [HU1 | HU1]; destruct (Rle_lt_dec 1 V) as [HV1 | HV1].
  - assert (0 < (P - (U - 1)) * (P + (U - 1)))%R
      by (apply Rmult_lt_0_compat; lra).
    assert (0 < (Q - (V - 1)) * (Q + (V - 1)))%R
      by (apply Rmult_lt_0_compat; lra).
    nra.
  - assert (0 < (P - (U - 1)) * (P + (U - 1)))%R
      by (apply Rmult_lt_0_compat; lra).
    assert (V * V < 1)%R by nra. assert (0 <= Q * Q)%R by nra. nra.
  - assert (0 < (Q - (V - 1)) * (Q + (V - 1)))%R
      by (apply Rmult_lt_0_compat; lra).
    assert (U * U < 1)%R by nra. assert (0 <= P * P)%R by nra. nra.
  - assert (U * U < 1)%R by nra. assert (V * V < 1)%R by nra. nra.
Qed.

Lemma trunc_5_sin_PI4 : Rtrunc (5 * sin (PI / 4)) = 3%Z.
Proof.
  apply Rtrunc_unique; rewrite sin_PI4; pose proof sqrt2_bounds as [H1 H2].
  - split; [lra |]. apply Rmult_le_reg_r with (sqrt 2); [lra |].
    field_simplify; nra.
  - apply Rmult_lt_reg_r with (sqrt 2); [lra |]. field_simplify; nra.
Qed.

Lemma random_click_taps (env : Env R) device_id x y template_name w :
  taps (w_trace (snd (random_click numpy_R env device_id x y template_name w)))
  = taps (w_trace w)
    ++ [(w_now w + e_dur env (w_tick w) + e_dur env (S (w_tick w)),
         (x + Rtrunc (IZR (e_randint env (w_tick w) 5 30)
                      * cos (e_angle env (S (w_tick w)))),
          y + Rtrunc (IZR (e_randint env (w_tick w) 5 30)
                      * sin (e_angle env (S (w_tick w))))))].
Proof.
  munfold. cbn -[Rtrunc cos sin IZR Rmult].
  destruct (e_sh env _ _); cbn -[Rtrunc cos sin IZR Rmult];
    rewrite !taps_app; cbn -[Rtrunc cos sin IZR Rmult]; now rewrite app_nil_r.
Qed.

(** The magnitude drawn is 5 and the direction a quarter of a right
    turn: both components, 3.53..., are cut to 3, and the tap lands
    [sqrt 18 < 5] pixels from the match. *)
Lemma random_click_distance_counterexample :
  taps (w_trace (snd (random_click numpy_R (real_env (PI / 4)) "127.0.0.1:16384"
                        360 520 "ok" (demo_world 5000 false))))
  = [(5040, (363, 523))]
  /\ (distance (363%Z, 523%Z) (360%Z, 520%Z) < 5)%R.
Proof.
  split.
  - rewrite random_click_taps. cbn -[Rtrunc cos sin IZR Rmult PI Rdiv].
    now rewrite trunc_5_cos_PI4, trunc_5_sin_PI4.
  - unfold distance. cbn [fst snd].
    change ((363 - 360) * (363 - 360) + (523 - 520) * (523 - 520)) with 18.
    assert (H5 : sqrt (5 * 5) = 5%R) by (apply sqrt_square; lra).
    rewrite <- H5. apply sqrt_lt_1_alt. lra.
Qed.

(** C4, amended. The magnitude is an integer [random.randint(5, 30)]
    and both offset components are cut to integers toward zero, so the
    tap lies no farther from the matched location than the magnitude
    drawn, hence within 30 pixels, and closer to it than the magnitude by
    less than [sqrt 2]: the distance can fall below 5, never to
    [5 - sqrt 2] or less. *)
Theorem random_click_offset_bounds (env : Env R) (device_id : string) (x y : Z)
    (template_name : string) (w : World) :
  let offset := e_randint env (w_tick w) 5 30 in
  5 <= offset <= 30 ->
  exists t click,
    taps (w_trace (snd (random_click numpy_R env device_id x y template_name w)))
    = taps (w_trace w) ++ [(t, click)]
    /\ (IZR offset - sqrt 2 < distance click (x, y) <= IZR offset)%R
    /\ (distance click (x, y) <= 30)%R.
Proof.
  intros offset Hoff. rewrite random_click_taps. fold offset.
  set (angle := e_angle env (S (w_tick w))).
  eexists _, _. split; [reflexivity |].
  unfold distance. cbn [fst snd].
  replace (x + Rtrunc (IZR offset * cos angle) - x) with (Rtrunc (IZR offset * cos angle)) by lia.
  replace (y + Rtrunc (IZR offset * sin angle) - y) with (Rtrunc (IZR offset * sin angle)) by lia.
  rewrite plus_IZR, !mult_IZR.
  assert (Hr : (5 <= IZR offset <= 30)%R) by (split; apply IZR_le; lia).
  destruct (trunc_vector_bounds (IZR offset) (IZR offset * cos angle) (IZR offset * sin angle))
    as [Hup Hlo]; [| lra |].
  { pose proof (sin2_cos2 angle) as Hsc. unfold Rsqr in Hsc. nra. }
  pose proof sqrt2_bounds as [Hk1 Hk2].
  assert (Hd : (sqrt (IZR (Rtrunc (IZR offset * cos angle)) * IZR (Rtrunc (IZR offset * cos angle))
                    + IZR (Rtrunc (IZR offset * sin angle)) * IZR (Rtrunc (IZR offset * sin angle)))
                <= IZR offset)%R).
  { apply Rle_trans with (sqrt (IZR offset * IZR offset)).
    - apply sqrt_le_1_alt. exact Hup.
    - rewrite sqrt_square; lra. }
  split; [split |]; [| exact Hd | lra].
  apply Rle_lt_trans
    with (sqrt ((IZR offset - sqrt 2) * (IZR offset - sqrt 2))).
  - rewrite sqrt_square; lra.
  - apply sqrt_lt_1_alt. split; [nra | exact Hlo].
Qed.

Lemma random_click_offset_bounds_witness :
  exists t click,
    taps (w_trace (snd (random_click numpy_R (real_env (PI / 4)) "127.0.0.1:16384"
                          360 520 "ok" (demo_world 5000 false))))
    = [] ++ [(t, click)]
    /\ (5 - sqrt 2 < distance click (360%Z, 520%Z) <= 5)%R
    /\ (distance click (360%Z, 520%Z) <= 30)%R.
Proof.
  apply (random_click_offset_bounds (real_env (PI / 4)) "127.0.0.1:16384" 360 520 "ok"
           (demo_world 5000 false)).
  cbn. lia.
Defined.

(** ** The supervisor: one running session per device *)

Import AutoClickUI.

(** Every thread knows an event of the store as its stop event, and a
    live thread whose stop event is unset is the one the tables hold
    for its device, together with that event. *)
Definition tables_ok (s : AutoClickUI.t) : Prop :=
  (forall tid th, threads s !! tid = Some th ->
     (th_stop_event th < length (events s))%nat)
  /\ (forall tid th, threads s !! tid = Some th ->
        th_alive th = true ->
        events s !! th_stop_event th = Some false ->
        device_threads s !! th_device th = Some tid
        /\ stop_events s !! th_device th = Some (th_stop_event th)).

Lemma tables_ok_init : tables_ok init.
Proof. split; intros tid th H; cbn in H; rewrite lookup_nil in H; discriminate. Qed.

Lemma tables_ok_log entry s : tables_ok s -> tables_ok (with_log entry s).
Proof. intros H. exact H. Qed.

Lemma tables_ok_event_set ev s : tables_ok s -> tables_ok (event_set ev s).
Proof.
  intros [Hwf Hinv]. split; cbn.
  - intros tid th H. rewrite length_insert. eauto.
  - intros tid th H Ha He. apply (Hinv tid th H Ha).
    destruct (decide (ev = th_stop_event th)) as [-> | Hne].
    + rewrite list_lookup_insert_eq in He by eauto. discriminate.
    + now rewrite list_lookup_insert_ne in He.
Qed.

Lemma tables_ok_thread_exit tid s : tables_ok s -> tables_ok (thread_exit tid s).
Proof.
  intros [Hwf Hinv]. unfold thread_exit, with_threads.
  destruct (threads s !! tid) as [th0 |] eqn:E; [| split; assumption].
  assert (Hlt : (tid < length (threads s))%nat) by (eapply lookup_lt_Some; eauto).
  split; cbn.
  - intros tid' th H.
    destruct (decide (tid = tid')) as [<- | Hne].
    + rewrite list_lookup_insert_eq in H by exact Hlt. injection H as <-. cbn. eauto.
    + rewrite list_lookup_insert_ne in H by exact Hne. eauto.
  - intros tid' th H Ha He.
    destruct (decide (tid = tid')) as [<- | Hne].
    + rewrite list_lookup_insert_eq in H by exact Hlt. injection H as <-. discriminate.
    + rewrite list_lookup_insert_ne in H by exact Hne. eauto.
Qed.

Lemma tables_ok_join_thread joined tid s :
  tables_ok s -> tables_ok (join_thread joined tid s).
Proof.
  intros H. unfold join_thread.
  destruct (is_alive tid s), joined; try apply tables_ok_thread_exit; exact H.
Qed.

Lemma tables_ok_stop_device device_id joined s :
  tables_ok s -> tables_ok (stop_device device_id joined s).
Proof.
  intros H. unfold stop_device.
  destruct (stop_events s !! device_id) as [ev |]; [| exact H].
  destruct (device_threads (event_set ev s) !! device_id) as [tid |];
    [| now apply tables_ok_event_set].
  apply tables_ok_log, tables_ok_join_thread. now apply tables_ok_event_set.
Qed.

(** After [stop_device] no live thread of the device has its stop event
    unset. *)
Lemma stop_device_stops device_id joined s tid th :
  tables_ok s ->
  threads (stop_device device_id joined s) !! tid = Some th ->
  th_device th = device_id ->
  th_alive th = true ->
  events (stop_device device_id joined s) !! th_stop_event th = Some false ->
  False.
Proof.
  intros Hok Hth Hdev Ha He.
  pose proof (tables_ok_stop_device device_id joined s Hok) as [_ Hinv'].
  destruct (Hinv' tid th Hth Ha He) as [_ Hreg]. rewrite Hdev in Hreg.
  revert Hreg He. unfold stop_device.
  destruct (stop_events s !! device_id) as [ev |] eqn:Es; [| congruence].
  assert (Hev : forall s', events s' = events (event_set ev s) ->
                           stop_events s' = stop_events s ->
                           stop_events s' !! device_id = Some (th_stop_event th) ->
                           events s' !! th_stop_event th = Some false -> False).
  { intros s' -> -> Hreg He. rewrite Es in Hreg. injection Hreg as ->.
    cbn in He. apply lookup_lt_Some in He as Hlt. rewrite length_insert in Hlt.
    rewrite list_lookup_insert_eq in He by exact Hlt. discriminate. }
  destruct (device_threads (event_set ev s) !! device_id) as [tid0 |].
  - unfold join_thread.
    destruct (is_alive tid0 (event_set ev s)), joined; apply Hev; reflexivity.
  - apply Hev; reflexivity.
Qed.

Lemma tables_ok_start_device device_id device_info duration dialog joined start_ok s :
  tables_ok s ->
  tables_ok (start_device device_id device_info duration dialog joined start_ok s).
Proof.
  intros Hok. unfold start_device.
  destruct (_ && _); [exact Hok |].
  pose proof (tables_ok_stop_device device_id joined s Hok) as Hok1.
  pose proof (stop_device_stops device_id joined s) as Hstopped.
  set (s1 := stop_device device_id joined s) in *.
  destruct Hok1 as [Hwf Hinv].
  assert (Hold : forall tid th, threads s1 !! tid = Some th ->
                   th_alive th = true ->
                   (events s1 ++ [false; false]) !! th_stop_event th = Some false ->
                   th_device th <> device_id
                   /\ device_threads s1 !! th_device th = Some tid
                   /\ stop_events s1 !! th_device th = Some (th_stop_event th)).
  { intros tid th H Ha He.
    rewrite lookup_app_l in He by eauto.
    split; [| now apply Hinv].
    intros Hd. exact (Hstopped tid th Hok H Hd Ha He). }
  destruct start_ok; apply tables_ok_log; split; cbn.
  - intros tid th H.
    destruct (decide (tid = length (threads s1))) as [-> | Hne].
    + rewrite list_lookup_insert_eq in H by (rewrite length_app; cbn; lia).
      injection H as <-. cbn. rewrite length_app. cbn. lia.
    + rewrite list_lookup_insert_ne in H by auto.
      apply lookup_app_Some in H as [H | [_ H]].
      * rewrite length_app. specialize (Hwf tid th H). lia.
      * destruct (tid - length (threads s1))%nat as [| [|]]; cbn in H; try discriminate.
        injection H as <-. cbn. rewrite length_app. cbn. lia.
  - intros tid th H Ha He.
    destruct (decide (tid = length (threads s1))) as [-> | Hne].
    + rewrite list_lookup_insert_eq in H by (rewrite length_app; cbn; lia).
      injection H as <-. cbn. now rewrite !lookup_insert_eq.
    + rewrite list_lookup_insert_ne in H by auto.
      apply lookup_app_Some in H as [H | [_ H]].
      * destruct (Hold tid th H Ha He) as (Hd & Hr1 & Hr2).
        now rewrite !lookup_insert_ne by auto.
      * destruct (tid - length (threads s1))%nat as [| [|]]; cbn in H; try discriminate.
        injection H as <-. discriminate.
  - intros tid th H.
    apply lookup_app_Some in H as [H | [_ H]].
    + rewrite length_app. specialize (Hwf tid th H). lia.
    + destruct (tid - length (threads s1))%nat as [| [|]]; cbn in H; try discriminate.
      injection H as <-. cbn. rewrite length_app. cbn. lia.
  - intros tid th H Ha He.
    apply lookup_app_Some in H as [H | [_ H]].
    + destruct (Hold tid th H Ha He) as (Hd & Hr1 & Hr2).
      rewrite !lookup_delete_ne by auto. now rewrite !lookup_insert_ne by auto.
    + destruct (tid - length (threads s1))%nat as [| [|]]; cbn in H; try discriminate.
      injection H as <-. discriminate.
Qed.

Lemma tables_ok_stop_all_devices joined s :
  tables_ok s -> tables_ok (stop_all_devices joined s).
Proof.
  intros H. unfold stop_all_devices. apply tables_ok_log.
  match goal with
  | |- tables_ok (foldr _ ?s1 (map_to_list (device_threads ?s1))) =>
      assert (H1 : tables_ok s1);
        [| generalize (map_to_list (device_threads s1)); intros l;
           induction l as [| entry l IH]; cbn;
           [exact H1 | now apply tables_ok_join_thread] ]
  end.
  induction (map_to_list (stop_events s)) as [| entry l IH]; cbn;
    [exact H | now apply tables_ok_event_set].
Qed.

Lemma tables_ok_step s op : tables_ok s -> tables_ok (step s op).
Proof.
  destruct op; cbn.
  - apply tables_ok_start_device.
  - apply tables_ok_stop_device.
  - apply tables_ok_stop_all_devices.
  - apply tables_ok_thread_exit.
Qed.

Lemma tables_ok_run ops : tables_ok (run ops).
Proof.
  unfold run. generalize tables_ok_init. generalize init.
  induction ops as [| op ops IH]; intros s Hs; cbn; [exact Hs |].
  apply IH, tables_ok_step, Hs.
Qed.

Lemma length_le_1_of_all_equal {A} (l : list A) (a : A) :
  List.NoDup l -> (forall x, In x l -> x = a) -> (length l <= 1)%nat.
Proof.
  intros Hnd Hall. destruct l as [| x [| y l]]; cbn; try lia.
  exfalso. inversion Hnd as [| ? ? Hx _]; subst. apply Hx.
  rewrite (Hall x), (Hall y); cbn; auto.
Qed.

(** Two starts of the same device, the worker of the first still busy
    when [join(0.1)] gives up: two live threads work for the device. *)
Lemma two_live_sessions_counterexample :
  let s := run [Start "127.0.0.1:16384" "MuMu" (Some 60) 0 false true;
                Start "127.0.0.1:16384" "MuMu" (Some 60) 0 false true] in
  live_sessions s "127.0.0.1:16384" = [0%nat; 1%nat]
  /\ ~ (length (live_sessions s "127.0.0.1:16384") <= 1)%nat.
Proof. vm_compute. split; [reflexivity | lia]. Qed.

(** C1, amended. After any sequence of starts and stops, interleaved
    with worker threads ending at any moment, every device has at most
    one live worker whose stop signal is unset, and that worker is the
    one held in the supervisor's tables.  A start therefore leaves every
    earlier session of the device with its stop signal set (it waited
    0.1 s for it at most) before the new one is installed. *)
Theorem at_most_one_running_session (ops : list Op) (device_id : string) :
  let s := run ops in
  (length (running_sessions s device_id) <= 1)%nat
  /\ (forall tid, In tid (running_sessions s device_id) ->
        device_threads s !! device_id = Some tid)
  /\ (forall tid, In tid (live_sessions s device_id) ->
        device_threads s !! device_id <> Some tid ->
        unstopped s tid = false).
Proof.
  intros s. destruct (tables_ok_run ops) as [_ Hinv]. fold s in Hinv.
  assert (Hreg : forall tid, live s device_id tid = true -> unstopped s tid = true ->
                             device_threads s !! device_id = Some tid).
  { intros tid Hl Hu. unfold live, unstopped in *.
    destruct (threads s !! tid) as [th |] eqn:E; [| discriminate].
    apply andb_true_iff in Hl as [Ha Hd]. apply String.eqb_eq in Hd.
    destruct (events s !! th_stop_event th) as [[|] |] eqn:Ee; try discriminate.
    rewrite <- Hd. now apply (Hinv tid th). }
  assert (Hrun : forall tid, In tid (running_sessions s device_id) ->
                             device_threads s !! device_id = Some tid).
  { intros tid Hin. apply filter_In in Hin as [_ Hin].
    apply andb_true_iff in Hin as [Hl Hu]. now apply Hreg. }
  split; [| split].
  - destruct (device_threads s !! device_id) as [tid0 |] eqn:E.
    + apply (length_le_1_of_all_equal _ tid0).
      * apply List.NoDup_filter, List.seq_NoDup.
      * intros x Hx. specialize (Hrun x Hx). congruence.
    + destruct (running_sessions s device_id) as [| x l] eqn:El; [cbn; lia |].
      specialize (Hrun x (or_introl eq_refl)). discriminate.
  - exact Hrun.
  - intros tid Hin Hne. apply filter_In in Hin as [_ Hl].
    destruct (unstopped s tid) eqn:Hu; [| reflexivity].
    exfalso. apply Hne. now apply Hreg.
Qed.

(** ** Discovery: an endpoint that cannot be identified *)




Lemma unique_devices_ids (device_ids : gset string) (found : list (string * string)) :
  List.NoDup (map fst (Discovery.unique_devices device_ids found))
  /\ (forall id, In id (map fst (Discovery.unique_devices device_ids found)) <->
                 In id (map fst found) /\ id ∉ device_ids).
Proof.
  revert device_ids. induction found as [| [d di] rest IH]; intros seen.
  - cbn. split; [constructor | tauto].
  - cbn [Discovery.unique_devices]. destruct (decide (d ∈ seen)) as [Hd | Hd].
    + destruct (IH seen) as [H1 H2]. split; [exact H1 |].
      intros id. rewrite H2. cbn. split; [tauto |].
      intros [[<- | Hin] Hs]; [contradiction | tauto].
    + destruct (IH ({[d]} ∪ seen)) as [H1 H2]. cbn [map fst]. split.
      * constructor; [| exact H1]. rewrite H2. intros [_ Hn]. apply Hn.
        apply elem_of_union_l, elem_of_singleton. reflexivity.
      * intros id. cbn [In]. rewrite H2. rewrite not_elem_of_union, not_elem_of_singleton.
        split.
        -- intros [<- | (Hin & Hne & Hs)]; [split; [now left | exact Hd] | tauto].
        -- intros [[<- | Hin] Hs]; [now left |].
           destruct (decide (id = d)) as [-> | Hne]; [now left | right; tauto].
Qed.

Lemma identify_ids sh device_id st st' :
  Discovery.identify sh device_id st = Ret st' ->
  map fst (Discovery.devices st') = map fst (Discovery.devices st) ++ [device_id].
Proof.
  unfold Discovery.identify.
  match goal with
  | |- exc_bind ?q _ = _ -> _ => destruct q as [[[model brand] bound] | e]
  end; cbn [exc_bind]; [| discriminate].
  destruct (Discovery.mumu_tag device_id _) as [info | e]; cbn [exc_bind];
    [| discriminate].
  intros [= <-]. cbn. rewrite map_app. reflexivity.
Qed.

Lemma identify_lines_ids sh lines st st' :
  Discovery.identify_lines sh lines st = Ret st' ->
  map fst (Discovery.devices st')
  = map fst (Discovery.devices st) ++ Discovery.endpoints lines.
Proof.
  revert st. induction lines as [| line rest IH]; intros st.
  - cbn. intros [= <-]. now rewrite app_nil_r.
  - cbn [Discovery.identify_lines Discovery.endpoints].
    destruct (split_ws (strip line)) as [| device_id [| state parts]];
      try apply IH.
    destruct (String.eqb state "device"); [| apply IH].
    destruct (Discovery.identify sh device_id st) as [st1 | e] eqn:E;
      cbn [exc_bind]; [| discriminate].
    intros H. rewrite (IH st1 H), (identify_ids sh device_id st st1 E).
    now rewrite <- app_assoc.
Qed.


(** A failing model query is another matter.  When it is the model query
    of the first endpoint that raises, the fallback reads [brand_cmd]
    before any pass has bound it, and the whole discovery returns the
    empty list. *)
Remark first_model_query_failure_empties_discovery :
  let sh := mkShell
              (fun cmd => if String.eqb cmd Discovery.devices_cmd
                          then Some demo_listing else None)
              (fun _ => EmptyString) in
  Discovery.list_devices sh [] [] = ([], []).
Proof. vm_compute. reflexivity. Qed.




(* ===================================================================== *)
(** * Further properties of the code *)
(* ===================================================================== *)

(** ** The worker loop contains its failures *)

Section LoopFacts.

Context {Angle : Type}.
Variable np : Numpy Angle.
Variable cv : Vision.
Variable env : Env Angle.

Lemma guarded_iteration_returns device_id device_info w :
  exists flow, fst (guarded_iteration np cv env device_id device_info w) = Ret flow.
Proof.
  unfold guarded_iteration, catch.
  destruct (iteration np cv env device_id device_info w) as [[flow | e] w1].
  - eexists; reflexivity.
  - munfold. cbn. eexists; reflexivity.
Qed.

Lemma worker_loop_returns device_id device_info end_time fuel w :
  exists outcome,
    fst (worker_loop np cv env fuel device_id device_info end_time w) = Ret outcome.
Proof.
  revert w. induction fuel as [| fuel IH]; intros w; [eexists; reflexivity |].
  cbn [worker_loop]. unfold bind at 1.
  destruct (stop_is_set env w) as [r w1] eqn:E1.
  assert (S1 : exists b, r = Ret b).
  { revert E1. munfold. cbn. intros [= <- <-]. eauto. }
  destruct S1 as (stopped & ->).
  unfold bind at 1, time_time, gets.
  destruct (stopped || negb (w_now w1 <? end_time)); [eexists; reflexivity |].
  unfold bind at 1.
  destruct (pause_is_set env w1) as [r w2] eqn:E2.
  assert (S2 : exists b, r = Ret b).
  { revert E2. munfold. cbn.
    destruct (e_pause env (w_tick w1)); intros [= <- <-]; eauto. }
  destruct S2 as (paused & ->).
  destruct paused.
  - unfold bind at 1.
    destruct (sleep env 1000 w2) as [r w3] eqn:E3.
    assert (S3 : exists b, r = Ret b).
    { revert E3. munfold. cbn. intros [= <- <-]. eauto. }
    destruct S3 as (u & ->). apply IH.
  - unfold bind at 1.
    destruct (guarded_iteration_returns device_id device_info w2) as [flow Hf].
    destruct (guarded_iteration np cv env device_id device_info w2) as [r w3].
    cbn [fst] in Hf. subst r. destruct flow; [apply IH | eexists; reflexivity].
Qed.

End LoopFacts.

(** ** Every run of the worker ends *)

(** Poses the bounds the oracle hypotheses give for the answers the
    goal mentions. *)
Ltac oracle_bounds Hdur Huni :=
  repeat match goal with
    | |- context [e_dur ?e ?n] =>
        lazymatch goal with
        | _ : 0 <= e_dur e n |- _ => fail
        | _ => pose proof (Hdur n)
        end
    | |- context [e_uniform ?e ?n ?a ?b] =>
        lazymatch goal with
        | _ : a <= e_uniform e n a b |- _ => fail
        | _ => pose proof (Huni n a b ltac:(lia))
        end
    | _ : context [e_dur ?e ?n] |- _ =>
        lazymatch goal with
        | _ : 0 <= e_dur e n |- _ => fail
        | _ => pose proof (Hdur n)
        end
    | _ : context [e_uniform ?e ?n ?a ?b] |- _ =>
        lazymatch goal with
        | _ : a <= e_uniform e n a b |- _ => fail
        | _ => pose proof (Huni n a b ltac:(lia))
        end
    end.

Section ClockFacts.

Context {Angle : Type}.
Variable np : Numpy Angle.
Variable cv : Vision.
Variable env : Env Angle.
Hypothesis Hdur : forall n, 0 <= e_dur env n.
Hypothesis Huni : forall n a b, a <= b -> a <= e_uniform env n a b.

(** The clock does not go back during the pass over the templates, and
    a click costs at least the 0.5 s settle delay. *)
Lemma click_templates_clock device_id device_info current_time verbose_log
      screen names w :
  let rw := click_templates np cv env device_id device_info current_time
              verbose_log screen names w in
  w_now w <= w_now (snd rw)
  /\ (fst rw = Ret true -> w_now w + 500 <= w_now (snd rw)).
Proof.
  revert w. induction names as [| template_name rest IH]; intros w.
  - cbn. split; [lia | discriminate].
  - cbn [click_templates]. munfold. cbn.
    destruct (w_stop w || e_stop env (w_tick w)); cbn.
    { oracle_bounds Hdur Huni. split; [lia | discriminate]. }
    destruct (e_pause env (S (w_tick w))) as [[|]|]; cbn;
      [| | destruct (w_pause w); cbn].
    all: try (oracle_bounds Hdur Huni; split; [lia | discriminate]).
    all: destruct (find_template_never_raises cv template_name screen) as [r Hr];
      rewrite Hr; destruct r as [[x y]|]; cbn.
    all: try match goal with
         | |- context [click_templates _ _ _ _ _ _ _ _ _ ?w1] =>
             destruct (IH w1) as [IH1 IH2]; cbn in IH1, IH2;
             oracle_bounds Hdur Huni;
             split; [lia | intros Hret; specialize (IH2 Hret); lia]
         end.
    all: destruct verbose_log, (String.eqb template_name "button10"),
           (String.eqb template_name "button7"); cbn.
    all: oracle_cases.
    all: repeat match goal with
           | |- context [e_ui_ok ?e ?n] => destruct (e_ui_ok e n); cbn
           end.
    all: oracle_bounds Hdur Huni; split; [lia | intros _; lia].
Qed.

(** A pass that does not leave the loop takes at least 0.1 s. *)
Lemma guarded_iteration_clock device_id device_info w :
  let rw := guarded_iteration np cv env device_id device_info w in
  exists flow, fst rw = Ret flow
    /\ w_now w <= w_now (snd rw)
    /\ (flow = Next -> w_now w + 100 <= w_now (snd rw)).
Proof.
  unfold guarded_iteration, iteration. munfold. cbn.
  destruct (e_screen env (w_tick w)) as [screen |]; cbn.
  2:{ oracle_bounds Hdur Huni. eexists. split; [reflexivity |]. split; [lia |].
      intros _. lia. }
  destruct (find_template_never_raises cv "lose" screen) as [r Hr].
  rewrite Hr. destruct r as [[x y] |]; cbn.
  { destruct (e_ui_ok env _); cbn; oracle_bounds Hdur Huni;
      (eexists; split; [reflexivity |]; split; [lia |]);
      [discriminate | intros _; lia]. }
  destruct (find_template_never_raises cv "notupo" screen) as [r' Hr'].
  rewrite Hr'. destruct r' as [[x y] |]; cbn.
  { destruct (e_ui_ok env _); cbn; oracle_bounds Hdur Huni;
      (eexists; split; [reflexivity |]; split; [lia |]);
      [discriminate | intros _; lia]. }
  destruct (w_now w - w_last_click_time w <? click_cooldown); cbn.
  { oracle_bounds Hdur Huni. eexists. split; [reflexivity |]. split; [lia |].
    intros _. lia. }
  destruct (e_listdir env _); cbn.
  1: match goal with
       | |- context [click_templates _ _ _ ?a ?b ?c ?d ?e ?ns ?w0] =>
           destruct (click_templates_clock a b c d e ns w0) as [C1 C2];
           destruct (click_templates np cv env a b c d e ns w0) as [[[|] | err] w1]
       end.
  all: try (cbn in C1, C2); cbn.
  all: try (destruct (10000 <? _); cbn).
  all: oracle_bounds Hdur Huni.
  all: eexists; (split; [reflexivity |]); (split; [lia |]); intros _.
  all: try specialize (C2 eq_refl); lia.
Qed.

(** Enough fuel for one pass every 0.1 s until [end_time] sees the loop
    end. *)
Lemma worker_loop_terminates device_id device_info end_time fuel w :
  (1 <= fuel)%nat ->
  end_time - w_now w <= 100 * (Z.of_nat fuel - 1) ->
  fst (worker_loop np cv env fuel device_id device_info end_time w) = Ret Finished.
Proof.
  revert w. induction fuel as [| fuel IH]; intros w Hfuel Hend; [lia |].
  cbn [worker_loop]. unfold bind at 1.
  destruct (stop_is_set env w) as [r w1] eqn:E1.
  assert (S1 : w_now w <= w_now w1 /\ exists b, r = Ret b).
  { revert E1. munfold. cbn. intros [= <- <-]. cbn.
    oracle_bounds Hdur Huni. split; [lia | eauto]. }
  destruct S1 as (T1 & stopped & ->).
  unfold bind at 1, time_time, gets.
  destruct stopped; [reflexivity |]. cbn [orb].
  destruct (w_now w1 <? end_time) eqn:Hlt; [| reflexivity]. cbn [negb].
  apply Z.ltb_lt in Hlt.
  unfold bind at 1.
  destruct (pause_is_set env w1) as [r w2] eqn:E2.
  assert (S2 : w_now w1 <= w_now w2 /\ exists b, r = Ret b).
  { revert E2. munfold. cbn.
    destruct (e_pause env (w_tick w1)); intros [= <- <-]; cbn;
      oracle_bounds Hdur Huni; (split; [lia | eauto]). }
  destruct S2 as (T2 & paused & ->).
  destruct paused.
  - unfold bind at 1.
    destruct (sleep env 1000 w2) as [r w3] eqn:E3.
    assert (S3 : w_now w2 + 1000 <= w_now w3 /\ exists b, r = Ret b).
    { revert E3. munfold. cbn. intros [= <- <-]. cbn.
      oracle_bounds Hdur Huni. split; [lia | eauto]. }
    destruct S3 as (T3 & u & ->). apply IH; lia.
  - unfold bind at 1.
    destruct (guarded_iteration_clock device_id device_info w2)
      as (flow & Hf & T3 & T4).
    destruct (guarded_iteration np cv env device_id device_info w2) as [r w3].
    cbn [fst snd] in Hf, T3, T4. subst r.
    destruct flow; [| reflexivity].
    specialize (T4 eq_refl). apply IH; lia.
Qed.

End ClockFacts.

Lemma last_n_app_suffix {A} (k : nat) (a b : list A) :
  (length b <= k)%nat -> exists h, last_n k (a ++ b) = h ++ b.
Proof.
  intros Hb. unfold last_n. rewrite length_app, skipn_app.
  replace (length a + length b - k - length a)%nat with 0%nat by lia.
  eexists. reflexivity.
Qed.

(** The thread function ends the way its loop does, and an ended thread
    has logged its completion and its cleanup last. *)
Lemma device_thread_func_outcome {Angle} (np : Numpy Angle) (cv : Vision)
    (env : Env Angle) fuel device_id device_info duration w :
  let rw := device_thread_func np cv env fuel device_id device_info duration w in
  let started :=
    set_last_click_time 0 (set_last_log_time 0
      (set_logger (StatusLogger.log (e_strftime env (w_now w)) device_info
                     "线程启动" Info) w)) in
  forall outcome,
    fst (worker_loop np cv env fuel device_id device_info
           (w_now w + duration * 60 * 1000) started) = Ret outcome ->
    fst rw = Ret outcome
    /\ (outcome = Finished ->
        exists h t1 t2,
          StatusLogger.history (w_logger (snd rw))
          = h ++ [mkEntry t1 device_info "线程完成" Info;
                  mkEntry t2 device_info "线程清理资源" Info]).
Proof.
  intros rw started outcome Hloop. subst rw.
  unfold device_thread_func. munfold. cbn -[StatusLogger.log].
  fold started.
  destruct (worker_loop np cv env fuel device_id device_info _ started) as [r w1].
  cbn [fst] in Hloop. subst r.
  destruct outcome; cbn -[StatusLogger.log].
  - split; [reflexivity |]. intros _.
    rewrite !log_history, last_n_app_absorb, <- app_assoc.
    destruct (last_n_app_suffix 1000 (StatusLogger.history (w_logger w1))
                [mkEntry (e_strftime env (w_now w1)) device_info "线程完成" Info;
                 mkEntry (e_strftime env (w_now w1)) device_info "线程清理资源" Info])
      as [h Hh]; [cbn; lia |].
    exists h. do 2 eexists. exact Hh.
  - split; [reflexivity | discriminate].
Qed.

(** X1. Every run of a worker thread ends.  When calls outside the
    process take no negative time and [random.uniform(a, b)] answers at
    least [a], each pass of the loop that does not leave it takes at
    least 0.1 s, so a thread started for [duration] minutes leaves its
    loop within [duration * 600 + 1] tests of the loop condition, returns
    normally, and its last two history entries are the completion and
    the cleanup message. *)
Theorem device_thread_func_terminates {Angle} (np : Numpy Angle) (cv : Vision)
    (env : Env Angle) (fuel : nat) (device_id device_info : string)
    (duration : Z) (w : World) :
  (forall n, 0 <= e_dur env n) ->
  (forall n a b, a <= b -> a <= e_uniform env n a b) ->
  0 <= duration ->
  duration * 600 < Z.of_nat fuel ->
  let rw := device_thread_func np cv env fuel device_id device_info duration w in
  fst rw = Ret Finished
  /\ exists h t1 t2,
       StatusLogger.history (w_logger (snd rw))
       = h ++ [mkEntry t1 device_info "线程完成" Info;
               mkEntry t2 device_info "线程清理资源" Info].
Proof.
  intros Hdur Huni Hpos Hfuel rw.
  destruct (device_thread_func_outcome np cv env fuel device_id device_info
              duration w Finished) as [H1 H2].
  - apply worker_loop_terminates; [assumption | assumption | lia | cbn; lia].
  - split; [exact H1 | exact (H2 eq_refl)].
Qed.

Lemma device_thread_func_terminates_witness :
  fst (device_thread_func numpy_axis demo_cv (demo_env None (fun _ => 20) None)
         601 "emulator-5554" "google Pixel 7" 1 (demo_world 0 false))
  = Ret Finished.
Proof.
  apply (device_thread_func_terminates numpy_axis demo_cv
           (demo_env None (fun _ => 20) None) 601 "emulator-5554" "google Pixel 7"
           1 (demo_world 0 false)).
  - intros n. cbn. lia.
  - intros n a b _. cbn. lia.
  - lia.
  - cbn. lia.
Defined.

(** X2. No exception escapes the thread function, whatever the device,
    the file system, OpenCV and the Tk shell do: a failure inside a pass
    is caught by the pass, so the function always returns normally, and
    when its loop has ended the last two history entries are the
    completion and the cleanup message (the [线程错误] branch is never
    taken). *)
Theorem device_thread_func_never_raises {Angle} (np : Numpy Angle) (cv : Vision)
    (env : Env Angle) (fuel : nat) (device_id device_info : string)
    (duration : Z) (w : World) :
  let rw := device_thread_func np cv env fuel device_id device_info duration w in
  exists outcome,
    fst rw = Ret outcome
    /\ (outcome = Finished ->
        exists h t1 t2,
          StatusLogger.history (w_logger (snd rw))
          = h ++ [mkEntry t1 device_info "线程完成" Info;
                  mkEntry t2 device_info "线程清理资源" Info]).
Proof.
  intros rw.
  destruct (worker_loop_returns np cv env device_id device_info
              (w_now w + duration * 60 * 1000) fuel
              (set_last_click_time 0 (set_last_log_time 0
                 (set_logger (StatusLogger.log (e_strftime env (w_now w)) device_info
                                "线程启动" Info) w))))
    as [outcome Hloop].
  exists outcome.
  exact (device_thread_func_outcome np cv env fuel device_id device_info
           duration w outcome Hloop).
Qed.

(** X3. A failed capture is never fatal.  While every capture fails and
    nobody touches the events, each pass of the loop captures once,
    searches no template, taps nothing, publishes one error entry for
    the device and goes on after its 1 s sleep: [fuel] passes that fit
    before [end_time] leave the worker in its loop, with [fuel] captures
    made and [fuel] error entries appended to the bounded history. *)
Theorem failed_captures_keep_looping {Angle} (np : Numpy Angle) (cv : Vision)
    (env : Env Angle) (device_id device_info : string) (end_time dmax : Z)
    (fuel : nat) (w : World) :
  (forall n, e_screen env n = None) ->
  (forall n, e_stop env n = false) ->
  (forall n, e_pause env n = None) ->
  (forall n, 0 <= e_dur env n <= dmax) ->
  w_stop w = false -> w_pause w = false ->
  (length (StatusLogger.history (w_logger w)) <= 1000)%nat ->
  w_now w + Z.of_nat fuel * (1000 + 4 * dmax) <= end_time ->
  let rw := worker_loop np cv env fuel device_id device_info end_time w in
  fst rw = Ret OutOfFuel
  /\ w_stop (snd rw) = false /\ w_pause (snd rw) = false
  /\ taps (w_trace (snd rw)) = taps (w_trace w)
  /\ finds (w_trace (snd rw)) = finds (w_trace w)
  /\ length (captures (w_trace (snd rw))) = (length (captures (w_trace w)) + fuel)%nat
  /\ exists errors,
       length errors = fuel
       /\ Forall (fun e => le_level e = Error /\ le_device e = device_info) errors
       /\ StatusLogger.history (w_logger (snd rw))
          = last_n 1000 (StatusLogger.history (w_logger w) ++ errors).
Proof.
  intros Hscr Hstop Hpause Hdur. revert w.
  induction fuel as [| fuel IH]; intros w Hs Hp Hlen Hend.
  - cbn. do 6 (split; [first [reflexivity | assumption | lia] |]).
    exists []. split; [reflexivity |]. split; [constructor |].
    rewrite app_nil_r. symmetry. now apply last_n_all.
  - cbn [worker_loop]. unfold guarded_iteration, iteration.
    munfold. cbn -[StatusLogger.log].
    rewrite Hs, Hstop. cbn -[StatusLogger.log].
    pose proof (Hdur (w_tick w)) as D0.
    pose proof (Hdur (S (w_tick w))) as D1.
    pose proof (Hdur (S (S (w_tick w)))) as D2.
    pose proof (Hdur (S (S (S (w_tick w))))) as D3.
    assert (HK : Z.of_nat (S fuel) * (1000 + 4 * dmax)
                 = Z.of_nat fuel * (1000 + 4 * dmax) + 1000 + 4 * dmax) by lia.
    assert (HK0 : 0 <= Z.of_nat fuel * (1000 + 4 * dmax)) by nia.
    rewrite HK in Hend. clear HK.
    set (K := Z.of_nat fuel * (1000 + 4 * dmax)) in *.
    replace (w_now w + e_dur env (w_tick w) <? end_time) with true
      by (symmetry; apply Z.ltb_lt; lia).
    cbn -[StatusLogger.log]. rewrite Hpause. cbn -[StatusLogger.log].
    rewrite Hp. cbn -[StatusLogger.log]. rewrite Hscr. cbn -[StatusLogger.log].
    match goal with
    | |- context [worker_loop _ _ _ _ _ _ _ ?w1] =>
        destruct (IH w1) as (H1 & H2 & H3 & H4 & H5 & H6 & errors & H7 & H8 & H9);
          [cbn; first [reflexivity | assumption]
          | cbn; first [reflexivity | assumption]
          | cbn -[StatusLogger.log]; rewrite log_history, last_n_length; lia
          | cbn; lia |]
    end.
    rewrite H1, H2, H3, H4, H5, H6. cbn -[StatusLogger.log] in H9 |- *.
    rewrite !taps_app, !captures_app.
    assert (Hfinds : forall a b, finds (a ++ b) = finds a ++ finds b)
      by (intros a b; induction a as [| [] a IHa]; cbn; congruence).
    rewrite !Hfinds, !length_app. cbn. rewrite !app_nil_r.
    do 5 (split; [reflexivity |]). split; [lia |].
    eexists (_ :: errors). split; [cbn; now rewrite H7 |].
    split; cycle 1.
    { rewrite H9, log_history, last_n_app_absorb, <- app_assoc. reflexivity. }
    constructor; [split; reflexivity | exact H8].
Qed.


Lemma failed_captures_keep_looping_witness :
  let rw := worker_loop numpy_axis demo_cv (demo_env None (fun _ => 20) None) 3
              "emulator-5554" "google Pixel 7" 10000 (demo_world 0 false) in
  fst rw = Ret OutOfFuel
  /\ length (captures (w_trace (snd rw))) = 3%nat
  /\ taps (w_trace (snd rw)) = [].
Proof.
  destruct (failed_captures_keep_looping numpy_axis demo_cv
              (demo_env None (fun _ => 20) None) "emulator-5554" "google Pixel 7"
              10000 20 3 (demo_world 0 false))
    as (H1 & _ & _ & H4 & _ & H6 & _).
  - reflexivity.
  - reflexivity.
  - reflexivity.
  - intros n. cbn. lia.
  - reflexivity.
  - reflexivity.
  - cbn. lia.
  - cbn. lia.
  - split; [exact H1 | split; [exact H6 | exact H4]].
Defined.

(** ** One pass, at most one click *)

(** Closes the goal of a pass written out as a world without a tap. *)
Ltac quiet_pass :=
  unfold one_click, quiet; cbn; rewrite ?taps_app; cbn; rewrite ?app_nil_r;
  (split; [split; [rewrite <- ?app_assoc; eexists; reflexivity
                  | left; repeat split; reflexivity]
          | intros _; repeat split; reflexivity]).

(** A whole pass, handler included, is one [one_click], and stays
    quiet within the cooldown. *)
Lemma guarded_iteration_one_click {Angle} (np : Numpy Angle) (cv : Vision)
    (env : Env Angle) device_id device_info w :
  let w' := snd (guarded_iteration np cv env device_id device_info w) in
  one_click (w_now w) w w'
  /\ (w_now w - w_last_click_time w < 1000 -> quiet w w').
Proof.
  unfold guarded_iteration, iteration. munfold. cbn.
  destruct (e_screen env (w_tick w)) as [screen |]; cbn.
  2: quiet_pass.
  destruct (find_template_never_raises cv "lose" screen) as [r Hr].
  rewrite Hr. destruct r as [[x y] |]; cbn.
  { destruct (e_ui_ok env _); cbn; quiet_pass. }
  destruct (find_template_never_raises cv "notupo" screen) as [r' Hr'].
  rewrite Hr'. destruct r' as [[x y] |]; cbn.
  { destruct (e_ui_ok env _); cbn; quiet_pass. }
  destruct (w_now w - w_last_click_time w <? click_cooldown) eqn:Hcool; cbn.
  { quiet_pass. }
  apply Z.ltb_ge in Hcool. unfold click_cooldown in Hcool.
  destruct (e_listdir env _); cbn.
  1: match goal with
     | |- context [click_templates _ _ _ ?a ?b ?c ?d ?e ?ns ?w0] =>
         destruct (click_templates_one_click np cv env a b c d e ns w0)
           as [[ext Hext] Hc];
         destruct (click_templates np cv env a b c d e ns w0) as [[[|] | err] w1]
     end.
  all: try (unfold quiet in Hc; cbn in Hext, Hc; rewrite ?taps_app in Hc;
            cbn in Hc; rewrite ?app_nil_r in Hc).
  all: cbn; try (destruct (10000 <? _); cbn).
  all: (split; [| intros Hlt; lia]).
  all: unfold one_click, quiet; cbn; rewrite ?taps_app; cbn; rewrite ?app_nil_r.
  all: (split; [rewrite ?Hext, <- ?app_assoc; eexists; reflexivity |]).
  all: try (left; repeat split; reflexivity).
  all: destruct Hc as [Hq | (name & tap & Hc1 & Hc2 & Hc3)];
    [left; exact Hq | right; exists name, tap; repeat split; assumption].
Qed.

(** X4. One pass of the loop dispatches at most one tap, and records
    exactly one click for it; a pass that starts less than 1.0 s after
    the stamp of the last click dispatches none. *)
Theorem pass_dispatches_at_most_one_tap {Angle} (np : Numpy Angle) (cv : Vision)
    (env : Env Angle) (device_id device_info : string) (w : World) :
  let w' := snd (guarded_iteration np cv env device_id device_info w) in
  exists new_taps,
    taps (w_trace w') = taps (w_trace w) ++ new_taps
    /\ (length new_taps <= 1)%nat
    /\ length (w_clicks w') = (length (w_clicks w) + length new_taps)%nat
    /\ (w_now w - w_last_click_time w < click_cooldown -> new_taps = []).
Proof.
  intros w'.
  destruct (guarded_iteration_one_click np cv env device_id device_info w)
    as [[_ Hone] Hcool].
  fold w' in Hone, Hcool.
  destruct Hone as [(Hq1 & Hq2 & Hq3) | (name & tap & Hc1 & Hc2 & Hc3)].
  - exists []. rewrite app_nil_r, Hq1. cbn.
    split; [exact Hq3 |]. split; [lia |]. split; [lia | reflexivity].
  - exists [tap]. rewrite Hc1, length_app. cbn.
    split; [exact Hc3 |]. split; [lia |]. split; [lia |].
    intros Hlt. unfold click_cooldown in Hlt. destruct (Hcool Hlt) as (Hq1 & _). rewrite Hc1 in Hq1.
    apply (f_equal (@length _)) in Hq1. rewrite length_app in Hq1. cbn in Hq1. lia.
Qed.

(** ** The first template on the frame is the one clicked *)

Lemma finds_app a b : finds (a ++ b) = finds a ++ finds b.
Proof. induction a as [| [] a IH]; cbn; congruence. Qed.

(** X5. The templates are tried in the order of the directory listing
    and the first one found on the frame is the one clicked: the
    templates listed before it are searched and skipped, one tap is
    dispatched and one click recorded for it, stamped [current_time],
    and no template listed after it is searched (after [button10] the
    only further search is the [notupo] recheck on a fresh frame). *)
Theorem first_match_wins {Angle} (np : Numpy Angle) (cv : Vision) (env : Env Angle)
    (device_id device_info : string) (current_time : Z) (verbose_log : bool)
    (screen : Image) (skipped : list string) (template_name : string)
    (rest : list string) (x y : Z) (w : World) :
  (forall n, e_stop env n = false) ->
  (forall n, e_pause env n = None) ->
  w_stop w = false -> w_pause w = false ->
  (forall n, In n skipped -> AutoClicker.find_template cv n screen = Ret None) ->
  AutoClicker.find_template cv template_name screen = Ret (Some (x, y)) ->
  let rw := click_templates np cv env device_id device_info current_time
              verbose_log screen (skipped ++ template_name :: rest) w in
  w_clicks (snd rw) = w_clicks w ++ [(template_name, current_time)]
  /\ w_last_click_time (snd rw) = current_time
  /\ length (taps (w_trace (snd rw))) = S (length (taps (w_trace w)))
  /\ exists tail,
       finds (w_trace (snd rw))
       = finds (w_trace w) ++ skipped ++ template_name :: tail
       /\ (tail = [] \/ (template_name = "button10" /\ tail = ["notupo"])).
Proof.
  intros Hstop Hpause Hs Hp Hskip Hf. revert w Hs Hp.
  induction skipped as [| n skipped IH]; intros w Hs Hp.
  - cbn [app click_templates]. munfold. cbn.
    rewrite Hs, Hstop. cbn. rewrite Hpause. cbn. rewrite Hp, Hf. cbn.
    destruct verbose_log, (String.eqb template_name "button10") eqn:E10,
      (String.eqb template_name "button7"); cbn.
    all: try apply String.eqb_eq in E10.
    all: oracle_cases.
    all: repeat match goal with
           | |- context [e_ui_ok ?e ?n] => destruct (e_ui_ok e n); cbn
           end.
    all: rewrite ?taps_app, ?finds_app, ?length_app; cbn; rewrite ?app_nil_r.
    all: split; [reflexivity |]; split; [reflexivity |]; split; [lia |].
    all: first [ exists []; split; [reflexivity | left; reflexivity]
               | exists ["notupo"]; split;
                 [rewrite <- ?app_assoc; reflexivity | right; split; [exact E10 | reflexivity]] ].
  - cbn [app click_templates]. munfold. cbn.
    rewrite Hs, Hstop. cbn. rewrite Hpause. cbn. rewrite Hp.
    rewrite (Hskip n) by (left; reflexivity). cbn.
    match goal with
    | |- context [click_templates _ _ _ _ _ _ _ _ _ ?w1] => set (W1 := w1)
    end.
    assert (Hs1 : w_stop W1 = false) by reflexivity.
    assert (Hp1 : w_pause W1 = false) by exact Hp.
    assert (Hc1 : w_clicks W1 = w_clicks w) by reflexivity.
    assert (Ht1 : w_trace W1 = w_trace w ++ [EvFind n]) by reflexivity.
    clearbody W1.
    destruct (IH (fun m Hm => Hskip m (or_intror Hm)) W1 Hs1 Hp1)
      as (H1 & H2 & H3 & tail & H4 & H5).
    rewrite Hc1 in H1. rewrite Ht1, taps_app in H3. rewrite Ht1, finds_app in H4.
    cbn in H3, H4. rewrite app_nil_r in H3.
    split; [exact H1 |]. split; [exact H2 |]. split; [exact H3 |].
    exists tail. split; [| exact H5].
    rewrite H4, <- ?app_assoc. reflexivity.
Qed.

Lemma first_match_wins_witness :
  let rw := click_templates numpy_axis demo_cv
              (demo_env (Some (demo_frame [5])) (fun _ => 20) None)
              "emulator-5554" "google Pixel 7" 5000 false (demo_frame [5])
              (["lose"; "notupo"; "button10"; "button7"] ++ "ok" :: ["late"])
              (demo_world 5000 false) in
  w_clicks (snd rw) = [("ok", 5000)]
  /\ finds (w_trace (snd rw)) = ["lose"; "notupo"; "button10"; "button7"; "ok"].
Proof.
  destruct (first_match_wins numpy_axis demo_cv
              (demo_env (Some (demo_frame [5])) (fun _ => 20) None)
              "emulator-5554" "google Pixel 7" 5000 false (demo_frame [5])
              ["lose"; "notupo"; "button10"; "button7"] "ok" ["late"] 360 520
              (demo_world 5000 false))
    as (H1 & _ & _ & tail & H4 & H5).
  - reflexivity.
  - reflexivity.
  - reflexivity.
  - reflexivity.
  - intros n [<- | [<- | [<- | [<- | []]]]]; vm_compute; reflexivity.
  - vm_compute. reflexivity.
  - split; [exact H1 |].
    destruct H5 as [-> | [H _]]; [exact H4 | discriminate H].
Defined.

(** ** Leaving the loop from inside a pass *)

(** What a pass that ends in [break] has seen and done. *)
Lemma guarded_iteration_break {Angle} (np : Numpy Angle) (cv : Vision)
    (env : Env Angle) (device_id device_info : string) (w : World) :
  let rw := guarded_iteration np cv env device_id device_info w in
  fst rw = Ret Break ->
  exists screen,
    e_screen env (w_tick w) = Some screen
    /\ ((exists p, AutoClicker.find_template cv "lose" screen = Ret (Some p))
        \/ (exists p, AutoClicker.find_template cv "notupo" screen = Ret (Some p)))
    /\ w_pause (snd rw) = true
    /\ taps (w_trace (snd rw)) = taps (w_trace w)
    /\ w_clicks (snd rw) = w_clicks w.
Proof.
  unfold guarded_iteration, iteration. munfold. cbn.
  destruct (e_screen env (w_tick w)) as [screen |]; cbn; [| discriminate].
  destruct (find_template_never_raises cv "lose" screen) as [r Hr].
  rewrite Hr. destruct r as [[x y] |]; cbn.
  { destruct (e_ui_ok env _); cbn; [| discriminate]. intros _.
    exists screen. rewrite ?taps_app. cbn. rewrite ?app_nil_r.
    repeat split; eauto. }
  destruct (find_template_never_raises cv "notupo" screen) as [r' Hr'].
  rewrite Hr'. destruct r' as [[x y] |]; cbn.
  { destruct (e_ui_ok env _); cbn; [| discriminate]. intros _.
    exists screen. rewrite ?taps_app. cbn. rewrite ?app_nil_r.
    repeat split; eauto. }
  destruct (w_now w - w_last_click_time w <? click_cooldown); cbn; [discriminate |].
  destruct (e_listdir env _); cbn.
  1: match goal with
     | |- context [click_templates _ _ _ ?a ?b ?c ?d ?e ?ns ?w0] =>
         destruct (click_templates np cv env a b c d e ns w0) as [[[|] | err] w1]
     end.
  all: cbn; try (destruct (10000 <? _); cbn); discriminate.
Qed.

(** X6. A pass leaves the [while] loop only through one of the two
    detectors at its start: when a pass ends in [break], the frame it
    captured showed [lose] or [notupo], the pause signal is set, and
    nothing was tapped.  Every other pass, a failed one included, goes
    back to the loop condition. *)
Theorem pass_breaks_only_on_detection {Angle} (np : Numpy Angle) (cv : Vision)
    (env : Env Angle) (device_id device_info : string) (w : World) :
  let rw := guarded_iteration np cv env device_id device_info w in
  fst rw = Ret Break ->
  exists screen,
    e_screen env (w_tick w) = Some screen
    /\ ((exists p, AutoClicker.find_template cv "lose" screen = Ret (Some p))
        \/ (exists p, AutoClicker.find_template cv "notupo" screen = Ret (Some p)))
    /\ w_pause (snd rw) = true
    /\ taps (w_trace (snd rw)) = taps (w_trace w)
    /\ w_clicks (snd rw) = w_clicks w.
Proof.
  exact (guarded_iteration_break np cv env device_id device_info w).
Qed.

Lemma pass_breaks_only_on_detection_witness :
  exists screen,
    e_screen (demo_env (Some (demo_frame [2; 5])) (fun _ => 20) None) 0 = Some screen
    /\ ((exists p, AutoClicker.find_template demo_cv "lose" screen = Ret (Some p))
        \/ (exists p, AutoClicker.find_template demo_cv "notupo" screen = Ret (Some p))).
Proof.
  destruct (pass_breaks_only_on_detection numpy_axis demo_cv
              (demo_env (Some (demo_frame [2; 5])) (fun _ => 20) None)
              "emulator-5554" "google Pixel 7" (demo_world 5000 false))
    as (screen & H1 & H2 & _).
  - vm_compute. reflexivity.
  - exists screen. split; [exact H1 | exact H2].
Defined.

(** ** The recheck after [button10] *)

Lemma click_templates_button10_recheck {Angle} (np : Numpy Angle) (cv : Vision)
    (env : Env Angle) device_id device_info current_time verbose_log screen check
    skipped rest x y p w :
  (forall n, e_stop env n = false) ->
  (forall n, e_pause env n = None) ->
  w_stop w = false -> w_pause w = false ->
  (forall n, (w_tick w <= n)%nat -> e_screen env n = Some check) ->
  (forall n, In n skipped -> AutoClicker.find_template cv n screen = Ret None) ->
  AutoClicker.find_template cv "button10" screen = Ret (Some (x, y)) ->
  AutoClicker.find_template cv "notupo" check = Ret (Some p) ->
  let rw := click_templates np cv env device_id device_info current_time
              verbose_log screen (skipped ++ "button10" :: rest) w in
  (fst rw = Ret true \/ fst rw = Raise "TclError")
  /\ w_pause (snd rw) = true
  /\ w_stop (snd rw) = false
  /\ w_clicks (snd rw) = w_clicks w ++ [("button10", current_time)].
Proof.
  intros Hstop Hpause Hs Hp Hscr Hskip Hf Hn. revert w Hs Hp Hscr.
  induction skipped as [| n skipped IH]; intros w Hs Hp Hscr.
  - cbn [app click_templates]. munfold. cbn.
    rewrite Hs, Hstop. cbn. rewrite Hpause. cbn. rewrite Hp, Hf. cbn.
    destruct verbose_log; cbn.
    all: destruct (e_sh env _ _); cbn.
    all: rewrite Hscr by lia; cbn; rewrite Hn; cbn.
    all: destruct (e_ui_ok env _); cbn.
    all: repeat split; auto.
  - cbn [app click_templates]. munfold. cbn.
    rewrite Hs, Hstop. cbn. rewrite Hpause. cbn. rewrite Hp.
    rewrite (Hskip n) by (left; reflexivity). cbn.
    match goal with
    | |- context [click_templates _ _ _ _ _ _ _ _ _ ?w1] => set (W1 := w1)
    end.
    assert (Hs1 : w_stop W1 = false) by reflexivity.
    assert (Hp1 : w_pause W1 = false) by exact Hp.
    assert (Hc1 : w_clicks W1 = w_clicks w) by reflexivity.
    assert (Hk1 : w_tick W1 = S (S (S (w_tick w)))) by reflexivity.
    clearbody W1.
    destruct (IH (fun m Hm => Hskip m (or_intror Hm)) W1 Hs1 Hp1)
      as (H1 & H2 & H3 & H4).
    { intros m Hm. apply Hscr. lia. }
    rewrite Hc1 in H4. repeat split; assumption.
Qed.

(** X7. The recheck after a click on [button10] pauses the worker
    without ending it.  When the pass clicks [button10] and the frame
    captured after the 0.5 s settle delay shows [notupo], the click is
    recorded, the pause signal is set and the pass goes back to the loop
    condition: unlike a detection at the start of a pass, the thread
    stays in its loop, paused. *)
Theorem button10_recheck_pauses_in_loop {Angle} (np : Numpy Angle) (cv : Vision)
    (env : Env Angle) (device_id device_info : string) (screen check : Image)
    (files skipped rest : list string) (x y : Z) (p : Z * Z) (w : World) :
  (forall n, e_stop env n = false) ->
  (forall n, e_pause env n = None) ->
  w_stop w = false -> w_pause w = false ->
  e_screen env (w_tick w) = Some screen ->
  (forall n, (w_tick w < n)%nat -> e_screen env n = Some check) ->
  AutoClicker.find_template cv "lose" screen = Ret None ->
  AutoClicker.find_template cv "notupo" screen = Ret None ->
  click_cooldown <= w_now w - w_last_click_time w ->
  e_listdir env (S (S (S (w_tick w)))) = Some files ->
  map splitext_root (List.filter (endswith ".png") files)
  = skipped ++ "button10" :: rest ->
  (forall n, In n skipped -> AutoClicker.find_template cv n screen = Ret None) ->
  AutoClicker.find_template cv "button10" screen = Ret (Some (x, y)) ->
  AutoClicker.find_template cv "notupo" check = Ret (Some p) ->
  let rw := guarded_iteration np cv env device_id device_info w in
  fst rw = Ret Next
  /\ w_pause (snd rw) = true
  /\ w_stop (snd rw) = false
  /\ w_clicks (snd rw) = w_clicks w ++ [("button10", w_now w)].
Proof.
  intros Hstop Hpause Hs Hp Hscr Hchk Hlose Hnotupo Hcool Hdir Hnames Hskip Hf Hn.
  unfold guarded_iteration, iteration. munfold. cbn.
  rewrite Hscr. cbn. rewrite Hlose. cbn. rewrite Hnotupo. cbn.
  replace (w_now w - w_last_click_time w <? click_cooldown) with false
    by (symmetry; apply Z.ltb_ge; exact Hcool).
  cbn. rewrite Hdir. cbn. rewrite Hnames.
  match goal with
  | |- context [click_templates _ _ _ ?a ?b ?c ?d ?e _ ?w0] =>
      set (W0 := w0);
      assert (Hs0 : w_stop W0 = false) by exact Hs;
      assert (Hp0 : w_pause W0 = false) by exact Hp;
      assert (Hc0 : w_clicks W0 = w_clicks w) by reflexivity;
      assert (Hk0 : w_tick W0 = S (S (S (S (w_tick w))))) by reflexivity;
      clearbody W0;
      destruct (click_templates_button10_recheck np cv env a b c d e check
                  skipped rest x y p W0 Hstop Hpause Hs0 Hp0)
        as (H1 & H2 & H3 & H4); [| assumption | assumption | assumption |];
      [intros m Hm; apply Hchk; lia |];
      destruct (click_templates np cv env a b c d e _ W0) as [r w1]
  end.
  cbn [fst snd] in H1, H2, H3, H4. rewrite Hc0 in H4.
  destruct H1 as [-> | ->]; cbn; repeat split; assumption.
Qed.

Lemma button10_recheck_pauses_in_loop_witness :
  let env := scripted_env (fun n => if (n =? 0)%nat then Some (demo_frame [3])
                                    else Some (demo_frame [2]))
               (fun _ => 20) None in
  let rw := guarded_iteration numpy_axis demo_cv env "emulator-5554"
              "google Pixel 7" (demo_world 5000 false) in
  fst rw = Ret Next /\ w_pause (snd rw) = true
  /\ w_clicks (snd rw) = [("button10", 5000)].
Proof.
  intros env.
  destruct (button10_recheck_pauses_in_loop numpy_axis demo_cv env "emulator-5554"
              "google Pixel 7" (demo_frame [3]) (demo_frame [2])
              ["lose.png"; "notupo.png"; "button10.png"; "button7.png";
               "ok.png"; "notes.txt"]
              ["lose"; "notupo"] ["button7"; "ok"] 360 520 (360, 520)
              (demo_world 5000 false))
    as (H1 & H2 & _ & H4).
  - reflexivity.
  - reflexivity.
  - reflexivity.
  - reflexivity.
  - reflexivity.
  - intros n Hn. cbn in Hn. destruct n; [lia | reflexivity].
  - vm_compute. reflexivity.
  - vm_compute. reflexivity.
  - vm_compute. discriminate.
  - reflexivity.
  - vm_compute. reflexivity.
  - intros n [<- | [<- | []]]; vm_compute; reflexivity.
  - vm_compute. reflexivity.
  - vm_compute. reflexivity.
  - split; [exact H1 | split; [exact H2 | exact H4]].
Defined.

(** ** What gets clicked *)

Lemma click_templates_clicks_visible {Angle} (np : Numpy Angle) (cv : Vision)
    (env : Env Angle) device_id device_info current_time verbose_log screen names w :
  exists new_clicks,
    w_clicks (snd (click_templates np cv env device_id device_info current_time
                     verbose_log screen names w))
    = w_clicks w ++ new_clicks
    /\ Forall (fun c => snd c = current_time
                        /\ In (fst c) names
                        /\ exists p, AutoClicker.find_template cv (fst c) screen
                                     = Ret (Some p))
              new_clicks.
Proof.
  revert w. induction names as [| template_name rest IH]; intros w.
  - exists []. cbn. rewrite app_nil_r. split; [reflexivity | constructor].
  - cbn [click_templates]. munfold. cbn.
    destruct (w_stop w || e_stop env (w_tick w)); cbn.
    { exists []. rewrite app_nil_r. split; [reflexivity | constructor]. }
    destruct (e_pause env (S (w_tick w))) as [[|]|]; cbn;
      [| | destruct (w_pause w); cbn].
    all: try (exists []; rewrite app_nil_r; split; [reflexivity | constructor]).
    all: destruct (find_template_never_raises cv template_name screen) as [r Hr];
      rewrite Hr; destruct r as [[x y]|]; cbn.
    all: try match goal with
         | |- context [click_templates _ _ _ _ _ _ _ _ _ ?w1] =>
             destruct (IH w1) as (new_clicks & Hnew & Hall); cbn in Hnew;
             exists new_clicks; split; [exact Hnew |];
             rewrite Forall_forall in Hall |- *; intros c Hc;
             specialize (Hall c Hc); cbn; intuition auto
         end.
    all: destruct verbose_log, (String.eqb template_name "button10"),
           (String.eqb template_name "button7"); cbn.
    all: oracle_cases.
    all: repeat match goal with
           | |- context [e_ui_ok ?e ?n] => destruct (e_ui_ok e n); cbn
           end.
    all: exists [(template_name, current_time)]; split; [reflexivity |].
    all: constructor; [| constructor]; cbn; eauto.
Qed.

(** X8. The worker clicks only what the frame shows.  Every click a
    pass records is stamped with the pass's [current_time] and is for a
    template of the directory listing that [find_template] found on the
    frame captured at the start of that pass; and since a frame showing
    [lose] or [notupo] ends the pass before the templates are tried,
    neither of the two is ever clicked, although both are in the
    listing. *)
Theorem clicks_only_what_the_frame_shows {Angle} (np : Numpy Angle) (cv : Vision)
    (env : Env Angle) (device_id device_info : string) (w : World) :
  let w' := snd (guarded_iteration np cv env device_id device_info w) in
  exists new_clicks,
    w_clicks w' = w_clicks w ++ new_clicks
    /\ Forall (fun c =>
         snd c = w_now w
         /\ fst c <> "lose" /\ fst c <> "notupo"
         /\ exists screen files p,
              e_screen env (w_tick w) = Some screen
              /\ e_listdir env (S (S (S (w_tick w)))) = Some files
              /\ In (fst c) (map splitext_root (List.filter (endswith ".png") files))
              /\ AutoClicker.find_template cv (fst c) screen = Ret (Some p))
         new_clicks.
Proof.
  unfold guarded_iteration, iteration. munfold. cbn.
  destruct (e_screen env (w_tick w)) as [screen |] eqn:Hscr; cbn.
  2:{ exists []. rewrite app_nil_r. split; [reflexivity | constructor]. }
  destruct (find_template_never_raises cv "lose" screen) as [r Hr].
  rewrite Hr. destruct r as [[x y] |]; cbn.
  { destruct (e_ui_ok env _); cbn;
      (exists []; rewrite app_nil_r; split; [reflexivity | constructor]). }
  destruct (find_template_never_raises cv "notupo" screen) as [r' Hr'].
  rewrite Hr'. destruct r' as [[x y] |]; cbn.
  { destruct (e_ui_ok env _); cbn;
      (exists []; rewrite app_nil_r; split; [reflexivity | constructor]). }
  destruct (w_now w - w_last_click_time w <? click_cooldown); cbn.
  { exists []. rewrite app_nil_r. split; [reflexivity | constructor]. }
  destruct (e_listdir env _) as [files |] eqn:Hdir; cbn.
  2:{ destruct (10000 <? _); cbn;
        (exists []; rewrite app_nil_r; split; [reflexivity | constructor]). }
  match goal with
  | |- context [click_templates _ _ _ ?a ?b ?c ?d ?e ?ns ?w0] =>
      destruct (click_templates_clicks_visible np cv env a b c d e ns w0)
        as (new_clicks & Hnew & Hall);
      destruct (click_templates np cv env a b c d e ns w0) as [[[|] | err] w1]
  end.
  all: cbn in Hnew; cbn; try (destruct (10000 <? _); cbn).
  all: exists new_clicks; (split; [exact Hnew |]).
  all: rewrite Forall_forall in Hall |- *; intros c Hc;
    destruct (Hall c Hc) as (H1 & H2 & p & H3).
  all: split; [exact H1 |].
  all: split; [intros E; rewrite E in H3; congruence |].
  all: split; [intros E; rewrite E in H3; congruence |].
  all: exists screen, files, p; repeat split; assumption.
Qed.

(** ** The supervisor with pause and resume *)

Import Controls.

Lemma layout_ok_init : layout_ok init.
Proof.
  unfold layout_ok. cbn. split; [reflexivity |].
  split; [intros tid th H; rewrite lookup_nil in H; discriminate |].
  split; [intros d tid H; rewrite lookup_empty in H; discriminate |].
  split; intros d; rewrite !lookup_empty; reflexivity.
Qed.

Lemma layout_ok_log entry s : layout_ok s -> layout_ok (with_log entry s).
Proof. intros H. exact H. Qed.

Lemma layout_ok_with_events f s :
  (forall es, length (f es) = length es) ->
  layout_ok s -> layout_ok (with_events f s).
Proof.
  intros Hf (H1 & H2). split; [cbn; rewrite Hf; exact H1 | exact H2].
Qed.

Lemma layout_ok_event_set ev s : layout_ok s -> layout_ok (event_set ev s).
Proof. apply layout_ok_with_events. intros es. apply length_insert. Qed.

Lemma layout_ok_event_clear ev s : layout_ok s -> layout_ok (event_clear ev s).
Proof. apply layout_ok_with_events. intros es. apply length_insert. Qed.

Lemma layout_ok_thread_exit tid s : layout_ok s -> layout_ok (thread_exit tid s).
Proof.
  intros (H1 & H2 & H3 & H4 & H5). unfold thread_exit, with_threads.
  destruct (threads s !! tid) as [th0 |] eqn:E;
    [| exact (conj H1 (conj H2 (conj H3 (conj H4 H5))))].
  assert (Hlt : (tid < length (threads s))%nat) by (eapply lookup_lt_Some; eauto).
  unfold layout_ok. cbn. rewrite length_insert.
  split; [exact H1 |]. split; [| split; [| split; assumption]].
  - intros tid' th H.
    destruct (decide (tid = tid')) as [<- | Hne].
    + rewrite list_lookup_insert_eq in H by exact Hlt. injection H as <-. cbn. eauto.
    + rewrite list_lookup_insert_ne in H by exact Hne. eauto.
  - intros d tid' H. destruct (H3 d tid' H) as (th & Hth & Hd).
    destruct (decide (tid = tid')) as [<- | Hne].
    + rewrite list_lookup_insert_eq by exact Hlt. eexists. split; [reflexivity |].
      cbn. congruence.
    + rewrite list_lookup_insert_ne by exact Hne. eauto.
Qed.

Lemma layout_ok_join_thread joined tid s :
  layout_ok s -> layout_ok (join_thread joined tid s).
Proof.
  intros H. unfold join_thread.
  destruct (is_alive tid s), joined; try apply layout_ok_thread_exit; exact H.
Qed.

Lemma layout_ok_stop_device device_id joined s :
  layout_ok s -> layout_ok (stop_device device_id joined s).
Proof.
  intros H. unfold stop_device.
  destruct (stop_events s !! device_id) as [ev |]; [| exact H].
  destruct (device_threads (event_set ev s) !! device_id) as [tid |];
    [| now apply layout_ok_event_set].
  apply layout_ok_log, layout_ok_join_thread. now apply layout_ok_event_set.
Qed.

Lemma layout_ok_start_device device_id device_info duration dialog joined start_ok s :
  layout_ok s ->
  layout_ok (start_device device_id device_info duration dialog joined start_ok s).
Proof.
  intros Hok. unfold start_device.
  destruct (_ && _); [exact Hok |].
  pose proof (layout_ok_stop_device device_id joined s Hok) as Hok1.
  set (s1 := stop_device device_id joined s) in *.
  destruct Hok1 as (H1 & H2 & H3 & H4 & H5).
  assert (Hth : forall (new : Thread) tid th,
             th_stop_event new = length (events s1) ->
             th_pause_event new = S (length (events s1)) ->
             (threads s1 ++ [new]) !! tid = Some th ->
             th_stop_event th = (2 * tid)%nat /\ th_pause_event th = S (2 * tid)).
  { intros new tid th N1 N2 H.
    apply lookup_app_Some in H as [H | [Hge H]]; [eauto |].
    destruct (tid - length (threads s1))%nat as [| k] eqn:Ek; cbn in H;
      [| discriminate].
    injection H as <-. rewrite N1, N2, H1. split; f_equal; lia. }
  destruct start_ok; apply layout_ok_log; unfold layout_ok; cbn.
  - rewrite length_insert, !length_app. cbn.
    split; [lia |]. split; [| split; [| split]].
    + intros tid th H.
      destruct (decide (tid = length (threads s1))) as [-> | Hne].
      * rewrite list_lookup_insert_eq in H by (rewrite length_app; cbn; lia).
        injection H as <-. cbn. rewrite H1. split; f_equal; lia.
      * rewrite list_lookup_insert_ne in H by auto.
        eapply Hth; [| | exact H]; reflexivity.
    + intros d tid H.
      destruct (decide (device_id = d)) as [<- | Hne].
      * rewrite lookup_insert_eq in H. injection H as <-.
        rewrite list_lookup_insert_eq by (rewrite length_app; cbn; lia).
        eexists. split; reflexivity.
      * rewrite lookup_insert_ne in H by exact Hne.
        destruct (H3 d tid H) as (th & Hl & Hd).
        assert (tid <> length (threads s1))
          by (apply lookup_lt_Some in Hl; lia).
        rewrite list_lookup_insert_ne by auto.
        rewrite lookup_app_l by (eapply lookup_lt_Some; eauto). eauto.
    + intros d. destruct (decide (device_id = d)) as [<- | Hne].
      * rewrite !lookup_insert_eq. cbn. f_equal. lia.
      * rewrite !lookup_insert_ne by exact Hne. apply H4.
    + intros d. destruct (decide (device_id = d)) as [<- | Hne].
      * rewrite !lookup_insert_eq. cbn. f_equal. lia.
      * rewrite !lookup_insert_ne by exact Hne. apply H5.
  - rewrite !length_app. cbn.
    split; [lia |]. split; [| split; [| split]].
    + intros tid th H. eapply Hth; [| | exact H]; reflexivity.
    + intros d tid H.
      destruct (decide (device_id = d)) as [<- | Hne].
      * rewrite lookup_delete_eq in H. discriminate.
      * rewrite lookup_delete_ne, lookup_insert_ne in H by exact Hne.
        destruct (H3 d tid H) as (th & Hl & Hd).
        rewrite lookup_app_l by (eapply lookup_lt_Some; eauto). eauto.
    + intros d. destruct (decide (device_id = d)) as [<- | Hne].
      * rewrite !lookup_delete_eq. reflexivity.
      * rewrite !lookup_delete_ne, !lookup_insert_ne by exact Hne. apply H4.
    + intros d. destruct (decide (device_id = d)) as [<- | Hne].
      * rewrite !lookup_delete_eq. reflexivity.
      * rewrite !lookup_delete_ne, !lookup_insert_ne by exact Hne. apply H5.
Qed.

Lemma layout_ok_foldr {A} (f : A -> t -> t) (l : list A) s :
  (forall a s', layout_ok s' -> layout_ok (f a s')) ->
  layout_ok s -> layout_ok (foldr f s l).
Proof. intros Hf Hs. induction l as [| a l IH]; cbn; auto. Qed.

Lemma layout_ok_stop_all_devices joined s :
  layout_ok s -> layout_ok (stop_all_devices joined s).
Proof.
  intros H. unfold stop_all_devices. apply layout_ok_log.
  apply layout_ok_foldr; [intros a s'; apply layout_ok_join_thread |].
  apply layout_ok_foldr; [intros a s'; apply layout_ok_event_set | exact H].
Qed.

Lemma layout_ok_step s op : layout_ok s -> layout_ok (step s op).
Proof.
  destruct op; cbn.
  - apply layout_ok_start_device.
  - apply layout_ok_stop_device.
  - apply layout_ok_stop_all_devices.
  - apply layout_ok_thread_exit.
Qed.

Lemma layout_ok_toggle_device devices device_id dialog joined start_ok s :
  layout_ok s -> layout_ok (toggle_device devices device_id dialog joined start_ok s).
Proof.
  intros H. unfold toggle_device.
  destruct (pause_events s !! device_id) as [pause_event |]; [| exact H].
  destruct (event_is_set pause_event s);
    [| now apply layout_ok_log, layout_ok_event_set].
  assert (H' : layout_ok (with_log (device_id, "继续运行") (event_clear pause_event s)))
    by now apply layout_ok_log, layout_ok_event_clear.
  destruct (device_threads _ !! device_id) as [tid |]; [| exact H'].
  destruct (_ && _); [| exact H'].
  destruct (device_info_of devices device_id) as [[| c info] |]; try exact H'.
  destruct (threads _ !! tid) as [thread |]; [| exact H'].
  now apply layout_ok_log, layout_ok_start_device.
Qed.

Lemma layout_ok_toggle_all_devices pause s :
  layout_ok s -> layout_ok (toggle_all_devices pause s).
Proof.
  intros H. unfold toggle_all_devices. apply layout_ok_log.
  apply layout_ok_foldr; [| exact H].
  intros a s' Hs'. destruct pause;
    [now apply layout_ok_event_set | now apply layout_ok_event_clear].
Qed.

Lemma layout_ok_command s c : layout_ok s -> layout_ok (command s c).
Proof.
  destruct c; cbn.
  - apply layout_ok_step.
  - apply layout_ok_toggle_device.
  - apply layout_ok_toggle_all_devices.
  - intros H. unfold worker_pauses.
    destruct (threads s !! tid); [now apply layout_ok_event_set | exact H].
Qed.

Lemma layout_ok_session cs : layout_ok (session cs).
Proof.
  unfold session. generalize layout_ok_init. generalize init.
  induction cs as [| c cs IH]; intros s Hs; cbn; [exact Hs |].
  apply IH, layout_ok_command, Hs.
Qed.

(** Clearing a pause event leaves every stop event as it is. *)
Lemma tables_ok_event_clear_odd k s :
  layout_ok s -> tables_ok s -> tables_ok (event_clear (S (2 * k)) s).
Proof.
  intros (_ & L2 & _) [Hwf Hinv]. split; cbn.
  - intros tid th H. rewrite length_insert. eauto.
  - intros tid th H Ha He. apply (Hinv tid th H Ha).
    destruct (L2 tid th H) as [Hs _].
    rewrite list_lookup_insert_ne in He by lia. exact He.
Qed.

Lemma pause_event_odd s d ev :
  layout_ok s -> pause_events s !! d = Some ev -> exists k, ev = S (2 * k).
Proof.
  intros (_ & _ & _ & _ & L5) H. rewrite L5 in H.
  destruct (device_threads s !! d) as [tid |]; [| discriminate].
  injection H as <-. eauto.
Qed.

Lemma tables_ok_toggle_device devices device_id dialog joined start_ok s :
  layout_ok s -> tables_ok s ->
  tables_ok (toggle_device devices device_id dialog joined start_ok s).
Proof.
  intros L H. unfold toggle_device.
  destruct (pause_events s !! device_id) as [pause_event |] eqn:E; [| exact H].
  destruct (pause_event_odd s device_id pause_event L E) as [k ->].
  destruct (event_is_set _ s);
    [| now apply tables_ok_log, tables_ok_event_set].
  assert (H' : tables_ok (with_log (device_id, "继续运行") (event_clear (S (2 * k)) s)))
    by now apply tables_ok_log, tables_ok_event_clear_odd.
  destruct (device_threads _ !! device_id) as [tid |]; [| exact H'].
  destruct (_ && _); [| exact H'].
  destruct (device_info_of devices device_id) as [[| c info] |]; try exact H'.
  destruct (threads _ !! tid) as [thread |]; [| exact H'].
  now apply tables_ok_log, tables_ok_start_device.
Qed.

Lemma tables_ok_toggle_all_devices pause s :
  layout_ok s -> tables_ok s -> tables_ok (toggle_all_devices pause s).
Proof.
  intros L H. unfold toggle_all_devices. apply tables_ok_log.
  assert (Hodd : Forall (fun entry : string * nat => exists k, snd entry = S (2 * k))
                        (map_to_list (pause_events s))).
  { apply Forall_forall. intros [d ev] Hin. apply elem_of_map_to_list in Hin.
    exact (pause_event_odd s d ev L Hin). }
  match goal with
  | |- tables_ok ?x => enough (Hboth : layout_ok x /\ tables_ok x) by apply Hboth
  end.
  induction Hodd as [| entry l [k Hk] _ IH]; cbn; [split; assumption |].
  destruct IH as [L' H']. destruct pause.
  - split; [now apply layout_ok_event_set | now apply tables_ok_event_set].
  - rewrite Hk.
    split; [now apply layout_ok_event_clear | now apply tables_ok_event_clear_odd].
Qed.

Lemma tables_ok_command s c :
  layout_ok s -> tables_ok s -> tables_ok (command s c).
Proof.
  intros L H. destruct c; cbn.
  - now apply tables_ok_step.
  - now apply tables_ok_toggle_device.
  - now apply tables_ok_toggle_all_devices.
  - unfold worker_pauses.
    destruct (threads s !! tid); [now apply tables_ok_event_set | exact H].
Qed.

Lemma invariants_session cs : layout_ok (session cs) /\ tables_ok (session cs).
Proof.
  unfold session.
  generalize (conj layout_ok_init tables_ok_init). generalize init.
  induction cs as [| c cs IH]; intros s Hs; cbn; [exact Hs |].
  apply IH. destruct Hs as [L H].
  split; [now apply layout_ok_command | now apply tables_ok_command].
Qed.

Lemma running_sessions_registered s device_id :
  tables_ok s ->
  (length (running_sessions s device_id) <= 1)%nat
  /\ (forall tid, In tid (running_sessions s device_id) ->
        device_threads s !! device_id = Some tid).
Proof.
  intros [_ Hinv].
  assert (Hrun : forall tid, In tid (running_sessions s device_id) ->
                             device_threads s !! device_id = Some tid).
  { intros tid Hin. apply filter_In in Hin as [_ Hin].
    apply andb_true_iff in Hin as [Hl Hu]. unfold live, unstopped in *.
    destruct (threads s !! tid) as [th |] eqn:E; [| discriminate].
    apply andb_true_iff in Hl as [Ha Hd]. apply String.eqb_eq in Hd.
    destruct (events s !! th_stop_event th) as [[|] |] eqn:Ee; try discriminate.
    rewrite <- Hd. now apply (Hinv tid th). }
  split; [| exact Hrun].
  destruct (device_threads s !! device_id) as [tid0 |] eqn:E.
  - apply (length_le_1_of_all_equal _ tid0).
    + apply List.NoDup_filter, List.seq_NoDup.
    + intros x Hx. specialize (Hrun x Hx). congruence.
  - destruct (running_sessions s device_id) as [| x l] eqn:El; [cbn; lia |].
    specialize (Hrun x (or_introl eq_refl)). discriminate.
Qed.

(** X9. Pause and resume keep the sessions of a device apart.  After
    any sequence of starts, stops, pause/resume toggles (the restart of
    an ended worker on resume included), workers pausing themselves and
    workers ending, every device has at most one live worker whose stop
    signal is unset, and it is the one the tables hold. *)
Theorem one_running_session_with_toggles (cs : list Command) (device_id : string) :
  let s := session cs in
  (length (running_sessions s device_id) <= 1)%nat
  /\ (forall tid, In tid (running_sessions s device_id) ->
        device_threads s !! device_id = Some tid).
Proof.
  intros s. apply running_sessions_registered. apply invariants_session.
Qed.

(** X10. The supervisor and a worker agree on the signals they share.
    At any time the three tables hold the same devices, and what they
    hold for a device is a thread created for that device together with
    the stop and the pause event that thread was given; the two events
    are different objects, and no event is shared between two devices,
    as a stop event or as a pause event. *)
Theorem tables_agree (cs : list Command) (device_id : string) :
  let s := session cs in
  match device_threads s !! device_id with
  | Some tid =>
      exists th,
        threads s !! tid = Some th
        /\ th_device th = device_id
        /\ stop_events s !! device_id = Some (th_stop_event th)
        /\ pause_events s !! device_id = Some (th_pause_event th)
        /\ th_stop_event th <> th_pause_event th
        /\ (forall other ev,
              other <> device_id ->
              (stop_events s !! other = Some ev \/ pause_events s !! other = Some ev) ->
              ev <> th_stop_event th /\ ev <> th_pause_event th)
  | None =>
      stop_events s !! device_id = None /\ pause_events s !! device_id = None
  end.
Proof.
  intros s. destruct (invariants_session cs) as [(L1 & L2 & L3 & L4 & L5) _].
  fold s in L1, L2, L3, L4, L5.
  destruct (device_threads s !! device_id) as [tid |] eqn:E.
  - destruct (L3 device_id tid E) as (th & Hth & Hd).
    destruct (L2 tid th Hth) as [Hs Hp].
    exists th. split; [exact Hth |]. split; [exact Hd |].
    split; [rewrite L4, E, Hs; reflexivity |].
    split; [rewrite L5, E, Hp; reflexivity |].
    split; [lia |].
    intros other ev Hne Hev.
    assert (Hother : exists tid', device_threads s !! other = Some tid'
                                  /\ (ev = (2 * tid')%nat \/ ev = S (2 * tid'))).
    { rewrite L4, L5 in Hev.
      destruct (device_threads s !! other) as [tid' |]; cbn in Hev;
        [| destruct Hev; discriminate].
      exists tid'. split; [reflexivity |]. destruct Hev as [[= <-] | [= <-]]; auto. }
    destruct Hother as (tid' & E' & Hev').
    assert (tid' <> tid).
    { intros ->. destruct (L3 other tid E') as (th' & Hth' & Hd').
      rewrite Hth in Hth'. injection Hth' as <-. congruence. }
    lia.
  - rewrite L4, L5, E. split; reflexivity.
Qed.

(** ** Stopping everything *)

(** What a loop that sets or clears events leaves of a state. *)
Lemma foldr_events_frame (f : string * nat -> bool) (l : list (string * nat)) s :
  let s' := foldr (fun entry s => if f entry then event_set (snd entry) s
                                  else event_clear (snd entry) s) s l in
  device_threads s' = device_threads s /\ stop_events s' = stop_events s
  /\ pause_events s' = pause_events s /\ threads s' = threads s
  /\ length (events s') = length (events s)
  /\ (forall ev, ~ In ev (map snd l) -> events s' !! ev = events s !! ev).
Proof.
  induction l as [| entry l IH]; cbn.
  - repeat split; reflexivity.
  - destruct IH as (H1 & H2 & H3 & H4 & H5 & H6).
    destruct (f entry); cbn; rewrite length_insert.
    all: repeat split; try assumption.
    all: intros ev Hev; rewrite list_lookup_insert_ne by tauto; apply H6; tauto.
Qed.

Lemma foldr_events_all (b : bool) (l : list (string * nat)) s ev :
  In ev (map snd l) -> (ev < length (events s))%nat ->
  events (foldr (fun entry s => if b then event_set (snd entry) s
                                else event_clear (snd entry) s) s l) !! ev
  = Some b.
Proof.
  intros Hin Hlt. induction l as [| entry l IH]; cbn; [contradiction |].
  pose proof (foldr_events_frame (fun _ => b) l s) as (_ & _ & _ & _ & Hlen & _).
  cbn in Hlen.
  destruct (decide (snd entry = ev)) as [-> | Hne].
  - destruct b; cbn; rewrite list_lookup_insert_eq by lia; reflexivity.
  - destruct Hin as [Hin | Hin]; [contradiction |].
    destruct b; cbn; rewrite list_lookup_insert_ne by exact Hne; now apply IH.
Qed.

Lemma foldr_join_frame (joined : string -> bool) (l : list (string * nat)) s :
  let s' := foldr (fun entry s => join_thread (joined (fst entry)) (snd entry) s) s l in
  device_threads s' = device_threads s /\ stop_events s' = stop_events s
  /\ pause_events s' = pause_events s /\ events s' = events s.
Proof.
  induction l as [| entry l IH]; cbn; [repeat split; reflexivity |].
  destruct IH as (H1 & H2 & H3 & H4).
  unfold join_thread, thread_exit.
  destruct (is_alive _ _), (joined (fst entry)); cbn; repeat split; assumption.
Qed.

Lemma filter_none {A} (f : A -> bool) (l : list A) :
  (forall x, In x l -> f x = false) -> List.filter f l = [].
Proof.
  induction l as [| a l IH]; intros H; cbn; [reflexivity |].
  rewrite (H a) by (left; reflexivity). apply IH. intros x Hx. apply H. now right.
Qed.

Lemma filter_all {A} (f : A -> bool) (l : list A) :
  (forall x, In x l -> f x = true) -> List.filter f l = l.
Proof.
  induction l as [| a l IH]; intros H; cbn; [reflexivity |].
  rewrite (H a) by (left; reflexivity). f_equal. apply IH.
  intros x Hx. apply H. now right.
Qed.

Lemma stop_event_in_store s d ev :
  layout_ok s -> stop_events s !! d = Some ev -> (ev < length (events s))%nat.
Proof.
  intros (L1 & _ & L3 & L4 & _) H. rewrite L4 in H.
  destruct (device_threads s !! d) as [tid |] eqn:E; [| discriminate].
  injection H as <-. destruct (L3 d tid E) as (th & Hth & _).
  apply lookup_lt_Some in Hth. lia.
Qed.

Lemma pause_event_in_store s d ev :
  layout_ok s -> pause_events s !! d = Some ev -> (ev < length (events s))%nat.
Proof.
  intros (L1 & _ & L3 & _ & L5) H. rewrite L5 in H.
  destruct (device_threads s !! d) as [tid |] eqn:E; [| discriminate].
  injection H as <-. destruct (L3 d tid E) as (th & Hth & _).
  apply lookup_lt_Some in Hth. lia.
Qed.

Lemma stop_all_devices_sets s joined d ev :
  layout_ok s -> stop_events s !! d = Some ev ->
  let s' := stop_all_devices joined s in
  stop_events s' = stop_events s /\ device_threads s' = device_threads s
  /\ events s' !! ev = Some true.
Proof.
  intros L H. unfold stop_all_devices. cbn.
  match goal with
  | |- context [foldr ?g ?s1 (map_to_list (device_threads ?s1))] =>
      pose proof (foldr_join_frame joined (map_to_list (device_threads s1)) s1)
        as (J1 & J2 & _ & J4)
  end.
  cbn in J1, J2, J4. rewrite J1, J2, J4.
  pose proof (foldr_events_frame (fun _ => true) (map_to_list (stop_events s)) s)
    as (F1 & F2 & _).
  cbn in F1, F2. rewrite F1, F2. split; [reflexivity |]. split; [reflexivity |].
  apply (foldr_events_all true).
  - apply in_map_iff. exists (d, ev). split; [reflexivity |].
    apply list_elem_of_In, elem_of_map_to_list, H.
  - eapply stop_event_in_store; eauto.
Qed.

(** X11. [stop_all_devices] leaves nothing running.  After it, every
    stop event of the tables is set, so no device has a live worker
    whose stop signal is unset and the status bar counts 0 running; the
    tables themselves keep all their devices (a stop never removes one). *)
Theorem stop_all_devices_stops_everything (cs : list Command) (joined : string -> bool) :
  let s := session cs in
  let s' := stop_all_devices joined s in
  running_count s' = 0%nat
  /\ total_count s' = total_count s
  /\ (forall device_id, running_sessions s' device_id = [])
  /\ (forall device_id ev,
        stop_events s !! device_id = Some ev -> events s' !! ev = Some true).
Proof.
  intros s s'. destruct (invariants_session cs) as [L T]. fold s in L, T.
  assert (Hset : forall d ev, stop_events s' !! d = Some ev ->
                              events s' !! ev = Some true).
  { intros d ev H.
    destruct (stop_events s !! d) as [ev0 |] eqn:E.
    - destruct (stop_all_devices_sets s joined d ev0 L E) as (H1 & _ & H3).
      fold s' in H1, H3. rewrite H1, E in H. injection H as <-. exact H3.
    - assert (Hst : stop_events s' = stop_events s).
      { unfold s', stop_all_devices. cbn.
        match goal with
        | |- context [foldr ?g ?s1 (map_to_list (device_threads ?s1))] =>
            pose proof (foldr_join_frame joined (map_to_list (device_threads s1)) s1)
              as (_ & J2 & _)
        end.
        cbn in J2. rewrite J2.
        pose proof (foldr_events_frame (fun _ => true) (map_to_list (stop_events s)) s)
          as (_ & F2 & _).
        exact F2. }
      rewrite Hst, E in H. discriminate. }
  split; [| split; [| split]].
  - unfold running_count. rewrite filter_none; [reflexivity |].
    intros [d ev] Hin. apply list_elem_of_In, elem_of_map_to_list in Hin.
    cbn. unfold event_is_set. now rewrite (Hset d ev Hin).
  - unfold total_count.
    destruct (map_to_list (stop_events s)) as [| [d ev] l] eqn:El.
    + unfold s', stop_all_devices. rewrite El. cbn.
      match goal with
      | |- context [foldr ?g ?s1 (map_to_list (device_threads ?s1))] =>
          pose proof (foldr_join_frame joined (map_to_list (device_threads s1)) s1)
            as (J1 & _)
      end.
      cbn in J1. now rewrite J1.
    + assert (E : stop_events s !! d = Some ev).
      { apply elem_of_map_to_list. rewrite El. left. }
      destruct (stop_all_devices_sets s joined d ev L E) as (_ & H2 & _).
      fold s' in H2. now rewrite H2.
  - intros device_id.
    pose proof (tables_ok_stop_all_devices joined s T) as T'.
    pose proof (layout_ok_stop_all_devices joined s L) as (_ & L2 & _ & L4 & _).
    fold s' in T', L2, L4.
    destruct (running_sessions_registered s' device_id T') as [_ Hreg].
    destruct (running_sessions s' device_id) as [| tid l] eqn:El; [reflexivity |].
    exfalso.
    assert (Hin : In tid (running_sessions s' device_id)) by (rewrite El; now left).
    pose proof (Hreg tid (or_introl eq_refl)) as Hd.
    apply filter_In in Hin as [_ Hin].
    apply andb_true_iff in Hin as [_ Hu]. unfold unstopped in Hu.
    destruct (threads s' !! tid) as [th |] eqn:Eth; [| discriminate].
    destruct (L2 tid th Eth) as [Hs _].
    assert (Hev : stop_events s' !! device_id = Some (th_stop_event th))
      by (rewrite L4, Hd, Hs; reflexivity).
    rewrite (Hset device_id _ Hev) in Hu. discriminate.
  - intros device_id ev H.
    now destruct (stop_all_devices_sets s joined device_id ev L H) as (_ & _ & H3).
Qed.

(** ** Resume *)

(** X12. Resuming a device whose worker has ended starts it again.
    When the pause signal of a device is set, its stop signal is not,
    and the thread registered for it is no longer alive (it left its
    loop on a detection, or its time ran out while it was paused),
    [toggle_device] clears the pause signal and calls [start_device] with
    the [run_duration] of the ended thread: the old stop signal is set,
    and a new live thread is registered for the device with two fresh,
    unset events and the full planned duration, not what was left of
    it. *)
Theorem resume_restarts_ended_worker (cs : list Command)
    (devices : list (string * string)) (device_id device_info : string)
    (dialog : Z) (joined : bool) (tid : nat) (th : Thread) :
  let s := session cs in
  device_threads s !! device_id = Some tid ->
  threads s !! tid = Some th ->
  th_alive th = false ->
  events s !! th_stop_event th = Some false ->
  events s !! th_pause_event th = Some true ->
  device_info_of devices device_id = Some device_info ->
  device_info <> EmptyString ->
  th_run_duration th <> 0 ->
  let s' := toggle_device devices device_id dialog joined true s in
  let new := length (threads s) in
  device_threads s' !! device_id = Some new
  /\ threads s' !! new
     = Some (mkThread device_id (2 * new) (S (2 * new)) (th_run_duration th) true)
  /\ stop_events s' !! device_id = Some (2 * new)%nat
  /\ pause_events s' !! device_id = Some (S (2 * new))
  /\ events s' !! (2 * new)%nat = Some false
  /\ events s' !! S (2 * new) = Some false
  /\ events s' !! th_stop_event th = Some true
  /\ events s' !! th_pause_event th = Some false
  /\ threads s' !! tid = Some th.
Proof.
  intros s Hd Hth Ha Hse Hpe Hinfo Hne Hdur s' new.
  destruct (invariants_session cs) as [(L1 & L2 & L3 & L4 & L5) _].
  fold s in L1, L2, L3, L4, L5.
  destruct (L2 tid th Hth) as [Es Ep]. rewrite Es in *. rewrite Ep in *.
  assert (Hlt : (tid < length (threads s))%nat) by (eapply lookup_lt_Some; eauto).
  assert (Hp : pause_events s !! device_id = Some (S (2 * tid)))
    by (rewrite L5, Hd; reflexivity).
  assert (Hs : stop_events s !! device_id = Some (2 * tid)%nat)
    by (rewrite L4, Hd; reflexivity).
  clear L2 L3 L4 L5 Es Ep.
  subst s' new. clearbody s. destruct s as [dt se pe ths evs lg].
  cbn -[Nat.mul] in *.
  destruct device_info as [| c info]; [congruence |].
  apply Z.eqb_neq in Hdur.
  match goal with
  | |- context [toggle_device ?a ?b ?c ?d ?e ?s0] =>
      assert (Heq : exists lg',
                toggle_device a b c d e s0
                = mk (<[device_id := length ths]> dt)
                     (<[device_id := (2 * length ths)%nat]> se)
                     (<[device_id := S (2 * length ths)]> pe)
                     (<[length ths := mkThread device_id (2 * length ths)
                                        (S (2 * length ths)) (th_run_duration th) true]>
                        (ths ++ [mkThread device_id (2 * length ths)
                                   (S (2 * length ths)) (th_run_duration th) false]))
                     (<[(2 * tid)%nat := true]> (<[S (2 * tid) := false]> evs)
                        ++ [false; false])
                     lg')
  end.
  { unfold toggle_device. cbn -[Nat.mul]. rewrite Hp.
    unfold event_is_set. cbn -[Nat.mul]. rewrite Hpe. cbn -[Nat.mul].
    rewrite Hd. unfold is_alive. cbn -[Nat.mul]. rewrite Hth, Ha, Hs.
    rewrite list_lookup_insert_ne by lia. rewrite Hse. cbn -[Nat.mul].
    rewrite Hinfo.
    unfold start_device. cbn -[Nat.mul]. rewrite Hdur. cbn -[Nat.mul].
    unfold stop_device. cbn -[Nat.mul]. rewrite Hs. cbn -[Nat.mul]. rewrite Hd.
    unfold join_thread, is_alive. cbn -[Nat.mul]. rewrite Hth, Ha.
    cbn -[Nat.mul]. rewrite !length_insert, L1.
    eexists. reflexivity. }
  destruct Heq as [lg' ->]. cbn -[Nat.mul].
  assert (Hev : length (<[(2 * tid)%nat := true]> (<[S (2 * tid) := false]> evs))
                = (2 * length ths)%nat) by (rewrite !length_insert; exact L1).
  split; [apply lookup_insert_eq |].
  split; [apply list_lookup_insert_eq; rewrite length_app; cbn; lia |].
  split; [apply lookup_insert_eq |].
  split; [apply lookup_insert_eq |].
  split; [rewrite lookup_app_r by lia; rewrite Hev, Nat.sub_diag; reflexivity |].
  split; [rewrite lookup_app_r by lia; rewrite Hev;
          replace (S (2 * length ths) - 2 * length ths)%nat with 1%nat by lia;
          reflexivity |].
  split; [rewrite lookup_app_l by lia;
          apply list_lookup_insert_eq; rewrite length_insert; lia |].
  split; [rewrite lookup_app_l by lia; rewrite list_lookup_insert_ne by lia;
          apply list_lookup_insert_eq; lia |].
  rewrite list_lookup_insert_ne by lia.
  rewrite lookup_app_l by lia. exact Hth.
Qed.

Lemma resume_restarts_ended_worker_witness :
  let s := session [Basic (Start "emulator-5554" "google Pixel 7" (Some 60) 0 false true);
                    Toggle [] "emulator-5554" 0 false true;
                    Basic (Exit 0)] in
  let s' := toggle_device [("emulator-5554", "google Pixel 7")] "emulator-5554"
              0 false true s in
  device_threads s' !! "emulator-5554" = Some 1%nat
  /\ threads s' !! 1%nat = Some (mkThread "emulator-5554" 2 3 60 true)
  /\ events s' !! 0%nat = Some true.
Proof.
  intros s s'.
  destruct (resume_restarts_ended_worker
              [Basic (Start "emulator-5554" "google Pixel 7" (Some 60) 0 false true);
               Toggle [] "emulator-5554" 0 false true;
               Basic (Exit 0)]
              [("emulator-5554", "google Pixel 7")] "emulator-5554" "google Pixel 7"
              0 false 0%nat (mkThread "emulator-5554" 0 1 60 false))
    as (H1 & H2 & _ & _ & _ & _ & H7 & _ & _).
  - vm_compute. reflexivity.
  - vm_compute. reflexivity.
  - reflexivity.
  - vm_compute. reflexivity.
  - vm_compute. reflexivity.
  - vm_compute. reflexivity.
  - discriminate.
  - cbn. lia.
  - split; [exact H1 | split; [exact H2 | exact H7]].
Defined.

(** What [toggle_device] does to a device whose worker is alive. *)
Lemma toggle_device_live devices device_id dialog joined start_ok s tid b :
  pause_events s !! device_id = Some (S (2 * tid)) ->
  device_threads s !! device_id = Some tid ->
  is_alive tid s = true ->
  events s !! S (2 * tid) = Some b ->
  exists lg,
    toggle_device devices device_id dialog joined start_ok s
    = mk (device_threads s) (stop_events s) (pause_events s) (threads s)
         (<[S (2 * tid) := negb b]> (events s)) lg.
Proof.
  intros Hp Hd Ha Hb. unfold toggle_device. rewrite Hp.
  unfold event_is_set. rewrite Hb. cbn [default].
  destruct b; cbn [negb].
  - cbn -[Nat.mul]. rewrite Hd.
    replace (is_alive tid _) with true by (symmetry; exact Ha).
    cbn -[Nat.mul]. eexists. reflexivity.
  - eexists. reflexivity.
Qed.

(** X13. Pausing and resuming a device whose worker is alive touches
    its pause signal and nothing else: one [toggle_device] flips the
    pause event and leaves the tables, the threads and every other event
    as they are (no worker is started or stopped), and a second one
    puts every event back. *)
Theorem toggle_flips_pause_of_live_worker (cs : list Command)
    (devices : list (string * string)) (device_id : string) (dialog : Z)
    (joined start_ok : bool) (tid : nat) :
  let s := session cs in
  device_threads s !! device_id = Some tid ->
  is_alive tid s = true ->
  let s1 := toggle_device devices device_id dialog joined start_ok s in
  device_threads s1 = device_threads s
  /\ stop_events s1 = stop_events s
  /\ pause_events s1 = pause_events s
  /\ threads s1 = threads s
  /\ pause_events s !! device_id = Some (S (2 * tid))
  /\ events s1 = <[S (2 * tid) := negb (event_is_set (S (2 * tid)) s)]> (events s)
  /\ events (toggle_device devices device_id dialog joined start_ok s1) = events s.
Proof.
  intros s Hd Ha s1.
  destruct (invariants_session cs) as [L _]. fold s in L.
  assert (Hp : pause_events s !! device_id = Some (S (2 * tid))).
  { destruct L as (_ & _ & _ & _ & L5). rewrite L5, Hd. reflexivity. }
  pose proof (pause_event_in_store s device_id _ L Hp) as Hlt.
  destruct (lookup_lt_is_Some_2 (events s) (S (2 * tid)) Hlt) as [b Hb].
  destruct (toggle_device_live devices device_id dialog joined start_ok s tid b
              Hp Hd Ha Hb) as [lg Heq].
  fold s1 in Heq.
  assert (Hb1 : events s1 !! S (2 * tid) = Some (negb b)).
  { rewrite Heq. cbn -[Nat.mul]. apply list_lookup_insert_eq. exact Hlt. }
  destruct (toggle_device_live devices device_id dialog joined start_ok s1 tid (negb b))
    as [lg' Heq'].
  { rewrite Heq. exact Hp. }
  { rewrite Heq. exact Hd. }
  { rewrite Heq. exact Ha. }
  { exact Hb1. }
  rewrite Heq'. rewrite Heq. cbn -[Nat.mul].
  unfold event_is_set. rewrite Hb. cbn [default].
  repeat split; try reflexivity; try assumption.
  rewrite list_insert_insert_eq, negb_involutive. now apply list_insert_id.
Qed.

Lemma toggle_flips_pause_of_live_worker_witness :
  let s := session [Basic (Start "emulator-5554" "google Pixel 7" (Some 60) 0 false true)] in
  let s1 := toggle_device [] "emulator-5554" 0 false true s in
  events s = [false; false] /\ events s1 = [false; true]
  /\ events (toggle_device [] "emulator-5554" 0 false true s1) = [false; false].
Proof.
  intros s s1.
  destruct (toggle_flips_pause_of_live_worker
              [Basic (Start "emulator-5554" "google Pixel 7" (Some 60) 0 false true)]
              [] "emulator-5554" 0 false true 0%nat)
    as (_ & _ & _ & _ & _ & H6 & H7).
  - vm_compute. reflexivity.
  - vm_compute. reflexivity.
  - split; [reflexivity |]. split; [exact H6 | exact H7].
Defined.

(** ** Pausing and resuming every device *)

Lemma pause_events_fmap s :
  layout_ok s -> pause_events s = (fun tid => S (2 * tid)) <$> device_threads s.
Proof.
  intros (_ & _ & _ & _ & L5). apply map_eq. intros d.
  rewrite lookup_fmap. apply L5.
Qed.

(** X14. [toggle_all_devices] writes every pause signal of the tables
    and no stop signal.  After pausing all, the status bar counts as
    many paused devices as there are devices; after resuming all it
    counts none; either way the number of running devices and the total
    stay what they were. *)
Theorem toggle_all_devices_counts (cs : list Command) (pause : bool) :
  let s := session cs in
  let s' := toggle_all_devices pause s in
  paused_count s' = (if pause then total_count s else 0%nat)
  /\ running_count s' = running_count s
  /\ total_count s' = total_count s.
Proof.
  intros s s'. destruct (invariants_session cs) as [L _]. fold s in L.
  pose proof (foldr_events_frame (fun _ => pause) (map_to_list (pause_events s)) s)
    as (F1 & F2 & F3 & _ & F5 & F6).
  cbn in F1, F2, F3, F5, F6.
  assert (Hpaused : forall d ev, pause_events s !! d = Some ev ->
                                 event_is_set ev s' = pause).
  { intros d ev H. unfold event_is_set, s', toggle_all_devices. cbn.
    rewrite (foldr_events_all pause); [reflexivity | |].
    - apply in_map_iff. exists (d, ev). split; [reflexivity |].
      apply list_elem_of_In, elem_of_map_to_list, H.
    - eapply pause_event_in_store; eauto. }
  assert (Hstop : forall d ev, stop_events s !! d = Some ev ->
                               event_is_set ev s' = event_is_set ev s).
  { intros d ev H. unfold event_is_set, s', toggle_all_devices. cbn.
    rewrite F6; [reflexivity |].
    intros Hin. apply in_map_iff in Hin as ([d' ev'] & Heq & Hin). cbn in Heq. subst ev'.
    apply list_elem_of_In, elem_of_map_to_list in Hin.
    destruct (pause_event_odd s d' ev L Hin) as [k Hk].
    destruct L as (_ & _ & _ & L4 & _). rewrite L4 in H.
    destruct (device_threads s !! d); [| discriminate]. injection H as H. lia. }
  split; [| split].
  - unfold paused_count.
    replace (pause_events s') with (pause_events s)
      by (symmetry; exact F3).
    destruct pause.
    + rewrite filter_all.
      * unfold total_count. rewrite (pause_events_fmap s L) at 1.
        rewrite length_map_to_list. apply map_size_fmap.
      * intros [d ev] Hin. apply list_elem_of_In, elem_of_map_to_list in Hin.
        exact (Hpaused d ev Hin).
    + rewrite filter_none; [reflexivity |].
      intros [d ev] Hin. apply list_elem_of_In, elem_of_map_to_list in Hin.
      exact (Hpaused d ev Hin).
  - unfold running_count.
    replace (stop_events s') with (stop_events s) by (symmetry; exact F2).
    f_equal. apply filter_ext_in. intros [d ev] Hin.
    apply list_elem_of_In, elem_of_map_to_list in Hin.
    cbn. f_equal. exact (Hstop d ev Hin).
  - unfold total_count.
    replace (device_threads s') with (device_threads s) by (symmetry; exact F1).
    reflexivity.
Qed.

(** ** StatusLogger: what [get_history] returns, and the queue *)

(** X15. [get_history(count)] is the slice [history[-count:]]: for a
    positive [count] the last [count] entries (all of them when there
    are fewer), but for [count = 0] the whole history, not an empty
    list, and for a negative [count] the history without its first
    [-count] entries. *)
Theorem get_history_by_sign (count : Z) (s : StatusLogger.t) :
  StatusLogger.get_history count s
  = match count with
    | Z0 => StatusLogger.history s
    | Zpos _ => last_n (Z.to_nat count) (StatusLogger.history s)
    | Zneg _ => skipn (Z.to_nat (- count)) (StatusLogger.history s)
    end.
Proof.
  unfold StatusLogger.get_history. destruct count as [| p | p].
  - unfold py_slice_from. cbn [Z.opp Z.ltb Z.compare].
    now rewrite Z.min_l by lia.
  - apply py_slice_from_neg. lia.
  - unfold py_slice_from. change (- Z.neg p) with (Z.pos p).
    cbn [Z.ltb Z.compare].
    destruct (Z.le_gt_cases (Z.pos p) (Z.of_nat (length (StatusLogger.history s))))
      as [Hle | Hgt].
    + now rewrite Z.min_l by lia.
    + rewrite Z.min_r by lia. rewrite Nat2Z.id.
      rewrite !skipn_all2 by lia. reflexivity.
Qed.

Lemma log_queue now_str device message level s :
  StatusLogger.message_queue (StatusLogger.log now_str device message level s)
  = StatusLogger.message_queue s ++ [LogEvent (mkEntry now_str device message level)].
Proof. reflexivity. Qed.

Lemma log_all_queue es s :
  StatusLogger.message_queue (StatusLogger.log_all es s)
  = StatusLogger.message_queue s ++ map LogEvent es
  /\ length (StatusLogger.syslog (StatusLogger.log_all es s))
     = (length (StatusLogger.syslog s) + length es)%nat.
Proof.
  revert s. induction es as [| e es IH]; intros s.
  - cbn. rewrite app_nil_r. split; [reflexivity | lia].
  - cbn [StatusLogger.log_all fold_left].
    change (fold_left _ es ?x) with (StatusLogger.log_all es x).
    destruct (IH (StatusLogger.log (le_time e) (le_device e) (le_message e)
                    (le_level e) s)) as [H1 H2].
    rewrite H1, H2. destruct e as [t d m l]. cbn.
    rewrite <- app_assoc, length_app. cbn. split; [reflexivity | lia].
Qed.

(** X16. Only the history is bounded.  Every call of [log] also puts
    the entry on the message queue and writes one line to the logging
    system, and neither is ever trimmed: after any sequence of events
    the queue has received all of them, in publish order, the logging
    system one line each, and the entries the history still holds are
    the last ones the queue received. *)
Theorem queue_receives_every_event (es : list LogEntry) :
  let s := StatusLogger.log_all es StatusLogger.init in
  StatusLogger.message_queue s = map LogEvent es
  /\ length (StatusLogger.syslog s) = length es
  /\ exists evicted,
       StatusLogger.message_queue s
       = map LogEvent (evicted ++ StatusLogger.history s)
       /\ length evicted = (length es - 1000)%nat.
Proof.
  intros s. destruct (log_all_queue es StatusLogger.init) as [H1 H2].
  fold s in H1, H2. cbn in H1, H2.
  split; [exact H1 |]. split; [exact H2 |].
  exists (firstn (length es - 1000) es).
  unfold s. rewrite log_all_history by (cbn; lia). cbn [StatusLogger.init
    StatusLogger.history app].
  fold s. rewrite H1. unfold last_n. rewrite firstn_skipn.
  split; [reflexivity |]. rewrite length_firstn. lia.
Qed.

(** ** Discovery: the list returned *)

Lemma unique_devices_first (device_ids : gset string) (found : list (string * string))
      (id info : string) :
  In (id, info) (Discovery.unique_devices device_ids found) ->
  device_info_of found id = Some info.
Proof.
  revert device_ids. induction found as [| [d di] rest IH]; intros seen Hin;
    [contradiction |].
  cbn [Discovery.unique_devices] in Hin. cbn [device_info_of].
  destruct (decide (d ∈ seen)) as [Hd | Hd].
  - assert (Hid : In id (map fst (Discovery.unique_devices seen rest)))
      by (apply in_map_iff; exists (id, info); auto).
    apply (proj2 (unique_devices_ids seen rest)) in Hid as [_ Hs].
    replace (String.eqb d id) with false
      by (symmetry; apply String.eqb_neq; congruence).
    now apply (IH seen).
  - destruct Hin as [[= -> ->] | Hin]; [now rewrite String.eqb_refl |].
    assert (Hid : In id (map fst (Discovery.unique_devices ({[d]} ∪ seen) rest)))
      by (apply in_map_iff; exists (id, info); auto).
    apply (proj2 (unique_devices_ids _ rest)) in Hid as [_ Hs].
    rewrite not_elem_of_union, not_elem_of_singleton in Hs.
    replace (String.eqb d id) with false
      by (symmetry; apply String.eqb_neq; intuition congruence).
    now apply (IH ({[d]} ∪ seen)).
Qed.

Lemma list_devices_found sh mumu_devices :
  fst (Discovery.list_devices sh mumu_devices []) = []
  /\ snd (Discovery.list_devices sh mumu_devices []) = []
  /\ mumu_devices = []
  \/ exists devices,
       devices <> []
       /\ Discovery.list_devices sh mumu_devices []
          = (Discovery.unique_devices ∅ devices, Discovery.unique_devices ∅ devices)
       /\ (mumu_devices <> [] -> devices = mumu_devices).
Proof.
  unfold Discovery.list_devices.
  destruct mumu_devices as [| m ms].
  - match goal with
    | |- context [match ?found with Ret _ => _ | Raise _ => _ end] =>
        destruct found as [[| d ds] | e]
    end.
    + left. repeat split; reflexivity.
    + right. exists (d :: ds). split; [discriminate |]. split; [reflexivity |].
      intros H. now contradiction H.
    + left. repeat split; reflexivity.
  - right. exists (m :: ms). split; [discriminate |]. split; [reflexivity |].
    reflexivity.
Qed.

(** X17. The list [list_devices] returns names every device once.  A
    search leaves no duplicate device id in its result, and the entry it
    keeps for an id is the first one found, so the lookup by id that
    [start_device] and [toggle_device] make in the list finds the
    entry's own description; what the MuMu manager reported is returned
    with exactly its device ids. *)
Theorem list_devices_names_each_device_once (sh : Shell)
    (mumu_devices : list (string * string)) :
  let found := fst (Discovery.list_devices sh mumu_devices []) in
  List.NoDup (map fst found)
  /\ (forall id info, In (id, info) found -> device_info_of found id = Some info)
  /\ (mumu_devices <> [] ->
      (forall id, In id (map fst found) <-> In id (map fst mumu_devices))
      /\ (forall id info, In (id, info) found ->
            device_info_of mumu_devices id = Some info)).
Proof.
  intros found.
  destruct (list_devices_found sh mumu_devices)
    as [(H1 & _ & H3) | (devices & Hne & Heq & Hm)].
  - fold found in H1. rewrite H1. split; [constructor |].
    split; [intros id info [] |]. intros Hmm. contradiction.
  - assert (Hf : found = Discovery.unique_devices ∅ devices)
      by (unfold found; now rewrite Heq).
    rewrite Hf. split; [apply unique_devices_ids |].
    split.
    + intros id info Hin.
      assert (Hnd : List.NoDup (map fst (Discovery.unique_devices ∅ devices)))
        by apply unique_devices_ids.
      revert Hin Hnd. generalize (Discovery.unique_devices ∅ devices).
      intros l. induction l as [| [d di] l IH]; [contradiction |].
      cbn. intros [[= -> ->] | Hin] Hnd; [now rewrite String.eqb_refl |].
      inversion Hnd as [| ? ? Hd Hnd']; subst.
      replace (String.eqb d id) with false; [now apply IH |].
      symmetry. apply String.eqb_neq. intros ->. apply Hd.
      apply in_map_iff. exists (id, info). auto.
    + intros Hmm. rewrite <- (Hm Hmm). split.
      * intros id. rewrite (proj2 (unique_devices_ids ∅ devices)).
        split; [tauto |]. intros H. split; [exact H | set_solver].
      * intros id info. apply unique_devices_first.
Qed.

Lemma unique_devices_nonempty (devices : list (string * string)) :
  devices <> [] -> Discovery.unique_devices ∅ devices <> [].
Proof.
  destruct devices as [| [d di] rest]; [congruence |]. intros _.
  cbn [Discovery.unique_devices].
  destruct (decide (d ∈ (∅ : gset string))) as [Hd | Hd]; [set_solver | discriminate].
Qed.

(** X18. A successful search is remembered, an empty one is not.  When
    [list_devices] finds devices it stores the list it returns in
    [self.devices], and every later call returns that list without
    asking adb or the MuMu manager again, whatever they would answer by
    then; when it finds nothing (or fails), [self.devices] stays empty
    and the next call searches again. *)
Theorem list_devices_caches_what_it_found (sh sh' : Shell)
    (mumu_devices mumu_devices' : list (string * string)) :
  let found := fst (Discovery.list_devices sh mumu_devices []) in
  let cache := snd (Discovery.list_devices sh mumu_devices []) in
  cache = found
  /\ (found <> [] ->
      Discovery.list_devices sh' mumu_devices' cache = (found, found))
  /\ (found = [] ->
      Discovery.list_devices sh' mumu_devices' cache
      = Discovery.list_devices sh' mumu_devices' []).
Proof.
  intros found cache.
  destruct (list_devices_found sh mumu_devices)
    as [(H1 & H2 & _) | (devices & Hne & Heq & _)].
  - fold found in H1. fold cache in H2. rewrite H1, H2.
    split; [reflexivity |]. split; [congruence | reflexivity].
  - assert (Hf : found = Discovery.unique_devices ∅ devices)
      by (unfold found; now rewrite Heq).
    assert (Hc : cache = Discovery.unique_devices ∅ devices)
      by (unfold cache; now rewrite Heq).
    pose proof (unique_devices_nonempty devices Hne) as Hnn.
    rewrite Hf, Hc. split; [reflexivity |]. split; [| congruence].
    intros _. unfold Discovery.list_devices.
    destruct (Discovery.unique_devices ∅ devices); [congruence | reflexivity].
Qed.

(** X26. [list_devices] returns nothing adb did not report as
    connected.  When the MuMu manager gives no device, every device in
    the result is an endpoint that the output of [adb devices] lists,
    after its title line, in the state [device]: an endpoint listed as
    [offline] or [unauthorized], or anything on the title line, is
    never returned. *)
Theorem list_devices_returns_connected_endpoints_only (sh : Shell) :
  let devices_output :=
    match sh_check_output sh Discovery.devices_cmd with
    | Some out => out
    | None => sh_popen_read sh Discovery.devices_cmd
    end in
  let listed :=
    Discovery.endpoints
      (py_slice_from 1 (split_on (ascii_of_nat 10) (strip devices_output))) in
  Forall (fun entry => In (fst entry) listed)
         (fst (Discovery.list_devices sh [] [])).
Proof.
  intros devices_output listed. unfold Discovery.list_devices.
  fold devices_output.
  set (lines := split_on (ascii_of_nat 10) (strip devices_output)) in *.
  destruct (1 <? Z.of_nat (length lines)); [| constructor].
  destruct (Discovery.identify_lines sh (py_slice_from 1 lines)
              (Discovery.mkLocals [] None)) as [st | e] eqn:E;
    cbn [exc_bind]; [| constructor].
  pose proof (identify_lines_ids sh _ _ st E) as Hids. cbn in Hids.
  fold listed in Hids.
  destruct (Discovery.devices st) as [| d ds] eqn:Ed; [constructor |].
  cbn [fst]. rewrite <- Ed in *. clear Ed.
  apply Forall_forall. intros [id info] Hin. cbn [fst].
  rewrite <- Hids.
  apply list_elem_of_In in Hin.
  assert (Hid : In id (map fst (Discovery.unique_devices ∅ (Discovery.devices st))))
    by (apply in_map_iff; exists (id, info); auto).
  now apply (proj2 (unique_devices_ids ∅ (Discovery.devices st))) in Hid as [Hid _].
Qed.

(** ** AutoClicker: screenshots and file matching *)

(** X19. [take_screenshot] does not notice a failed adb command.  Once
    the [temp] directory is there it issues its three adb commands
    (screencap, pull, rm) whatever each of them answers and returns the
    path [temp/screenshot_<id>.png], the colons of the device id
    replaced; it returns [None] only when the directory cannot be
    created, and then issues no command at all. *)
Theorem take_screenshot_ignores_adb_failures {Angle} (env : Env Angle)
    (makedirs_ok : nat -> bool) (device_id : string) (w : World) :
  let rw := take_screenshot env makedirs_ok device_id w in
  let cmd command :=
    dquote +:+ AutoClicker.adb_path +:+ dquote +:+ " -s " +:+ device_id
           +:+ " " +:+ command in
  let answered n command :=
    match e_sh env n (cmd command) with Some _ => true | None => false end in
  let t := w_tick w in
  if makedirs_ok t then
    fst rw = Ret (Some (screenshot_path_of device_id))
    /\ adb_calls (w_trace (snd rw))
       = adb_calls (w_trace w)
         ++ [(cmd "shell screencap -p /sdcard/screenshot.png",
              answered (S t) "shell screencap -p /sdcard/screenshot.png");
             (cmd ("pull /sdcard/screenshot.png " +:+ screenshot_path_of device_id),
              answered (S (S t))
                ("pull /sdcard/screenshot.png " +:+ screenshot_path_of device_id));
             (cmd "shell rm /sdcard/screenshot.png",
              answered (S (S (S t))) "shell rm /sdcard/screenshot.png")]
  else
    fst rw = Ret None /\ w_trace (snd rw) = w_trace w.
Proof.
  assert (Hadb : forall a b, adb_calls (a ++ b) = adb_calls a ++ adb_calls b)
    by (intros a b; induction a as [| [] a IH]; cbn; congruence).
  unfold take_screenshot, makedirs. munfold. cbn.
  destruct (makedirs_ok (w_tick w)); cbn; [| split; reflexivity].
  destruct (e_sh env (S (w_tick w)) _); cbn.
  all: destruct (e_sh env (S (S (w_tick w))) _); cbn.
  all: destruct (e_sh env (S (S (S (w_tick w)))) _); cbn.
  all: split; [reflexivity |].
  all: rewrite !Hadb; cbn; rewrite <- !app_assoc; reflexivity.
Qed.

(** X20. [find_image] and [find_template] agree.  On a screenshot
    file that decodes to the frame and a template file that exists,
    [find_image] finds the template exactly when [find_template] finds
    it on the frame, at the same centre; it only adds the score. *)
Theorem find_image_agrees_with_find_template (cv : Vision)
    (screenshot_path template_name : string) (screen : Image) :
  imread cv screenshot_path = Some screen ->
  path_exists cv (AutoClicker.template_path template_name) = true ->
  AutoClicker.find_template cv template_name screen
  = exc_bind (find_image cv screenshot_path (AutoClicker.template_path template_name))
             (fun r => Ret (option_map fst r)).
Proof.
  intros Hs He. unfold AutoClicker.find_template, find_image.
  rewrite Hs, He. cbn [negb].
  destruct (imread cv (AutoClicker.template_path template_name)) as [template |];
    [| reflexivity].
  destruct (match_template cv screen template) as [[max_val max_loc] | e]; cbn;
    [| reflexivity].
  destruct (Qle_bool AutoClicker.threshold max_val); reflexivity.
Qed.

Lemma find_image_agrees_with_find_template_witness :
  find_image (shot_cv "temp/screenshot_emulator-5554.png" (demo_frame [5]))
    "temp/screenshot_emulator-5554.png" (AutoClicker.template_path "ok")
  = Ret (Some (360, 520, 95 # 100))
  /\ AutoClicker.find_template
       (shot_cv "temp/screenshot_emulator-5554.png" (demo_frame [5])) "ok"
       (demo_frame [5])
     = Ret (Some (360, 520)).
Proof.
  split; [vm_compute; reflexivity |].
  rewrite (find_image_agrees_with_find_template
             (shot_cv "temp/screenshot_emulator-5554.png" (demo_frame [5]))
             "temp/screenshot_emulator-5554.png" "ok" (demo_frame [5])).
  - vm_compute. reflexivity.
  - vm_compute. reflexivity.
  - vm_compute. reflexivity.
Defined.

(** ** Template names and their files *)

Lemma substring_all (s : string) :
  String.substring 0 (String.length s) s = s.
Proof. induction s as [| c s IH]; cbn; [reflexivity | now rewrite IH]. Qed.

Lemma substring_split (s : string) (i : nat) :
  (i <= String.length s)%nat ->
  s = String.substring 0 i s +:+ String.substring i (String.length s - i) s.
Proof.
  revert i. induction s as [| c s IH]; intros i Hi.
  - destruct i; [reflexivity | cbn in Hi; lia].
  - destruct i as [| i].
    + rewrite Nat.sub_0_r, substring_all. reflexivity.
    + cbn.
      change (String c s
              = String c (String.substring 0 i s
                          +:+ String.substring i (String.length s - i) s)).
      f_equal. apply IH. cbn in Hi. lia.
Qed.

Lemma endswith_app (suffix s : string) :
  endswith suffix s = true -> exists root, s = root +:+ suffix.
Proof.
  unfold endswith. intros H. apply andb_true_iff in H as [Hle Heq].
  apply Nat.leb_le in Hle. apply String.eqb_eq in Heq.
  exists (String.substring 0 (String.length s - String.length suffix) s).
  pose proof (substring_split s (String.length s - String.length suffix)
                ltac:(lia)) as H.
  replace (String.length s - (String.length s - String.length suffix))%nat
    with (String.length suffix) in H by lia.
  rewrite Heq in H. exact H.
Qed.

Lemma last_dot_app_png (root : string) :
  last_dot (root +:+ ".png") = Some (String.length root).
Proof.
  induction root as [| c root IH]; [reflexivity |].
  change (last_dot (String c (root +:+ ".png")) = Some (S (String.length root))).
  cbn [last_dot]. now rewrite IH.
Qed.

Lemma substring_0_app (root s : string) :
  String.substring 0 (String.length root) (root +:+ s) = root.
Proof.
  induction root as [| c root IH].
  - destruct s; reflexivity.
  - change (String c (String.substring 0 (String.length root) (root +:+ s))
            = String c root).
    now rewrite IH.
Qed.

Lemma splitext_root_png (root : string) :
  splitext_root (root +:+ ".png")
  = if all_dots root then root +:+ ".png" else root.
Proof.
  unfold splitext_root. now rewrite last_dot_app_png, substring_0_app.
Qed.

(** X21. The template names lead back to the template files.
    [get_template_names] returns, in the order of the directory
    listing, the name of every [.png] file without its extension, so
    that the path [find_template] builds from a name is the path of the
    file the name came from; the one exception is a file whose name
    before [.png] consists of dots only (as [.png] itself), which keeps
    its whole name.  Other files of the directory give no name. *)
Theorem template_names_lead_back_to_files {Angle} (env : Env Angle)
    (files : list string) (w : World) :
  e_listdir env (w_tick w) = Some files ->
  exists names,
    fst (get_template_names env w) = Ret names
    /\ Forall2 (fun file name =>
                  AutoClicker.template_path name
                  = AutoClicker.template_dir +:+ backslash +:+ file
                  \/ (name = file
                      /\ exists dots, file = dots +:+ ".png" /\ all_dots dots = true))
               (List.filter (endswith ".png") files) names.
Proof.
  intros Hdir. unfold get_template_names. munfold. cbn. rewrite Hdir. cbn.
  eexists. split; [reflexivity |].
  assert (Hpng : forall file, In file (List.filter (endswith ".png") files) ->
                              endswith ".png" file = true)
    by (intros file Hin; now apply filter_In in Hin).
  induction (List.filter (endswith ".png") files) as [| file l IH]; cbn [map];
    constructor.
  - destruct (endswith_app ".png" file (Hpng file (or_introl eq_refl))) as [root ->].
    rewrite splitext_root_png. destruct (all_dots root) eqn:Ed.
    + right. split; [reflexivity |]. exists root. split; [reflexivity | exact Ed].
    + left. reflexivity.
  - apply IH. intros f Hf. apply Hpng. now right.
Qed.

Lemma template_names_lead_back_to_files_witness :
  fst (get_template_names (demo_env None (fun _ => 20) None) (demo_world 0 false))
  = Ret ["lose"; "notupo"; "button10"; "button7"; "ok"]
  /\ AutoClicker.template_path "ok"
     = AutoClicker.template_dir +:+ backslash +:+ "ok.png".
Proof.
  destruct (template_names_lead_back_to_files (demo_env None (fun _ => 20) None)
              ["lose.png"; "notupo.png"; "button10.png"; "button7.png";
               "ok.png"; "notes.txt"] (demo_world 0 false))
    as (names & H1 & _).
  - reflexivity.
  - split; [| reflexivity]. rewrite H1. f_equal.
    revert H1. vm_compute. intros [= <-]. reflexivity.
Defined.

(** ** One device at a time *)

(** Stopping a device leaves the worker of another device as it is. *)
Lemma stop_device_frame device_id joined s other duration :
  layout_ok s -> other <> device_id ->
  runs_for s other duration ->
  runs_for (stop_device device_id joined s) other duration.
Proof.
  intros (L1 & L2 & L3 & L4 & L5) Hne (tid & th & Hd & Hth & Hdev & Ha & Hdur & Hs & Hp).
  destruct (L2 tid th Hth) as [Es Ep]. rewrite Es in Hs. rewrite Ep in Hp.
  unfold runs_for, stop_device.
  destruct (stop_events s !! device_id) as [ev |] eqn:Eev.
  2:{ exists tid, th. rewrite Es, Ep. repeat split; assumption. }
  rewrite L4 in Eev.
  destruct (device_threads s !! device_id) as [tid' |] eqn:Ed'; [| discriminate].
  injection Eev as <-.
  assert (Htid : tid' <> tid).
  { intros ->. destruct (L3 device_id tid Ed') as (th' & Hth' & Hd').
    rewrite Hth in Hth'. injection Hth' as <-. congruence. }
  clear L1 L2 L3 L4 L5.
  destruct s as [dt se pe ths evs lg].
  unfold join_thread, is_alive, thread_exit, with_log, with_threads, event_set,
    with_events.
  cbn -[Nat.mul] in *. rewrite Ed'. cbn -[Nat.mul].
  destruct (ths !! tid') as [th' |] eqn:Eth'; cbn -[Nat.mul].
  - destruct (th_alive th'), joined; cbn -[Nat.mul]; rewrite ?Eth'; cbn -[Nat.mul].
    all: exists tid, th; rewrite Es, Ep, ?list_lookup_insert_ne by lia.
    all: repeat split; assumption.
  - exists tid, th. rewrite Es, Ep, ?list_lookup_insert_ne by lia.
    repeat split; assumption.
Qed.

(** X22. Stopping a device concerns that device only.  After any
    history of the tables, [stop_device] for one device leaves every
    other device that is running (live thread, stop and pause signals
    unset) running, with the same thread and planned duration, and it
    removes no device from the tables. *)
Theorem stop_device_leaves_other_devices_alone (cs : list Command)
    (device_id other : string) (joined : bool) (duration : Z) :
  let s := session cs in
  let s' := stop_device device_id joined s in
  (other <> device_id -> runs_for s other duration -> runs_for s' other duration)
  /\ device_threads s' = device_threads s
  /\ stop_events s' = stop_events s
  /\ pause_events s' = pause_events s.
Proof.
  intros s s'. destruct (invariants_session cs) as [L _]. fold s in L.
  split; [intros Hne Hr; now apply stop_device_frame |].
  unfold s', stop_device.
  destruct (stop_events s !! device_id) as [ev |]; [| repeat split; reflexivity].
  cbn. destruct (device_threads s !! device_id) as [tid |];
    [| repeat split; reflexivity].
  unfold join_thread, thread_exit. cbn.
  destruct (is_alive tid _), joined; repeat split; reflexivity.
Qed.

Lemma start_device_runs device_id device_info duration dialog joined s :
  layout_ok s -> duration <> 0 ->
  runs_for (start_device device_id device_info (Some duration) dialog joined true s)
           device_id duration.
Proof.
  intros L Hdur. unfold start_device. cbn [default].
  apply Z.eqb_neq in Hdur. rewrite Hdur. cbn [andb].
  pose proof (layout_ok_stop_device device_id joined s L) as (L1 & _).
  set (s1 := stop_device device_id joined s) in *.
  exists (length (threads s1)),
    (mkThread device_id (length (events s1)) (S (length (events s1))) duration true).
  cbn -[Nat.mul].
  rewrite !lookup_insert_eq.
  rewrite list_lookup_insert_eq by (rewrite length_app; cbn; lia).
  rewrite !lookup_app_r by lia.
  rewrite Nat.sub_diag.
  replace (S (length (events s1)) - length (events s1))%nat with 1%nat by lia.
  repeat split; reflexivity.
Qed.

Lemma start_device_frame device_id device_info duration dialog joined start_ok s
      other planned :
  layout_ok s -> other <> device_id ->
  runs_for s other planned ->
  runs_for (start_device device_id device_info duration dialog joined start_ok s)
           other planned.
Proof.
  intros L Hne Hr. unfold start_device.
  destruct (_ && _); [exact Hr |].
  pose proof (stop_device_frame device_id joined s other planned L Hne Hr)
    as (tid & th & Hd & Hth & Hdev & Ha & Hdur & Hs & Hp).
  set (s1 := stop_device device_id joined s) in *.
  assert (Hlt : (tid < length (threads s1))%nat) by (eapply lookup_lt_Some; eauto).
  assert (Hls : (th_stop_event th < length (events s1))%nat)
    by (eapply lookup_lt_Some; eauto).
  assert (Hlp : (th_pause_event th < length (events s1))%nat)
    by (eapply lookup_lt_Some; eauto).
  exists tid, th. destruct start_ok; cbn -[Nat.mul].
  - rewrite lookup_insert_ne by congruence.
    rewrite list_lookup_insert_ne by lia.
    rewrite !lookup_app_l by assumption.
    repeat split; assumption.
  - rewrite lookup_delete_ne, lookup_insert_ne by congruence.
    rewrite !lookup_app_l by assumption.
    repeat split; assumption.
Qed.

(** X23. [start_task] gives every selected device its own worker.
    With a positive duration, a selection that names no device twice
    and threads that start, every selected device ends up running (a
    live thread of its own in the tables, stop and pause signals unset)
    for the duration chosen once for all of them, and the devices
    outside the selection that were running keep running as before. *)
Theorem start_task_starts_every_selected_device (cs : list Command)
    (duration : Z) (selected : list (string * string)) (joined : string -> bool) :
  let s := session cs in
  0 < duration ->
  List.NoDup (map fst selected) ->
  let s' := start_task duration selected joined (fun _ => true) s in
  (forall device_id, In device_id (map fst selected) ->
     runs_for s' device_id duration)
  /\ (forall other planned, ~ In other (map fst selected) ->
        runs_for s other planned -> runs_for s' other planned).
Proof.
  intros s Hpos Hnd s'. destruct (invariants_session cs) as [L _]. fold s in L.
  unfold s', start_task.
  replace (duration <=? 0) with false by (symmetry; apply Z.leb_gt; exact Hpos).
  assert (Hfold :
    forall l s0, layout_ok s0 -> List.NoDup (map fst l) ->
      let s1 := fold_left
                  (fun s entry =>
                     start_device (fst entry) (snd entry) (Some duration) 0
                       (joined (fst entry)) true s) l s0 in
      layout_ok s1
      /\ (forall d, In d (map fst l) -> runs_for s1 d duration)
      /\ (forall other planned, ~ In other (map fst l) ->
            runs_for s0 other planned -> runs_for s1 other planned)).
  { clear - Hpos. intros l. induction l as [| [d i] l IH]; intros s0 L0 Hnd; cbn.
    - split; [exact L0 |]. split; [intros d [] | auto].
    - inversion Hnd as [| ? ? Hd Hnd']; subst.
      pose proof (layout_ok_start_device d i (Some duration) 0 (joined d) true s0 L0)
        as L1.
      destruct (IH _ L1 Hnd') as (L2 & H1 & H2).
      split; [exact L2 |]. split.
      + intros d' [<- | Hin]; [| now apply H1].
        apply H2; [exact Hd |]. apply start_device_runs; [exact L0 | lia].
      + intros other planned Hn Hr. cbn in Hn. apply H2; [tauto |].
        apply start_device_frame; [exact L0 | intros ->; tauto | exact Hr]. }
  destruct (Hfold selected s L Hnd) as (_ & H1 & H2).
  destruct selected as [| entry rest]; [| split; assumption].
  split; [intros d [] | auto].
Qed.

Lemma start_task_starts_every_selected_device_witness :
  let s' := start_task 60 [("emulator-5554", "google Pixel 7");
                           ("emulator-5556", "google Pixel 8")]
              (fun _ => false) (fun _ => true) (session []) in
  runs_for s' "emulator-5554" 60 /\ runs_for s' "emulator-5556" 60.
Proof.
  intros s'.
  destruct (start_task_starts_every_selected_device [] 60
              [("emulator-5554", "google Pixel 7"); ("emulator-5556", "google Pixel 8")]
              (fun _ => false)) as [H _].
  - lia.
  - repeat constructor; cbn; intuition discriminate.
  - split; apply H; cbn; auto.
Defined.

(** ** Why a worker ends *)

Lemma worker_loop_finished {Angle} (np : Numpy Angle) (cv : Vision)
    (env : Env Angle) fuel device_id device_info end_time w w' :
  worker_loop np cv env fuel device_id device_info end_time w = (Ret Finished, w') ->
  w_stop w' = true \/ end_time <= w_now w' \/ w_pause w' = true.
Proof.
  revert w. induction fuel as [| fuel IH]; intros w; [discriminate |].
  cbn [worker_loop]. unfold bind at 1.
  destruct (stop_is_set env w) as [r w1] eqn:E1.
  assert (S1 : exists b, r = Ret b /\ b = w_stop w1).
  { revert E1. munfold. cbn. intros [= <- <-]. eauto. }
  destruct S1 as (stopped & -> & Hst).
  unfold bind at 1, time_time, gets.
  destruct stopped; cbn [orb].
  { intros [= <-]. left. symmetry. exact Hst. }
  destruct (w_now w1 <? end_time) eqn:Hlt; cbn [negb].
  2:{ intros [= <-]. right. left. now apply Z.ltb_ge. }
  unfold bind at 1.
  destruct (pause_is_set env w1) as [r w2] eqn:E2.
  assert (S2 : exists b, r = Ret b).
  { revert E2. munfold. cbn.
    destruct (e_pause env (w_tick w1)); intros [= <- <-]; eauto. }
  destruct S2 as (paused & ->).
  destruct paused.
  - unfold bind at 1.
    destruct (sleep env 1000 w2) as [r w3] eqn:E3.
    assert (S3 : exists b, r = Ret b).
    { revert E3. munfold. cbn. intros [= <- <-]. eauto. }
    destruct S3 as (u & ->). apply IH.
  - unfold bind at 1.
    pose proof (guarded_iteration_break np cv env device_id device_info w2) as Hb.
    destruct (guarded_iteration np cv env device_id device_info w2) as [[[|] | e] w3];
      cbn [fst snd] in Hb.
    + apply IH.
    + intros [= <-]. right. right.
      destruct (Hb eq_refl) as (screen & _ & _ & Hp & _). exact Hp.
    + discriminate.
Qed.

(** X24. A worker leaves its loop for one of three reasons only: it
    saw the stop signal set, the clock reached [end_time], or a pass
    detected [lose] or [notupo] and set the pause signal.  Whenever the
    loop has ended, one of the three holds in the state it left; in
    particular a worker that ended before its time without being
    stopped is paused, which is the state in which [toggle_device]
    starts it again. *)
Theorem worker_ends_for_a_reason {Angle} (np : Numpy Angle) (cv : Vision)
    (env : Env Angle) (fuel : nat) (device_id device_info : string)
    (end_time : Z) (w : World) :
  let rw := worker_loop np cv env fuel device_id device_info end_time w in
  fst rw = Ret Finished ->
  w_stop (snd rw) = true
  \/ end_time <= w_now (snd rw)
  \/ w_pause (snd rw) = true.
Proof.
  intros rw H. subst rw.
  destruct (worker_loop np cv env fuel device_id device_info end_time w)
    as [r w'] eqn:E.
  cbn [fst snd] in H |- *. subst r.
  exact (worker_loop_finished np cv env fuel device_id device_info end_time w w' E).
Qed.

Lemma worker_ends_for_a_reason_witness :
  let rw := worker_loop numpy_axis demo_cv
              (demo_env (Some (demo_frame [1])) (fun _ => 20) None) 5
              "emulator-5554" "google Pixel 7" 600000 (demo_world 0 false) in
  fst rw = Ret Finished
  /\ (w_stop (snd rw) = true \/ 600000 <= w_now (snd rw) \/ w_pause (snd rw) = true).
Proof.
  intros rw.
  assert (H : fst rw = Ret Finished) by (vm_compute; reflexivity).
  split; [exact H |].
  exact (worker_ends_for_a_reason numpy_axis demo_cv
           (demo_env (Some (demo_frame [1])) (fun _ => 20) None) 5
           "emulator-5554" "google Pixel 7" 600000 (demo_world 0 false) H).
Defined.

(** ** The detailed messages are throttled *)

Ltac published_solve :=
  cbn; rewrite <- ?app_assoc;
  (split; [first [left; reflexivity | right; split; reflexivity] |]);
  eexists; (split; [reflexivity |]);
  first [discriminate | intros _; repeat constructor].

Lemma click_templates_verbose {Angle} (np : Numpy Angle) (cv : Vision)
    (env : Env Angle) device_id device_info current_time verbose_log screen names w :
  let w' := snd (click_templates np cv env device_id device_info current_time
                   verbose_log screen names w) in
  (w_last_log_time w' = w_last_log_time w
   \/ (verbose_log = true /\ w_last_log_time w' = current_time))
  /\ exists published,
       StatusLogger.message_queue (w_logger w')
       = StatusLogger.message_queue (w_logger w) ++ published
       /\ (verbose_log = false ->
           Forall (fun m => is_verbose_message m = false) published).
Proof.
  revert w. induction names as [| template_name rest IH]; intros w.
  - cbn. split; [now left |]. exists []. rewrite app_nil_r.
    split; [reflexivity | constructor].
  - cbn [click_templates]. munfold. cbn.
    destruct (w_stop w || e_stop env (w_tick w)); cbn.
    { split; [now left |]. exists []. rewrite app_nil_r.
      split; [reflexivity | constructor]. }
    destruct (e_pause env (S (w_tick w))) as [[|]|]; cbn;
      [| | destruct (w_pause w); cbn].
    all: try (split; [now left |]; exists []; rewrite app_nil_r;
              split; [reflexivity | constructor]).
    all: destruct (find_template_never_raises cv template_name screen) as [r Hr];
      rewrite Hr; destruct r as [[x y]|]; cbn.
    all: try match goal with
         | |- context [click_templates _ _ _ _ _ _ _ _ _ ?w1] => exact (IH w1)
         end.
    all: destruct verbose_log, (String.eqb template_name "button10"),
           (String.eqb template_name "button7"); cbn.
    all: oracle_cases.
    all: repeat match goal with
           | |- context [e_ui_ok ?e ?n] => destruct (e_ui_ok e n); cbn
           end.
    all: published_solve.
Qed.

(** X27. The detailed messages are throttled.  A pass publishes the
    waiting message or a found-button message only when it starts more
    than 10 s after [last_log_time], and [last_log_time] moves only in
    such a pass, to the pass's [current_time]: a pass that starts
    within 10 s of it leaves it alone and publishes neither message,
    whatever else it publishes (clicks, detections, errors). *)
Theorem verbose_messages_are_throttled {Angle} (np : Numpy Angle) (cv : Vision)
    (env : Env Angle) (device_id device_info : string) (w : World) :
  let w' := snd (guarded_iteration np cv env device_id device_info w) in
  let verbose_log := 10000 <? w_now w - w_last_log_time w in
  (w_last_log_time w' = w_last_log_time w
   \/ (verbose_log = true /\ w_last_log_time w' = w_now w))
  /\ exists published,
       StatusLogger.message_queue (w_logger w')
       = StatusLogger.message_queue (w_logger w) ++ published
       /\ (verbose_log = false ->
           Forall (fun m => is_verbose_message m = false) published).
Proof.
  unfold guarded_iteration, iteration. munfold. cbn.
  destruct (e_screen env (w_tick w)) as [screen |]; cbn.
  2: published_solve.
  destruct (find_template_never_raises cv "lose" screen) as [r Hr].
  rewrite Hr. destruct r as [[x y] |]; cbn.
  { destruct (e_ui_ok env _); published_solve. }
  destruct (find_template_never_raises cv "notupo" screen) as [r' Hr'].
  rewrite Hr'. destruct r' as [[x y] |]; cbn.
  { destruct (e_ui_ok env _); published_solve. }
  destruct (w_now w - w_last_click_time w <? click_cooldown); cbn.
  { split; [now left |]. exists []. rewrite app_nil_r.
    split; [reflexivity | constructor]. }
  destruct (e_listdir env _); cbn.
  1: match goal with
     | |- context [click_templates _ _ _ ?a ?b ?c ?d ?e ?ns ?w0] =>
         destruct (click_templates_verbose np cv env a b c d e ns w0)
           as (Hl & published & Hq & Hv);
         destruct (click_templates np cv env a b c d e ns w0) as [[[|] | err] w1]
     end.
  all: try (cbn in Hl, Hq).
  all: destruct (10000 <? w_now w - w_last_log_time w) eqn:Ev; cbn.
  all: try (split; [first [exact Hl | left; exact (proj1 (or_comm _ _) Hl)
                          | right; split; reflexivity | left; reflexivity] |]).
  all: try (rewrite Hq, <- ?app_assoc; eexists; (split; [reflexivity |]);
            first [discriminate
                  | intros Hf; apply Forall_app; split;
                    [exact (Hv Hf) | repeat constructor]
                  | exact Hv]).
  all: try published_solve.
  all: cbn; rewrite <- ?app_assoc.
  all: first [ exists []; rewrite app_nil_r; split; [reflexivity | constructor]
             | eexists; (split; [reflexivity |]);
               first [discriminate | intros _; repeat constructor] ].
Qed.

(** ** The consumer of the message queue *)

Lemma refreshes_app a b : refreshes (a ++ b) = (refreshes a + refreshes b)%nat.
Proof. induction a as [| [] a IH]; cbn; congruence. Qed.

Lemma drain_spec {Angle} (env : Env Angle) (n : nat) (w : World) :
  let rw := drain env n w in
  (fst rw = Ret tt \/ fst rw = Raise "TclError")
  /\ StatusLogger.history (w_logger (snd rw)) = StatusLogger.history (w_logger w)
  /\ StatusLogger.syslog (w_logger (snd rw)) = StatusLogger.syslog (w_logger w)
  /\ exists k,
       (k <= n)%nat
       /\ StatusLogger.message_queue (w_logger (snd rw))
          = skipn k (StatusLogger.message_queue (w_logger w))
       /\ refreshes (w_trace (snd rw)) = (refreshes (w_trace w) + k)%nat
       /\ (k <= length (StatusLogger.message_queue (w_logger w)))%nat
       /\ ((forall m, e_ui_ok env m = true) ->
           fst rw = Ret tt
           /\ k = Nat.min n (length (StatusLogger.message_queue (w_logger w)))).
Proof.
  revert w. induction n as [| n IH]; intros w.
  - cbn. split; [now left |]. split; [reflexivity |]. split; [reflexivity |].
    exists 0%nat. cbn. repeat split; try lia; try reflexivity.
  - cbn [drain]. unfold get_nowait. munfold. cbn.
    destruct (StatusLogger.message_queue (w_logger w)) as [| [data] rest] eqn:Eq; cbn.
    + rewrite ?Eq. split; [now left |]. split; [reflexivity |]. split; [reflexivity |].
      exists 0%nat. cbn. repeat split; try lia; try reflexivity.
    + destruct (e_ui_ok env (w_tick w)) eqn:Eui; cbn.
      * match goal with
        | |- context [drain _ _ ?w1] => set (W1 := w1)
        end.
        assert (Hq : StatusLogger.message_queue (w_logger W1) = rest) by reflexivity.
        assert (Hh : StatusLogger.history (w_logger W1)
                     = StatusLogger.history (w_logger w)) by reflexivity.
        assert (Hs : StatusLogger.syslog (w_logger W1)
                     = StatusLogger.syslog (w_logger w)) by reflexivity.
        assert (Ht : w_trace W1 = w_trace w ++ [EvUI]) by reflexivity.
        clearbody W1.
        destruct (IH W1) as (H1 & H2 & H3 & k & K1 & K2 & K3 & K4 & K5).
        rewrite Hq in K2, K4, K5. rewrite Ht, refreshes_app in K3. cbn in K3.
        split; [exact H1 |]. split; [congruence |]. split; [congruence |].
        exists (S k). rewrite ?Eq. cbn [skipn length].
        split; [lia |]. split; [exact K2 |]. split; [lia |]. split; [lia |].
        intros Hui. destruct (K5 Hui) as [K6 K7]. split; [exact K6 | lia].
      * rewrite ?Eq. split; [now right |]. split; [reflexivity |].
        split; [reflexivity |].
        exists 1%nat. cbn [skipn length]. rewrite refreshes_app. cbn.
        split; [lia |]. split; [reflexivity |]. split; [lia |]. split; [lia |].
        intros Hui. rewrite Hui in Eui. discriminate.
Qed.

(** X25. [process_message_queue] takes at most 100 messages off the
    queue per call, oldest first, and refreshes the status display once
    for each; it never touches the history and never raises.  When the
    refreshes work it takes exactly [min(100, n)] of the [n] messages
    waiting; a refresh that fails ends the call with its message already
    taken and one error line written to the logging system. *)
Theorem process_message_queue_drains_in_order {Angle} (env : Env Angle) (w : World) :
  let rw := process_message_queue env w in
  let waiting := StatusLogger.message_queue (w_logger w) in
  fst rw = Ret tt
  /\ StatusLogger.history (w_logger (snd rw)) = StatusLogger.history (w_logger w)
  /\ exists k,
       (k <= 100)%nat /\ (k <= length waiting)%nat
       /\ StatusLogger.message_queue (w_logger (snd rw)) = skipn k waiting
       /\ refreshes (w_trace (snd rw)) = (refreshes (w_trace w) + k)%nat
       /\ (length (StatusLogger.syslog (w_logger (snd rw)))
           <= S (length (StatusLogger.syslog (w_logger w))))%nat
       /\ ((forall m, e_ui_ok env m = true) ->
           k = Nat.min 100 (length waiting)
           /\ StatusLogger.syslog (w_logger (snd rw))
              = StatusLogger.syslog (w_logger w)).
Proof.
  intros rw waiting. subst rw waiting. unfold process_message_queue, catch.
  pose proof (drain_spec env 100 w) as (H1 & H2 & H3 & k & K1 & K2 & K3 & K4 & K5).
  destruct (drain env 100 w) as [r w1]. cbn [fst snd] in *.
  destruct H1 as [-> | ->].
  - cbn. split; [reflexivity |]. split; [exact H2 |].
    exists k. rewrite H3. repeat split; try assumption; try lia.
    + now apply K5.
  - unfold logger_error. munfold. cbn.
    split; [reflexivity |]. split; [exact H2 |].
    exists k. rewrite H3, length_app. cbn.
    split; [exact K1 |]. split; [exact K4 |]. split; [exact K2 |].
    split; [exact K3 |]. split; [lia |].
    intros Hui. destruct (K5 Hui) as [K6 _]. discriminate.
Qed.
